(** * SecureVault: access control, sharing and filename sanitisation

    A shallow embedding of the Go back end of the document vault:

    - [pkg/utils/validation.go]: [SanitizeFilename], [ValidateContentType];
    - [internal/models]: [User], [Document], [DocumentShare], [ShareRequest];
    - [internal/services]: [DocumentService] ([Create], [GetByID],
      [GetByOwner], [GetSharedWithUser], [Delete], [Share], [RemoveShare],
      [GetFilePath], [CanAccess], [Rename]) and [UserService.Create];
    - [internal/handlers]: [DocumentHandler.ShareDocument];
    - the schema of [DB.Migrate] (primary keys, the UNIQUE constraints, the
      VARCHAR columns and the owner of a document as a foreign key).

    Go strings are byte strings ([string], one [ascii] per byte), [int] and
    [int64] are [Z] with the 64-bit wrap-around written out where the code
    multiplies, the three SQL tables are lists of rows, and every service
    method is a function from the state before the call to the state after
    it and the returned error.

    The database is PostgreSQL as the queries use it: a statement fails on
    a taken primary key and on a negative LIMIT or OFFSET, and
    [INSERT ... ON CONFLICT] follows [UNIQUE(document_id, shared_with_id)].
    A statement also fails on a value that its VARCHAR column refuses and,
    in [documents], on an owner that [users] does not hold. Lost
    connections are outside the model, and a call of a service method
    sees one state of the database. A call reads the clock once. *)

From Stdlib Require Import ZArith List String Ascii Bool Lia DecimalString.
Import ListNotations.

Open Scope Z_scope.
Open Scope list_scope.

(** ** Errors *)

(** The sentinel errors of [services] and [utils]; [ErrWrap] is
    [fmt.Errorf("...: %w", err)], [ErrDB] an error raised by the database
    (a violated constraint, a rejected query) and [ErrIO] one raised by the
    file system. *)
Inductive error : Type :=
| ErrDocumentNotFound
| ErrAccessDenied
| ErrShareNotFound
| ErrUserNotFound
| ErrUserExists
| ErrInvalidFilename
| ErrInvalidContentType
| ErrDB (msg : string)
| ErrIO (msg : string)
| ErrWrap (msg : string) (err : error).

Inductive result (A : Type) : Type :=
| Ok (a : A)
| Err (e : error).
Arguments Ok {A} a.
Arguments Err {A} e.

(** ** The Go library functions the code calls, on byte lists *)

Module GoLib.

Definition bytes := list ascii.

Definition of_string (s : string) : bytes := list_ascii_of_string s.
Definition to_string (b : bytes) : string := string_of_list_ascii b.

(** [s == t] *)
Definition bytes_eqb (s t : bytes) : bool :=
  if list_eq_dec ascii_dec s t then true else false.

(** [len(s)] *)
Definition len (b : bytes) : Z := Z.of_nat (List.length b).

Fixpoint dropWhile {A : Type} (p : A -> bool) (l : list A) : list A :=
  match l with
  | [] => []
  | x :: l' => if p x then dropWhile p l' else l
  end.

Fixpoint takeWhile {A : Type} (p : A -> bool) (l : list A) : list A :=
  match l with
  | [] => []
  | x :: l' => if p x then x :: takeWhile p l' else []
  end.

(** [os.IsPathSeparator] on Unix. *)
Definition IsPathSeparator (c : ascii) : bool := Ascii.eqb c "/".

(** [filepath.Base]: the empty path gives ".", trailing separators are
    dropped, the last element is what follows the last separator, and a path
    of separators only gives "/". *)
Definition Base (path : bytes) : bytes :=
  match path with
  | [] => ["."%char]
  | _ =>
      let stripped := rev (dropWhile IsPathSeparator (rev path)) in
      let last := rev (takeWhile (fun c => negb (IsPathSeparator c)) (rev stripped)) in
      match last with
      | [] => ["/"%char]
      | _ => last
      end
  end.

(** [filepath.Ext]: scanning from the end, the suffix that starts at the
    last dot of the last element; [r] is what is left of the path, reversed,
    and [acc] what was already passed. *)
Fixpoint ext_scan (r acc : bytes) : bytes :=
  match r with
  | [] => []
  | c :: r' =>
      if IsPathSeparator c then []
      else if Ascii.eqb c "." then c :: acc
      else ext_scan r' (c :: acc)
  end.

Definition Ext (path : bytes) : bytes := ext_scan (rev path) [].

(** A byte that [ext_scan] passes over: neither a dot nor a separator. *)
Definition plain (c : ascii) : Prop := c <> "."%char /\ c <> "/"%char.

(** [strings.ReplaceAll(s, old, "")] for a one-byte [old]: every
    occurrence of the byte is removed. *)
Definition ReplaceAll_empty (s : bytes) (old : ascii) : bytes :=
  filter (fun c => negb (Ascii.eqb c old)) s.

(** The table [asciiSpace] of package [strings]: tab, LF, VT, FF, CR and
    the space. *)
Definition asciiSpace (c : ascii) : bool :=
  Ascii.eqb c "009" || Ascii.eqb c "010" || Ascii.eqb c "011"
  || Ascii.eqb c "012" || Ascii.eqb c "013" || Ascii.eqb c " ".

(** The two-byte UTF-8 encodings that [unicode.IsSpace] accepts:
    U+0085 (C2 85) and U+00A0 (C2 A0). *)
Definition space2 (c1 c2 : ascii) : bool :=
  Ascii.eqb c1 "194" && (Ascii.eqb c2 "133" || Ascii.eqb c2 "160").

(** The three-byte ones: U+1680 (E1 9A 80), U+2000..U+200A (E2 80 80..8A),
    U+2028, U+2029 (E2 80 A8, A9), U+202F (E2 80 AF), U+205F (E2 81 9F) and
    U+3000 (E3 80 80). *)
Definition space3 (c1 c2 c3 : ascii) : bool :=
  (Ascii.eqb c1 "225" && Ascii.eqb c2 "154" && Ascii.eqb c3 "128")
  || (Ascii.eqb c1 "226" && Ascii.eqb c2 "128"
      && ((128 <=? Z.of_N (N_of_ascii c3)) && (Z.of_N (N_of_ascii c3) <=? 138)
          || Ascii.eqb c3 "168" || Ascii.eqb c3 "169" || Ascii.eqb c3 "175"))
  || (Ascii.eqb c1 "226" && Ascii.eqb c2 "129" && Ascii.eqb c3 "159")
  || (Ascii.eqb c1 "227" && Ascii.eqb c2 "128" && Ascii.eqb c3 "128").

(** Leading white space: [strings.TrimLeftFunc(s, unicode.IsSpace)]. A rune
    is white space exactly when its bytes are one of the encodings above
    (an invalid sequence decodes to U+FFFD, which is not), so the runes are
    stripped by their encodings. *)
Fixpoint trimLeft (s : bytes) : bytes :=
  match s with
  | [] => []
  | c1 :: t1 =>
      if asciiSpace c1 then trimLeft t1
      else
        match t1 with
        | [] => s
        | c2 :: t2 =>
            if space2 c1 c2 then trimLeft t2
            else
              match t2 with
              | [] => s
              | c3 :: t3 => if space3 c1 c2 c3 then trimLeft t3 else s
              end
        end
  end.

(** Trailing white space, on the reversed string: the last rune is decoded
    backwards ([utf8.DecodeLastRuneInString]), so its bytes come last
    first. *)
Fixpoint trimRightRev (r : bytes) : bytes :=
  match r with
  | [] => []
  | c1 :: t1 =>
      if asciiSpace c1 then trimRightRev t1
      else
        match t1 with
        | [] => r
        | c2 :: t2 =>
            if space2 c2 c1 then trimRightRev t2
            else
              match t2 with
              | [] => r
              | c3 :: t3 => if space3 c3 c2 c1 then trimRightRev t3 else r
              end
        end
  end.

(** [strings.TrimSpace] *)
Definition TrimSpace (s : bytes) : bytes :=
  rev (trimRightRev (rev (trimLeft s))).

(** [strings.Index(s, sep)] for a one-byte [sep]; -1 when absent. *)
Fixpoint IndexByte_from (s : bytes) (sep : ascii) (i : Z) : Z :=
  match s with
  | [] => -1
  | c :: s' => if Ascii.eqb c sep then i else IndexByte_from s' sep (i + 1)
  end.

Definition Index (s : bytes) (sep : ascii) : Z := IndexByte_from s sep 0.

End GoLib.

(** ** internal/models *)

Module Models.

(** A [uuid.UUID] is a 128-bit value. *)
Definition UUID := N.

(** A [time.Time] is an instant on an integer time line (seconds). *)
Definition Time := Z.

Module User.
Record t : Type := mk {
  ID : UUID;
  Email : string;
  Password : string;
  Name : string;
  CreatedAt : Time;
  UpdatedAt : Time
}.
End User.

Module Document.
Record t : Type := mk {
  ID : UUID;
  OwnerID : UUID;
  Name : string;
  OriginalName : string;
  Size : Z;
  MimeType : string;
  EncryptionKey : string;
  EncryptionAlgo : string;
  FilePath : string;
  IsEncrypted : bool;
  CreatedAt : Time;
  UpdatedAt : Time;
  DeletedAt : option Time
}.
End Document.

(** A row of [document_shares]. The row's own [id] is generated by the
    database and no query of the service reads it; it is left out. *)
Module DocumentShare.
Record t : Type := mk {
  DocumentID : UUID;
  SharedByID : UUID;
  SharedWithID : UUID;
  Permission : string;
  ExpiresAt : option Time;
  CreatedAt : Time
}.
End DocumentShare.

Module ShareRequest.
Record t : Type := mk {
  Email : string;
  Permission : string
}.
End ShareRequest.

Module SharedUserInfo.
Record t : Type := mk {
  Email : string;
  Name : string;
  Permission : string
}.
End SharedUserInfo.

Module DocumentResponse.
Record t : Type := mk {
  Doc : Document.t;
  OwnerName : string;
  SharedWith : list SharedUserInfo.t
}.
End DocumentResponse.

Module ErrorResponse.
Record t : Type := mk {
  Error : string;
  Message : string
}.
End ErrorResponse.

End Models.

(** ** What the model takes from the Go runtime and the libraries

    [strings.ToLower] (Unicode case tables), [filepath.Join], the textual
    form of a UUID and the [email] rule of the request validator are used
    by the code but decide none of the properties below; they are the
    members of a class, instantiated where a concrete run is needed. *)
Class Runtime : Type := {
  ToLower : string -> string;
  filepath_Join : string -> string -> string;
  UUID_String : Models.UUID -> string;
  validator_email : string -> bool
}.

(** ** What the model takes from PostgreSQL

    [varchar n s] is the answer of the server to the string [s] bound to a
    column of type [VARCHAR(n)]: the text of the error it raises (a value
    of more than [n] characters, a null byte, bytes that are no text in
    the encoding of the database), or [None] when it takes the value. The
    statement that binds a refused value fails as a whole and writes
    nothing. A value that is taken is stored as it is: the blanks that
    PostgreSQL cuts from the end of a value that is too long by blanks
    only are kept. *)
Class Database : Type := {
  varchar : Z -> string -> option string
}.

(** ** pkg/utils/validation.go *)

Module Utils.
Import GoLib.

(** The first half of [SanitizeFilename]: the base name, without path
    separators, null bytes and surrounding white space. *)
Definition cleaned (filename : bytes) : bytes :=
  let filename := Base filename in
  let filename := ReplaceAll_empty filename "/" in
  let filename := ReplaceAll_empty filename "\" in
  let filename := ReplaceAll_empty filename zero in
  TrimSpace filename.

(** [SanitizeFilename], on the bytes of the name. *)
Definition SanitizeFilename_bytes (filename : bytes) : result bytes :=
  match filename with
  | [] => Err ErrInvalidFilename
  | _ =>
      let filename := cleaned filename in
      if bytes_eqb filename [] || bytes_eqb filename ["."%char]
         || bytes_eqb filename ["."%char; "."%char]
      then Err ErrInvalidFilename
      else if 255 <? len filename then
        let ext := Ext filename in
        let maxBase := 255 - len ext in
        if maxBase <? 1 then Err ErrInvalidFilename
        else Ok (firstn (Z.to_nat maxBase) filename ++ ext)
      else Ok filename
  end.

Definition SanitizeFilename (filename : string) : result string :=
  match SanitizeFilename_bytes (of_string filename) with
  | Ok b => Ok (to_string b)
  | Err e => Err e
  end.

(** Neither a path separator (of Unix or of Windows) nor a null byte. *)
Definition safe_byte (c : ascii) : Prop :=
  c <> "/"%char /\ c <> "\"%char /\ c <> zero.

(** The names the sanitiser refuses after cleaning. *)
Definition collapsed (name : bytes) : Prop :=
  name = [] \/ name = ["."%char] \/ name = ["."%char; "."%char].

(** [AllowedMIMETypes] *)
Definition AllowedMIMETypes : list string :=
  [ "application/pdf";
    "application/msword";
    "application/vnd.openxmlformats-officedocument.wordprocessingml.document";
    "application/vnd.ms-excel";
    "application/vnd.openxmlformats-officedocument.spreadsheetml.sheet";
    "application/vnd.ms-powerpoint";
    "application/vnd.openxmlformats-officedocument.presentationml.presentation";
    "text/plain";
    "text/csv";
    "text/markdown";
    "application/json";
    "application/xml";
    "text/xml";
    "image/jpeg";
    "image/png";
    "image/gif";
    "image/webp";
    "image/svg+xml";
    "application/zip";
    "application/x-zip-compressed";
    "application/gzip";
    "application/x-tar" ]%string.

(** [ValidateContentType]: [None] is the nil error. *)
Definition ValidateContentType `{Runtime} (contentType : string) : option error :=
  let idx := Index (of_string contentType) ";" in
  let contentType :=
    if negb (idx =? -1)
    then to_string (firstn (Z.to_nat idx) (of_string contentType))
    else contentType in
  let contentType := to_string (TrimSpace (of_string (ToLower contentType))) in
  if existsb (String.eqb contentType) AllowedMIMETypes then None
  else Some ErrInvalidContentType.

End Utils.

(** ** The database and the upload directory *)

Module Store.
Import Models.

(** The rows of [users], [documents] and [document_shares] in insertion
    order, the paths that exist under the upload directory, and the
    warnings written to standard output. *)
Record State : Type := mkState {
  users : list User.t;
  documents : list Document.t;
  document_shares : list DocumentShare.t;
  files : list string;
  warnings : list string
}.

(** The state after [DB.Migrate] on an empty database. *)
Definition empty : State := mkState [] [] [] [] [].

Definition set_users (st : State) (us : list User.t) : State :=
  mkState us (documents st) (document_shares st) (files st) (warnings st).

Definition set_documents (st : State) (ds : list Document.t) : State :=
  mkState (users st) ds (document_shares st) (files st) (warnings st).

Definition set_document_shares (st : State) (ss : list DocumentShare.t) : State :=
  mkState (users st) (documents st) ss (files st) (warnings st).

Definition set_files (st : State) (fs : list string) : State :=
  mkState (users st) (documents st) (document_shares st) fs (warnings st).

Definition add_warning (st : State) (w : string) : State :=
  mkState (users st) (documents st) (document_shares st) (files st)
          (warnings st ++ [w]).

(** [expires_at IS NULL OR expires_at > NOW()] *)
Definition not_expired (now : Time) (s : DocumentShare.t) : bool :=
  match DocumentShare.ExpiresAt s with
  | None => true
  | Some t => now <? t
  end.

(** [document_id = $1 AND shared_with_id = $2] *)
Definition share_for (documentID userID : UUID) (s : DocumentShare.t) : bool :=
  N.eqb (DocumentShare.DocumentID s) documentID
  && N.eqb (DocumentShare.SharedWithID s) userID.

(** [UPDATE documents SET deleted_at = $1 WHERE id = $2] *)
Definition update_deleted_at (now : Time) (id : UUID) (d : Document.t) : Document.t :=
  if N.eqb (Document.ID d) id then
    Document.mk (Document.ID d) (Document.OwnerID d) (Document.Name d)
      (Document.OriginalName d) (Document.Size d) (Document.MimeType d)
      (Document.EncryptionKey d) (Document.EncryptionAlgo d)
      (Document.FilePath d) (Document.IsEncrypted d) (Document.CreatedAt d)
      (Document.UpdatedAt d) (Some now)
  else d.

(** [UPDATE documents SET name = $1, updated_at = $2 WHERE id = $3] *)
Definition update_name (newName : string) (now : Time) (id : UUID) (d : Document.t) : Document.t :=
  if N.eqb (Document.ID d) id then
    Document.mk (Document.ID d) (Document.OwnerID d) newName
      (Document.OriginalName d) (Document.Size d) (Document.MimeType d)
      (Document.EncryptionKey d) (Document.EncryptionAlgo d)
      (Document.FilePath d) (Document.IsEncrypted d) (Document.CreatedAt d)
      now (Document.DeletedAt d)
  else d.

(** [DO UPDATE SET permission = $4] on the row in conflict. *)
Definition update_permission (documentID userID : UUID) (permission : string)
    (s : DocumentShare.t) : DocumentShare.t :=
  if share_for documentID userID s then
    DocumentShare.mk (DocumentShare.DocumentID s) (DocumentShare.SharedByID s)
      (DocumentShare.SharedWithID s) permission (DocumentShare.ExpiresAt s)
      (DocumentShare.CreatedAt s)
  else s.

(** The error of the first value that its column refuses, if any; every
    value is a string with the length of its VARCHAR column. *)
Fixpoint refused `{Database} (values : list (Z * string)) : option string :=
  match values with
  | [] => None
  | (n, s) :: rest =>
      match varchar n s with
      | Some msg => Some msg
      | None => refused rest
      end
  end.

(** The rows of [document_shares] after the upsert below: the rows in
    conflict take the permission, or a new row is added with the column
    defaults ([expires_at] NULL, [created_at] NOW()). *)
Definition upserted (now : Time) (documentID ownerID sharedWithID : UUID)
    (permission : string) (shares : list DocumentShare.t) : list DocumentShare.t :=
  if existsb (share_for documentID sharedWithID) shares then
    map (update_permission documentID sharedWithID permission) shares
  else
    shares ++ [DocumentShare.mk documentID ownerID sharedWithID permission None now].

(** [INSERT INTO document_shares (document_id, shared_by_id, shared_with_id,
    permission) VALUES ... ON CONFLICT (document_id, shared_with_id) DO
    UPDATE SET permission = $4]; [permission] is [VARCHAR(20)]. *)
Definition upsert_share `{Database} (now : Time) (documentID ownerID sharedWithID : UUID)
    (permission : string) (shares : list DocumentShare.t)
    : result (list DocumentShare.t) :=
  match varchar 20 permission with
  | Some msg => Err (ErrDB msg)
  | None => Ok (upserted now documentID ownerID sharedWithID permission shares)
  end.

(** [ORDER BY key DESC]; rows with equal keys keep their insertion order
    (SQL leaves their order open). *)
Fixpoint insert_desc {A : Type} (key : A -> Z) (x : A) (l : list A) : list A :=
  match l with
  | [] => [x]
  | y :: l' => if key y <=? key x then x :: l else y :: insert_desc key x l'
  end.

Definition order_by_desc {A : Type} (key : A -> Z) (rows : list A) : list A :=
  fold_right (insert_desc key) [] rows.

(** [LIMIT $2 OFFSET $3]; PostgreSQL rejects a negative LIMIT or OFFSET. *)
Definition limit_offset {A : Type} (limit offset : Z) (rows : list A) : result (list A) :=
  if limit <? 0 then Err (ErrDB "LIMIT must not be negative")
  else if offset <? 0 then Err (ErrDB "OFFSET must not be negative")
  else Ok (firstn (Z.to_nat limit) (skipn (Z.to_nat offset) rows)).

(** Go's [int] is 64 bits wide and wraps around. *)
Definition wrap_int (z : Z) : Z := (z + 2 ^ 63) mod 2 ^ 64 - 2 ^ 63.

(** [os.Remove]: [fault] is an error of the operating system other than a
    missing file (a permission, a busy file); without one the file is
    removed, or reported missing. *)
Inductive RemoveError : Type :=
| NotExist
| RemoveFailed (msg : string).

Definition os_Remove (fault : option string) (path : string) (fs : list string)
    : list string * option RemoveError :=
  match fault with
  | Some msg => (fs, Some (RemoveFailed msg))
  | None =>
      if existsb (String.eqb path) fs
      then (filter (fun p => negb (String.eqb path p)) fs, None)
      else (fs, Some NotExist)
  end.

(** [os.IsNotExist] *)
Definition IsNotExist (e : RemoveError) : bool :=
  match e with
  | NotExist => true
  | RemoveFailed _ => false
  end.

Definition RemoveError_text (e : RemoveError) : string :=
  match e with
  | NotExist => "no such file or directory"
  | RemoveFailed msg => msg
  end.

End Store.

(** ** internal/services *)

Module Services.
Import Models Store.

Definition is_null {A : Type} (o : option A) : bool :=
  match o with
  | None => true
  | Some _ => false
  end.

(** What [Scan] fills in [GetByID]: every column but [encryption_key],
    which keeps Go's zero value. *)
Definition scan_document (d : Document.t) : Document.t :=
  Document.mk (Document.ID d) (Document.OwnerID d) (Document.Name d)
    (Document.OriginalName d) (Document.Size d) (Document.MimeType d)
    EmptyString (Document.EncryptionAlgo d) (Document.FilePath d)
    (Document.IsEncrypted d) (Document.CreatedAt d) (Document.UpdatedAt d)
    (Document.DeletedAt d).

(** [GetByOwner] does not scan [deleted_at] either. *)
Definition scan_owned (d : Document.t) : Document.t :=
  Document.mk (Document.ID d) (Document.OwnerID d) (Document.Name d)
    (Document.OriginalName d) (Document.Size d) (Document.MimeType d)
    EmptyString (Document.EncryptionAlgo d) (Document.FilePath d)
    (Document.IsEncrypted d) (Document.CreatedAt d) (Document.UpdatedAt d)
    None.

(** [GetSharedWithUser] scans neither [file_path] nor [deleted_at]. *)
Definition scan_shared (d : Document.t) : Document.t :=
  Document.mk (Document.ID d) (Document.OwnerID d) (Document.Name d)
    (Document.OriginalName d) (Document.Size d) (Document.MimeType d)
    EmptyString (Document.EncryptionAlgo d) EmptyString
    (Document.IsEncrypted d) (Document.CreatedAt d) (Document.UpdatedAt d)
    None.

(** [UserService.GetByEmail] *)
Definition GetByEmail (st : State) (email : string) : result User.t :=
  match find (fun u => String.eqb (User.Email u) email) (users st) with
  | Some u => Ok u
  | None => Err ErrUserNotFound
  end.

(** [UserService.Create]; [newID] is [uuid.New()], [hashed] what
    [bcrypt.GenerateFromPassword] returns, [now] the clock. The INSERT
    fails on a value that its column refuses ([email], [password] and
    [name] are [VARCHAR(255)]) and on a taken primary key. *)
Definition UserCreate `{Database} (st : State) (newID : UUID) (hashed : result string)
    (now : Time) (email password name : string) : State * result User.t :=
  match GetByEmail st email with
  | Ok _ => (st, Err ErrUserExists)
  | Err _ =>
      match hashed with
      | Err e => (st, Err e)
      | Ok hashedPassword =>
          let user := User.mk newID email hashedPassword name now now in
          match refused [(255, email); (255, hashedPassword); (255, name)] with
          | Some msg => (st, Err (ErrDB msg))
          | None =>
              if existsb (fun u => N.eqb (User.ID u) newID) (users st)
              then (st, Err (ErrDB "duplicate key value violates unique constraint"))
              else (set_users st (users st ++ [user]), Ok user)
          end
      end
  end.

(** What a call of [DocumentService.Create] takes from its environment:
    the fresh [uuid.New()], the two readings of the clock, and the faults
    of [os.Create], [io.Copy] and [os.Remove], if any. *)
Record CreateEnv : Type := mkCreateEnv {
  newID : UUID;
  createdAt : Time;
  updatedAt : Time;
  createFault : option string;
  copyFault : option string;
  removeFault : option string
}.

(** [DocumentService.Create]. The INSERT fails on a value that its
    column refuses ([name] and [original_name] are [VARCHAR(255)],
    [mime_type] is [VARCHAR(100)], [encryption_algo] [VARCHAR(50)] and
    [file_path] [VARCHAR(500)]), on a taken primary key and on an owner
    without a row in [users] ([owner_id REFERENCES users(id)]); whatever
    the failure, the file is removed. *)
Definition Create `{Runtime} `{Database} (uploadDir : string) (st : State) (env : CreateEnv)
    (ownerID : UUID) (name originalName mimeType : string) (size : Z)
    : State * result Document.t :=
  match Utils.ValidateContentType mimeType with
  | Some err => (st, Err (ErrWrap "invalid file type" err))
  | None =>
      match Utils.SanitizeFilename originalName with
      | Err err => (st, Err (ErrWrap "invalid filename" err))
      | Ok sanitizedOriginalName =>
          let sanitized :=
            if negb (String.eqb name "") then Utils.SanitizeFilename name
            else Ok sanitizedOriginalName in
          match sanitized with
          | Err err => (st, Err (ErrWrap "invalid document name" err))
          | Ok sanitizedName =>
              let id := newID env in
              let filePath := filepath_Join uploadDir (UUID_String id) in
              let doc :=
                Document.mk id ownerID sanitizedName sanitizedOriginalName size
                  mimeType EmptyString "AES-256-GCM" filePath false
                  (createdAt env) (updatedAt env) None in
              match createFault env with
              | Some msg => (st, Err (ErrWrap "failed to create file" (ErrIO msg)))
              | None =>
                  let written :=
                    if existsb (String.eqb filePath) (files st) then files st
                    else files st ++ [filePath] in
                  let cleaned := fst (os_Remove (removeFault env) filePath written) in
                  match copyFault env with
                  | Some msg =>
                      (set_files st cleaned,
                       Err (ErrWrap "failed to save file" (ErrIO msg)))
                  | None =>
                      let failed (msg : string) :=
                        (set_files st cleaned,
                         Err (ErrWrap "failed to save document metadata" (ErrDB msg))) in
                      match refused [(255, sanitizedName); (255, sanitizedOriginalName);
                                     (100, mimeType); (50, "AES-256-GCM"%string);
                                     (500, filePath)] with
                      | Some msg => failed msg
                      | None =>
                          if existsb (fun d => N.eqb (Document.ID d) id) (documents st)
                          then failed "duplicate key value violates unique constraint"%string
                          else if negb (existsb (fun u => N.eqb (User.ID u) ownerID)
                                                (users st))
                          then failed "insert or update on table violates foreign key constraint"%string
                          else
                            (set_documents (set_files st written) (documents st ++ [doc]),
                             Ok doc)
                      end
                  end
              end
          end
      end
  end.

(** [DocumentService.GetByID] *)
Definition GetByID (st : State) (id : UUID) : result Document.t :=
  match find (fun d => N.eqb (Document.ID d) id && is_null (Document.DeletedAt d))
             (documents st) with
  | Some d => Ok (scan_document d)
  | None => Err ErrDocumentNotFound
  end.

(** [DocumentService.GetByOwner] *)
Definition GetByOwner (st : State) (ownerID : UUID) (page perPage : Z)
    : result (list Document.t * Z) :=
  let page := if page <? 1 then 1 else page in
  let perPage := if (perPage <? 1) || (100 <? perPage) then 20 else perPage in
  let offset := wrap_int ((page - 1) * perPage) in
  let owned :=
    filter (fun d => N.eqb (Document.OwnerID d) ownerID && is_null (Document.DeletedAt d))
           (documents st) in
  let total := Z.of_nat (List.length owned) in
  match limit_offset perPage offset (order_by_desc Document.CreatedAt owned) with
  | Err e => Err e
  | Ok rows => Ok (map scan_owned rows, total)
  end.

(** The join of [GetSharedWithUser]: the unexpired shares of the user with
    their documents that are not deleted. *)
Definition shared_rows (st : State) (now : Time) (userID : UUID)
    : list (DocumentShare.t * Document.t) :=
  flat_map
    (fun ds =>
       if N.eqb (DocumentShare.SharedWithID ds) userID && not_expired now ds then
         map (fun d => (ds, d))
             (filter (fun d => N.eqb (Document.ID d) (DocumentShare.DocumentID ds)
                               && is_null (Document.DeletedAt d))
                     (documents st))
       else [])
    (document_shares st).

(** ... joined with the owner's row of [users]. *)
Definition shared_rows_with_owner (st : State) (now : Time) (userID : UUID)
    : list (DocumentShare.t * Document.t * User.t) :=
  flat_map
    (fun r =>
       map (fun u => (r, u))
           (filter (fun u => N.eqb (User.ID u) (Document.OwnerID (snd r))) (users st)))
    (shared_rows st now userID).

(** [DocumentService.GetSharedWithUser] *)
Definition GetSharedWithUser (st : State) (now : Time) (userID : UUID)
    (page perPage : Z) : result (list DocumentResponse.t * Z) :=
  let page := if page <? 1 then 1 else page in
  let perPage := if (perPage <? 1) || (100 <? perPage) then 20 else perPage in
  let offset := wrap_int ((page - 1) * perPage) in
  let total := Z.of_nat (List.length (shared_rows st now userID)) in
  match limit_offset perPage offset
          (order_by_desc (fun r => DocumentShare.CreatedAt (fst (fst r)))
                         (shared_rows_with_owner st now userID)) with
  | Err e => Err e
  | Ok rows =>
      Ok (map (fun r => DocumentResponse.mk (scan_shared (snd (fst r)))
                          (User.Name (snd r)) [])
              rows,
          total)
  end.

(** [DocumentService.Delete]; [fault] is the fault of [os.Remove], if
    any. [None] is the nil error. *)
Definition Delete (st : State) (now : Time) (fault : option string) (id userID : UUID)
    : State * option error :=
  match GetByID st id with
  | Err err => (st, Some err)
  | Ok doc =>
      if negb (N.eqb (Document.OwnerID doc) userID) then (st, Some ErrAccessDenied)
      else
        let st := set_documents st (map (update_deleted_at now id) (documents st)) in
        let (fs, rmErr) := os_Remove fault (Document.FilePath doc) (files st) in
        let st := set_files st fs in
        match rmErr with
        | Some e =>
            if negb (IsNotExist e)
            then (add_warning st ("Warning: failed to delete file "
                                  ++ Document.FilePath doc ++ ": " ++ RemoveError_text e),
                  None)
            else (st, None)
        | None => (st, None)
        end
  end.

(** [DocumentService.Share]; the error of the INSERT is returned as it
    is. *)
Definition Share `{Database} (st : State) (now : Time) (documentID ownerID : UUID)
    (sharedWithEmail permission : string) : State * option error :=
  match GetByID st documentID with
  | Err err => (st, Some err)
  | Ok doc =>
      if negb (N.eqb (Document.OwnerID doc) ownerID) then (st, Some ErrAccessDenied)
      else
        match find (fun u => String.eqb (User.Email u) sharedWithEmail) (users st) with
        | None => (st, Some ErrUserNotFound)
        | Some u =>
            let sharedWithID := User.ID u in
            match upsert_share now documentID ownerID sharedWithID permission
                               (document_shares st) with
            | Err err => (st, Some err)
            | Ok shares => (set_document_shares st shares, None)
            end
        end
  end.

(** [DocumentService.RemoveShare] *)
Definition RemoveShare (st : State) (documentID ownerID sharedWithID : UUID)
    : State * option error :=
  match GetByID st documentID with
  | Err err => (st, Some err)
  | Ok doc =>
      if negb (N.eqb (Document.OwnerID doc) ownerID) then (st, Some ErrAccessDenied)
      else
        let rows :=
          Z.of_nat (List.length (filter (share_for documentID sharedWithID)
                                        (document_shares st))) in
        let st :=
          set_document_shares st
            (filter (fun s => negb (share_for documentID sharedWithID s))
                    (document_shares st)) in
        if rows =? 0 then (st, Some ErrShareNotFound) else (st, None)
  end.

(** [DocumentService.GetFilePath] *)
Definition GetFilePath (st : State) (now : Time) (id userID : UUID)
    : string * option error :=
  match GetByID st id with
  | Err err => (EmptyString, Some err)
  | Ok doc =>
      if N.eqb (Document.OwnerID doc) userID then (Document.FilePath doc, None)
      else
        let count :=
          Z.of_nat (List.length
                      (filter (fun s => share_for id userID s && not_expired now s)
                              (document_shares st))) in
        if count =? 0 then (EmptyString, Some ErrAccessDenied)
        else (Document.FilePath doc, None)
  end.

(** [DocumentService.CanAccess] *)
Definition CanAccess (st : State) (now : Time) (documentID userID : UUID)
    : bool * string * option error :=
  match GetByID st documentID with
  | Err err => (false, EmptyString, Some err)
  | Ok doc =>
      if N.eqb (Document.OwnerID doc) userID then (true, "owner"%string, None)
      else
        match find (fun s => share_for documentID userID s && not_expired now s)
                   (document_shares st) with
        | None => (false, EmptyString, None)
        | Some s => (true, DocumentShare.Permission s, None)
        end
  end.

(** [DocumentService.Rename]; [name] is [VARCHAR(255)], and the error of
    the UPDATE is returned as it is. *)
Definition Rename `{Database} (st : State) (now : Time) (id userID : UUID)
    (newName : string) : State * option error :=
  match CanAccess st now id userID with
  | (_, _, Some err) => (st, Some err)
  | (canAccess, permission, None) =>
      if negb canAccess
         || (negb (String.eqb permission "owner") && negb (String.eqb permission "edit"))
      then (st, Some ErrAccessDenied)
      else
        match varchar 255 newName with
        | Some msg => (st, Some (ErrDB msg))
        | None =>
            (set_documents st (map (update_name newName now id) (documents st)), None)
        end
  end.

End Services.

(** ** internal/handlers: sharing a document over HTTP *)

Module Handlers.
Import Models Store.

Inductive Body : Type :=
| JSONError (e : ErrorResponse.t)
| JSONMessage (message : string).

Record Response : Type := mkResponse {
  Status : Z;
  Payload : Body
}.

(** [errors.Is]: [err] or an error it wraps is the sentinel [target]. *)
Fixpoint errors_Is (err target : error) : bool :=
  match err, target with
  | ErrDocumentNotFound, ErrDocumentNotFound => true
  | ErrAccessDenied, ErrAccessDenied => true
  | ErrShareNotFound, ErrShareNotFound => true
  | ErrUserNotFound, ErrUserNotFound => true
  | ErrUserExists, ErrUserExists => true
  | ErrInvalidFilename, ErrInvalidFilename => true
  | ErrInvalidContentType, ErrInvalidContentType => true
  | ErrWrap _ e, _ => errors_Is e target
  | _, _ => false
  end.

(** The [binding] tags of [ShareRequest]: [required,email] on [Email] and
    [required,oneof=view edit] on [Permission]. The validator reports, per
    field, the first tag that fails. *)
Definition validate_ShareRequest `{Runtime} (req : ShareRequest.t)
    : list (string * string) :=
  (if String.eqb (ShareRequest.Email req) "" then [("Email", "required")]
   else if negb (validator_email (ShareRequest.Email req)) then [("Email", "email")]
   else [])%string
  ++
  (if String.eqb (ShareRequest.Permission req) "" then [("Permission", "required")]
   else if negb (existsb (String.eqb (ShareRequest.Permission req)) ["view"; "edit"])
        then [("Permission", "oneof")]
   else [])%string.

Definition field_error_text (fe : string * string) : string :=
  ("Key: 'ShareRequest." ++ fst fe ++ "' Error:Field validation for '" ++ fst fe
   ++ "' failed on the '" ++ snd fe ++ "' tag")%string.

(** [c.ShouldBindJSON(&req)]: [body] is the decoded request body, or the
    text of the decoder's error; a decoded request is then validated. *)
Definition ShouldBindJSON `{Runtime} (body : string + ShareRequest.t)
    : string + ShareRequest.t :=
  match body with
  | inl msg => inl msg
  | inr req =>
      match validate_ShareRequest req with
      | [] => inr req
      | fes => inl (String.concat (String "010" EmptyString) (map field_error_text fes))
      end
  end.

(** [DocumentHandler.ShareDocument]; [userID] is what [middleware.GetUserID]
    finds in the context, [docID] what [uuid.Parse] makes of the [id]
    parameter. *)
Definition ShareDocument `{Runtime} `{Database} (st : State) (now : Time)
    (userID docID : option UUID) (body : string + ShareRequest.t)
    : State * Response :=
  match userID with
  | None =>
      (st, mkResponse 401 (JSONError (ErrorResponse.mk "unauthorized" "")))
  | Some userID =>
      match docID with
      | None =>
          (st, mkResponse 400
                 (JSONError (ErrorResponse.mk "invalid_id" "Invalid document ID")))
      | Some docID =>
          match ShouldBindJSON body with
          | inl msg =>
              (st, mkResponse 400 (JSONError (ErrorResponse.mk "validation_error" msg)))
          | inr req =>
              let (st', err) :=
                Services.Share st now docID userID (ShareRequest.Email req)
                               (ShareRequest.Permission req) in
              match err with
              | Some err =>
                  if errors_Is err ErrDocumentNotFound then
                    (st', mkResponse 404
                            (JSONError (ErrorResponse.mk "document_not_found" "")))
                  else if errors_Is err ErrUserNotFound then
                    (st', mkResponse 404
                            (JSONError (ErrorResponse.mk "user_not_found"
                                          "User with this email not found")))
                  else if errors_Is err ErrAccessDenied then
                    (st', mkResponse 403 (JSONError (ErrorResponse.mk "access_denied" "")))
                  else
                    (st', mkResponse 500 (JSONError (ErrorResponse.mk "internal_error" "")))
              | None =>
                  (st', mkResponse 200 (JSONMessage "Document shared successfully"))
              end
          end
      end
  end.

End Handlers.

(** ** The operations that change the state *)

Module System.
Import Models Store.

Inductive Op : Type :=
| OpUserCreate (newID : UUID) (hashed : result string) (now : Time)
               (email password name : string)
| OpCreate (env : Services.CreateEnv) (ownerID : UUID)
           (name originalName mimeType : string) (size : Z)
| OpDelete (now : Time) (fault : option string) (id userID : UUID)
| OpShare (now : Time) (documentID ownerID : UUID) (sharedWithEmail permission : string)
| OpRemoveShare (documentID ownerID sharedWithID : UUID)
| OpRename (now : Time) (id userID : UUID) (newName : string).

(** One call of a service method, whatever it returns. *)
Definition step `{Runtime} `{Database} (uploadDir : string) (st : State) (op : Op)
    : State :=
  match op with
  | OpUserCreate newID hashed now email password name =>
      fst (Services.UserCreate st newID hashed now email password name)
  | OpCreate env ownerID name originalName mimeType size =>
      fst (Services.Create uploadDir st env ownerID name originalName mimeType size)
  | OpDelete now fault id userID => fst (Services.Delete st now fault id userID)
  | OpShare now documentID ownerID sharedWithEmail permission =>
      fst (Services.Share st now documentID ownerID sharedWithEmail permission)
  | OpRemoveShare documentID ownerID sharedWithID =>
      fst (Services.RemoveShare st documentID ownerID sharedWithID)
  | OpRename now id userID newName => fst (Services.Rename st now id userID newName)
  end.

Definition run `{Runtime} `{Database} (uploadDir : string) (st : State) (ops : list Op)
    : State :=
  fold_left (step uploadDir) ops st.

(** The states the service reaches from the migrated, empty database. *)
Definition reachable `{Runtime} `{Database} (uploadDir : string) (st : State) : Prop :=
  exists ops, st = run uploadDir Store.empty ops.

(** The key of [UNIQUE(document_id, shared_with_id)]. *)
Definition share_key (s : DocumentShare.t) : UUID * UUID :=
  (DocumentShare.DocumentID s, DocumentShare.SharedWithID s).

(** The constraint itself. *)
Definition shares_unique (st : State) : Prop :=
  NoDup (map share_key (document_shares st)).

(** The rows of [document_shares] for a document and a recipient. *)
Definition shares_of (st : State) (documentID userID : UUID) : list DocumentShare.t :=
  filter (share_for documentID userID) (document_shares st).

(** The document has a row, and every row of it carries a deletion time. *)
Definition soft_deleted (st : State) (id : UUID) : Prop :=
  (exists d, In d (documents st) /\ Document.ID d = id)
  /\ forall d, In d (documents st) -> Document.ID d = id -> Document.DeletedAt d <> None.

(** What one call can do to [documents]: nothing, an INSERT under an unused
    identifier, or one of the two UPDATEs. *)
Inductive documents_step (ds : list Document.t) : list Document.t -> Prop :=
| docs_same : documents_step ds ds
| docs_inserted (doc : Document.t) :
    existsb (fun d => N.eqb (Document.ID d) (Document.ID doc)) ds = false ->
    documents_step ds (ds ++ [doc])
| docs_deleted (now : Time) (id : UUID) :
    documents_step ds (map (update_deleted_at now id) ds)
| docs_renamed (newName : string) (now : Time) (id : UUID) :
    documents_step ds (map (update_name newName now id) ds).

(** What one call can do to [document_shares]: nothing, the upsert, or the
    DELETE of a pair. *)
Inductive shares_step (ss : list DocumentShare.t) : list DocumentShare.t -> Prop :=
| shares_same : shares_step ss ss
| shares_upserted (now : Time) (d by_ w : UUID) (p : string) :
    shares_step ss (upserted now d by_ w p ss)
| shares_removed (d w : UUID) :
    shares_step ss (filter (fun s => negb (share_for d w s)) ss).

End System.

(** ** internal/middleware: the token service *)

Module Auth.
Import Models.

(** Modelled from the spec: [auth.go] ([AuthMiddleware], [Claims],
    [GenerateToken], [ValidateToken]) is not among the sources, only its
    tests are. The definitions of this module follow section 4.2 of the
    specification and the tests of [auth_test.go]. *)
Definition Secret := string.

(** Modelled from the spec: the signing algorithm named in a token's
    header; the service signs with HS256, and "none" is the unsigned
    class the specification singles out. *)
Inductive SigningMethod : Type :=
| SigningMethodHS256
| SigningMethodNone
| SigningMethodOther (alg : string).

(** Modelled from the spec: what a token encodes, {userID, email,
    issuedAt, notBefore, expiresAt}. *)
Record Claims : Type := mkClaims {
  UserID : UUID;
  Email : string;
  IssuedAt : Time;
  NotBefore : Time;
  ExpiresAt : Time
}.

(** Modelled from the spec: a signature is the symbolic MAC of the header's
    algorithm and the claims under a secret; two signatures agree only when
    all three do. [Unsigned] is the empty signature of an unsigned
    token. *)
Inductive Signature : Type :=
| Unsigned
| HMAC (secret : Secret) (method : SigningMethod) (claims : Claims).

Record Token : Type := mkToken {
  Method : SigningMethod;
  TokenClaims : Claims;
  Sig : Signature
}.

(** Modelled from the spec: a token string either has the structural shape
    of a token or not (the empty string, a wrong number of segments). *)
Inductive TokenString : Type :=
| Malformed (raw : string)
| Encoded (t : Token).

Inductive TokenError : Type :=
| ErrInvalidToken
| ErrExpiredToken.

Definition SigningMethod_eq_dec (a b : SigningMethod) : {a = b} + {a <> b}.
Proof. decide equality. apply string_dec. Defined.

Definition Claims_eq_dec (a b : Claims) : {a = b} + {a <> b}.
Proof. decide equality; first [apply Z.eq_dec | apply string_dec | apply N.eq_dec]. Defined.

Definition Signature_eq_dec (a b : Signature) : {a = b} + {a <> b}.
Proof.
  decide equality;
    first [apply Claims_eq_dec | apply SigningMethod_eq_dec | apply string_dec].
Defined.

(** Modelled from the spec: the validity window, 24 hours in seconds. *)
Definition validity : Z := 24 * 3600.

(** Modelled from the spec: signing claims under a method and a key, as
    the tests do with [jwt.NewWithClaims(method, claims).SignedString(key)];
    the "none" method leaves the token unsigned. *)
Definition SignedString (method : SigningMethod) (claims : Claims) (key : Secret)
    : TokenString :=
  Encoded (mkToken method claims
             match method with
             | SigningMethodNone => Unsigned
             | _ => HMAC key method claims
             end).

(** Modelled from the spec: [Issue(userID, email)] "produces a signed token
    encoding {userID, email, issuedAt, notBefore, expiresAt = issuedAt +
    24h}", signed with the process-wide secret. *)
Definition GenerateToken (jwtSecret : Secret) (now : Time) (userID : UUID)
    (email : string) : TokenString :=
  SignedString SigningMethodHS256 (mkClaims userID email now now (now + validity))
               jwtSecret.

(** Modelled from the spec: [Verify(token)] "fails with InvalidToken when
    the token is empty, malformed, has a bad signature, was signed with an
    unexpected/absent algorithm, or was signed with a different secret", and
    "with ExpiredToken specifically when signature and structure are valid
    but now > expiresAt". *)
Definition ValidateToken (jwtSecret : Secret) (now : Time) (tokenString : TokenString)
    : Claims + TokenError :=
  match tokenString with
  | Malformed _ => inr ErrInvalidToken
  | Encoded t =>
      match Method t with
      | SigningMethodHS256 =>
          if Signature_eq_dec (Sig t) (HMAC jwtSecret SigningMethodHS256 (TokenClaims t))
          then
            if ExpiresAt (TokenClaims t) <? now then inr ErrExpiredToken
            else inl (TokenClaims t)
          else inr ErrInvalidToken
      | _ => inr ErrInvalidToken
      end
  end.

End Auth.

(** ** A concrete run: two users, one document *)

Module Sample.
Import Models Store.

(** ASCII lower-casing stands for [strings.ToLower], joining with a slash
    for [filepath.Join]; the run below uses ASCII names only. *)
Definition lower_ascii (c : ascii) : ascii :=
  let n := nat_of_ascii c in
  if (65 <=? n)%nat && (n <=? 90)%nat then ascii_of_nat (n + 32) else c.

Definition lower (s : string) : string :=
  string_of_list_ascii (map lower_ascii (list_ascii_of_string s)).

Definition contains_at (s : string) : bool :=
  existsb (Ascii.eqb "@") (list_ascii_of_string s).

#[export] Instance runtime : Runtime := {|
  ToLower := lower;
  filepath_Join := fun dir name => (dir ++ "/" ++ name)%string;
  UUID_String := fun id => NilEmpty.string_of_uint (N.to_uint id);
  validator_email := contains_at
|}.

(** The columns on the ASCII names of the samples, where a byte is a
    character: a null byte and a value that is too long are refused. *)
#[export] Instance database : Database := {|
  varchar := fun n s =>
    if existsb (Ascii.eqb zero) (list_ascii_of_string s)
    then Some "invalid byte sequence for encoding UTF8: 0x00"%string
    else if Z.of_nat (String.length s) <=? n then None
    else Some "value too long for type character varying"%string
|}.

Definition uploadDir : string := "./uploads".

Definition alice : UUID := 1%N.
Definition bob : UUID := 2%N.
Definition carol : UUID := 3%N.
Definition doc1 : UUID := 10%N.

Definition alice_row : User.t := User.mk alice "alice@example.com" "$2a$..." "Alice" 0 0.
Definition bob_row : User.t := User.mk bob "bob@example.com" "$2a$..." "Bob" 0 0.

Definition doc1_row (deleted : option Time) : Document.t :=
  Document.mk doc1 alice "report.pdf" "report.pdf" 1024 "application/pdf" ""
    "AES-256-GCM" "./uploads/10" false 5 5 deleted.

Definition share_row (permission : string) (expires : option Time) : DocumentShare.t :=
  DocumentShare.mk doc1 alice bob permission expires 6.

(** Alice owns [doc1]; nothing is shared. *)
Definition st_owned : State :=
  mkState [alice_row; bob_row] [doc1_row None] [] ["./uploads/10"%string] [].

(** ... and Bob holds a share with the given permission and expiry. *)
Definition st_shared (permission : string) (expires : option Time) : State :=
  mkState [alice_row; bob_row] [doc1_row None] [share_row permission expires]
          ["./uploads/10"%string] [].

(** [doc1] was soft-deleted at time 50 while Bob held an edit share. *)
Definition st_deleted : State :=
  mkState [alice_row; bob_row] [doc1_row (Some 50)] [share_row "edit" None] [] [].

Definition doc2 : UUID := 11%N.

Definition doc2_row : Document.t :=
  Document.mk doc2 alice "notes.txt" "notes.txt" 64 "text/plain" ""
    "AES-256-GCM" "./uploads/11" false 8 8 None.

(** Alice owns two documents. *)
Definition st_two_docs : State :=
  mkState [alice_row; bob_row] [doc1_row None; doc2_row] []
          ["./uploads/10"; "./uploads/11"]%string [].

(** Three hundred bytes and an extension, and an extension of 261 bytes. *)
Definition long_name : string :=
  (string_of_list_ascii (repeat "a"%char 300) ++ ".pdf")%string.

Definition long_extension : string :=
  ("a." ++ string_of_list_ascii (repeat "x"%char 260))%string.

(** Alice and Bob register, Alice uploads a document. *)
Definition history : list System.Op :=
  [ System.OpUserCreate alice (Ok "$2a$...") 0 "alice@example.com" "pw12345678" "Alice";
    System.OpUserCreate bob (Ok "$2a$...") 0 "bob@example.com" "pw12345678" "Bob";
    System.OpCreate (Services.mkCreateEnv doc1 5 5 None None None) alice ""
                    "report.pdf" "application/pdf" 1024 ]%string.

Definition st_history : State := System.run uploadDir Store.empty history.

End Sample.

(** ** internal/middleware/cors.go *)

Module Cors.
Import GoLib.

(** [strings.Split(s, sep)] for a one-byte [sep]: the pieces between the
    separators; there is always at least one piece. *)
Fixpoint Split (s : bytes) (sep : ascii) : list bytes :=
  match s with
  | [] => [[]]
  | c :: s' =>
      if Ascii.eqb c sep then [] :: Split s' sep
      else
        match Split s' sep with
        | piece :: pieces => (c :: piece) :: pieces
        | [] => [[c]]
        end
  end.

(** [strings.Join(pieces, ",")]: how a list of origins is configured. *)
Fixpoint join (pieces : list bytes) : bytes :=
  match pieces with
  | [] => []
  | [piece] => piece
  | piece :: rest => piece ++ ","%char :: join rest
  end.

(** The response headers, one value per name. *)
Definition Headers := list (string * string).

(** [http.Header.Del], [Set] and [Get]; [Get] gives "" for a missing
    name. *)
Definition Del (key : string) (hs : Headers) : Headers :=
  filter (fun kv => negb (String.eqb (fst kv) key)) hs.

Definition Set_ (key value : string) (hs : Headers) : Headers :=
  Del key hs ++ [(key, value)].

Definition Get (key : string) (hs : Headers) : string :=
  match find (fun kv => String.eqb (fst kv) key) hs with
  | Some kv => snd kv
  | None => EmptyString
  end.

(** [gin.Context.Header]: an empty value removes the header. *)
Definition Header (key value : string) (hs : Headers) : Headers :=
  if String.eqb value "" then Del key hs else Set_ key value hs.

(** The keys of [originMap]: the trimmed pieces of the configured list. *)
Definition originMap (allowedOrigins : string) : list string :=
  map (fun o => to_string (TrimSpace o)) (Split (of_string allowedOrigins) ",").

(** [originMap[key]] *)
Definition lookup (m : list string) (key : string) : bool :=
  existsb (String.eqb key) m.

(** How the middleware leaves the chain: [c.AbortWithStatus] or
    [c.Next()]. *)
Inductive Flow : Type :=
| AbortWithStatus (status : Z)
| Next.

(** [CORS(allowedOrigins)] applied to a request with the given method and
    [Origin] header ("" when the header is missing). *)
Definition CORS (allowedOrigins : string) (method origin : string) (hs : Headers)
    : Headers * Flow :=
  let m := originMap allowedOrigins in
  let hs :=
    if lookup m origin || lookup m "*"
    then Header "Access-Control-Allow-Origin" origin hs
    else hs in
  let hs := Header "Access-Control-Allow-Methods"
                   "GET, POST, PUT, PATCH, DELETE, OPTIONS" hs in
  let hs := Header "Access-Control-Allow-Headers"
                   "Origin, Content-Type, Accept, Authorization" hs in
  let hs := Header "Access-Control-Allow-Credentials" "true" hs in
  let hs := Header "Access-Control-Max-Age" "86400" hs in
  if String.eqb method "OPTIONS" then (hs, AbortWithStatus 204) else (hs, Next).

End Cors.

(** ** internal/services/user_service.go: the rest of the user service *)

Module Users.
Import Models Store.

(** [bcrypt.CompareHashAndPassword(hash, password) == nil] *)
Class Bcrypt : Type := {
  CompareHashAndPassword : string -> string -> bool
}.

(** The errors of [Authenticate]: [ErrInvalidPassword], or an error of the
    lookup. *)
Inductive AuthenticateError : Type :=
| ErrInvalidPassword
| LookupError (e : error).

(** [UserService.GetByID] *)
Definition GetByID (st : State) (id : UUID) : result User.t :=
  match find (fun u => N.eqb (User.ID u) id) (users st) with
  | Some u => Ok u
  | None => Err ErrUserNotFound
  end.

(** [UserService.Authenticate] *)
Definition Authenticate `{Bcrypt} (st : State) (email password : string)
    : User.t + AuthenticateError :=
  match Services.GetByEmail st email with
  | Err err => inr (LookupError err)
  | Ok user =>
      if negb (CompareHashAndPassword (User.Password user) password)
      then inr ErrInvalidPassword
      else inl user
  end.

(** [UPDATE users SET name = $1, updated_at = $2 WHERE id = $3] *)
Definition update_user_name (name : string) (now : Time) (id : UUID) (u : User.t) : User.t :=
  if N.eqb (User.ID u) id then
    User.mk (User.ID u) (User.Email u) (User.Password u) name (User.CreatedAt u) now
  else u.

(** [UserService.UpdateName]; [name] is [VARCHAR(255)]: the server
    coerces the bound value to the column when it plans the UPDATE, before
    it looks for the row, and the error of the UPDATE is returned as it
    is. *)
Definition UpdateName `{Database} (st : State) (now : Time) (id : UUID) (name : string)
    : State * option error :=
  match varchar 255 name with
  | Some msg => (st, Some (ErrDB msg))
  | None =>
      let rows :=
        Z.of_nat (List.length (filter (fun u => N.eqb (User.ID u) id) (users st))) in
      let st := set_users st (map (update_user_name name now id) (users st)) in
      if rows =? 0 then (st, Some ErrUserNotFound) else (st, None)
  end.

(** [bcrypt.GenerateFromPassword(password, bcrypt.DefaultCost)]; [salt]
    is the salt that it draws. *)
Class Hasher : Type := {
  GenerateFromPassword : string -> string -> result string
}.

(** [UserService.Create] with its call of bcrypt: the password is hashed
    once no user holds the address. *)
Definition Create `{Hasher} `{Database} (st : State) (newID : UUID) (salt : string)
    (now : Time) (email password name : string) : State * result User.t :=
  Services.UserCreate st newID (GenerateFromPassword salt password) now email password
                      name.

End Users.

(** ** internal/handlers: the document and login handlers *)

Module Http.
Import Models Store.

Module LoginRequest.
Record t : Type := mk {
  Email : string;
  Password : string
}.
End LoginRequest.

Module PaginatedResponse.
Record t (A : Type) : Type := mk {
  Data : list A;
  Total : Z;
  Page : Z;
  PerPage : Z;
  TotalPages : Z
}.
Arguments mk {A} _ _ _ _ _.
Arguments Data {A} _.
Arguments Total {A} _.
Arguments Page {A} _.
Arguments PerPage {A} _.
Arguments TotalPages {A} _.
End PaginatedResponse.

(** What a handler writes: a JSON body with its status, a bare status, the
    file that [c.File] serves with the two headers set before it, or a
    panic of the Go runtime. *)
Inductive Reply : Type :=
| JSONError (status : Z) (e : ErrorResponse.t)
| JSONMessage (status : Z) (message : string)
| JSONDocument (status : Z) (d : Document.t)
| JSONDocuments (status : Z) (p : PaginatedResponse.t Document.t)
| JSONShared (status : Z) (p : PaginatedResponse.t DocumentResponse.t)
| JSONAuth (status : Z) (token : string) (user : User.t)
| Status (status : Z)
| File (contentDisposition contentType filePath : string)
| Panic (msg : string).

Definition unauthorized : Reply :=
  JSONError 401 (ErrorResponse.mk "unauthorized" "").

Definition invalid_id : Reply :=
  JSONError 400 (ErrorResponse.mk "invalid_id" "Invalid document ID").

(** [(total + perPage - 1) / perPage] on Go's [int]: the sum wraps, the
    quotient truncates towards zero, and a zero divisor panics. *)
Definition totalPages (total perPage : Z) : option Z :=
  if perPage =? 0 then None
  else Some (wrap_int (Z.quot (wrap_int (total + perPage - 1)) perPage)).

(** [DocumentHandler.ListDocuments]; [page] and [perPage] are what
    [strconv.Atoi] makes of the query parameters (0 when they do not
    parse, 1 and 20 when they are missing). *)
Definition ListDocuments (st : State) (userID : option UUID) (page perPage : Z) : Reply :=
  match userID with
  | None => unauthorized
  | Some userID =>
      match Services.GetByOwner st userID page perPage with
      | Err _ =>
          JSONError 500 (ErrorResponse.mk "internal_error" "Failed to fetch documents")
      | Ok (documents, total) =>
          match totalPages total perPage with
          | None => Panic "runtime error: integer divide by zero"
          | Some pages =>
              JSONDocuments 200 (PaginatedResponse.mk documents total page perPage pages)
          end
      end
  end.

(** [DocumentHandler.ListSharedDocuments] *)
Definition ListSharedDocuments (st : State) (now : Time) (userID : option UUID)
    (page perPage : Z) : Reply :=
  match userID with
  | None => unauthorized
  | Some userID =>
      match Services.GetSharedWithUser st now userID page perPage with
      | Err _ =>
          JSONError 500 (ErrorResponse.mk "internal_error"
                           "Failed to fetch shared documents")
      | Ok (documents, total) =>
          match totalPages total perPage with
          | None => Panic "runtime error: integer divide by zero"
          | Some pages =>
              JSONShared 200 (PaginatedResponse.mk documents total page perPage pages)
          end
      end
  end.

(** The part of a multipart file header the handler reads. *)
Module FileHeader.
Record t : Type := mk {
  Filename : string;
  Size : Z;
  ContentType : string
}.
End FileHeader.

(** [DocumentHandler.UploadDocument]; [file] is what [FormFile("file")]
    returns ([None] for its error), [name] the form value "name" ("" when
    missing). *)
Definition UploadDocument `{Runtime} `{Database} (uploadDir : string) (maxFileSize : Z)
    (st : State) (env : Services.CreateEnv) (userID : option UUID)
    (file : option FileHeader.t) (name : string) : State * Reply :=
  match userID with
  | None => (st, unauthorized)
  | Some userID =>
      match file with
      | None =>
          (st, JSONError 400 (ErrorResponse.mk "file_required" "A file is required"))
      | Some header =>
          if maxFileSize <? FileHeader.Size header then
            (st, JSONError 413 (ErrorResponse.mk "file_too_large"
                                  "File exceeds maximum allowed size"))
          else
            let name := if String.eqb name "" then FileHeader.Filename header else name in
            match Services.Create uploadDir st env userID name
                    (FileHeader.Filename header) (FileHeader.ContentType header)
                    (FileHeader.Size header) with
            | (st', Err _) =>
                (st', JSONError 500 (ErrorResponse.mk "upload_failed"
                                       "Failed to upload document"))
            | (st', Ok document) => (st', JSONDocument 201 document)
            end
      end
  end.

(** [DocumentHandler.GetDocument]. The handler runs its two queries
    without a transaction: [st] is the database when [CanAccess] reads it
    and [st2] the database when [GetByID] reads it, after what other
    requests have written in between. *)
Definition GetDocument (st st2 : State) (now : Time) (userID docID : option UUID)
    : Reply :=
  match userID with
  | None => unauthorized
  | Some userID =>
      match docID with
      | None => invalid_id
      | Some docID =>
          match Services.CanAccess st now docID userID with
          | (_, _, Some err) =>
              if Handlers.errors_Is err ErrDocumentNotFound
              then JSONError 404 (ErrorResponse.mk "not_found" "Document not found")
              else JSONError 500 (ErrorResponse.mk "internal_error" "")
          | (canAccess, _, None) =>
              if negb canAccess then
                JSONError 403 (ErrorResponse.mk "access_denied"
                                 "You don't have access to this document")
              else
                match Services.GetByID st2 docID with
                | Err _ => JSONError 500 (ErrorResponse.mk "internal_error" "")
                | Ok document => JSONDocument 200 document
                end
          end
      end
  end.

(** [DocumentHandler.DownloadDocument]. As in [GetDocument], [st] is the
    database when [GetFilePath] reads it and [st2] the database when
    [GetByID] reads it. The code drops the error of that [GetByID], and
    reading the fields of the nil document it returns with an error
    panics. *)
Definition DownloadDocument (st st2 : State) (now : Time) (userID docID : option UUID)
    : Reply :=
  match userID with
  | None => unauthorized
  | Some userID =>
      match docID with
      | None => invalid_id
      | Some docID =>
          match Services.GetFilePath st now docID userID with
          | (_, Some err) =>
              if Handlers.errors_Is err ErrDocumentNotFound
              then JSONError 404 (ErrorResponse.mk "not_found" "")
              else if Handlers.errors_Is err ErrAccessDenied
              then JSONError 403 (ErrorResponse.mk "access_denied" "")
              else JSONError 500 (ErrorResponse.mk "internal_error" "")
          | (filePath, None) =>
              match Services.GetByID st2 docID with
              | Err _ =>
                  Panic "runtime error: invalid memory address or nil pointer dereference"
              | Ok document =>
                  File ("attachment; filename=" ++ Document.OriginalName document)
                       (Document.MimeType document) filePath
              end
          end
      end
  end.

(** [DocumentHandler.DeleteDocument] *)
Definition DeleteDocument (st : State) (now : Time) (fault : option string)
    (userID docID : option UUID) : State * Reply :=
  match userID with
  | None => (st, unauthorized)
  | Some userID =>
      match docID with
      | None => (st, invalid_id)
      | Some docID =>
          match Services.Delete st now fault docID userID with
          | (st', Some err) =>
              if Handlers.errors_Is err ErrDocumentNotFound
              then (st', JSONError 404 (ErrorResponse.mk "not_found" ""))
              else if Handlers.errors_Is err ErrAccessDenied
              then (st', JSONError 403 (ErrorResponse.mk "access_denied"
                                          "Only the document owner can delete it"))
              else (st', JSONError 500 (ErrorResponse.mk "internal_error" ""))
          | (st', None) => (st', Status 204)
          end
      end
  end.

(** [DocumentHandler.RenameDocument]; [body] is the decoded request body,
    or the text of the decoder's error. The binding of [Name] is
    [required,min=1]: both refuse exactly the empty name. *)
Definition RenameDocument `{Database} (st : State) (now : Time)
    (userID docID : option UUID) (body : string + string) : State * Reply :=
  match userID with
  | None => (st, unauthorized)
  | Some userID =>
      match docID with
      | None => (st, invalid_id)
      | Some docID =>
          let bound :=
            match body with
            | inl msg => inl msg
            | inr name =>
                if String.eqb name ""
                then inl ("Key: 'Name' Error:Field validation for 'Name' failed on the 'required' tag")%string
                else inr name
            end in
          match bound with
          | inl msg => (st, JSONError 400 (ErrorResponse.mk "validation_error" msg))
          | inr name =>
              match Services.Rename st now docID userID name with
              | (st', Some err) =>
                  if Handlers.errors_Is err ErrDocumentNotFound
                  then (st', JSONError 404 (ErrorResponse.mk "not_found" ""))
                  else if Handlers.errors_Is err ErrAccessDenied
                  then (st', JSONError 403 (ErrorResponse.mk "access_denied" ""))
                  else (st', JSONError 500 (ErrorResponse.mk "internal_error" ""))
              | (st', None) => (st', JSONMessage 200 "Document renamed successfully")
              end
          end
      end
  end.

(** The [binding] tags of [LoginRequest]: [required,email] on [Email] and
    [required] on [Password]. *)
Definition validate_LoginRequest `{Runtime} (req : LoginRequest.t) : list (string * string) :=
  (if String.eqb (LoginRequest.Email req) "" then [("Email", "required")]
   else if negb (validator_email (LoginRequest.Email req)) then [("Email", "email")]
   else [])%string
  ++
  (if String.eqb (LoginRequest.Password req) "" then [("Password", "required")]
   else [])%string.

Definition login_field_error_text (fe : string * string) : string :=
  ("Key: 'LoginRequest." ++ fst fe ++ "' Error:Field validation for '" ++ fst fe
   ++ "' failed on the '" ++ snd fe ++ "' tag")%string.

(** [AuthHandler.Login]; [generateToken] is [AuthMiddleware.GenerateToken],
    whose code is not among the sources. *)
Definition Login `{Runtime} `{Users.Bcrypt}
    (generateToken : UUID -> string -> result string) (st : State)
    (body : string + LoginRequest.t) : Reply :=
  let bound :=
    match body with
    | inl msg => inl msg
    | inr req =>
        match validate_LoginRequest req with
        | [] => inr req
        | fes =>
            inl (String.concat (String "010" EmptyString) (map login_field_error_text fes))
        end
    end in
  match bound with
  | inl msg => JSONError 400 (ErrorResponse.mk "validation_error" msg)
  | inr req =>
      match Users.Authenticate st (LoginRequest.Email req) (LoginRequest.Password req) with
      | inr err =>
          let invalid :=
            match err with
            | Users.ErrInvalidPassword => true
            | Users.LookupError e => Handlers.errors_Is e ErrUserNotFound
            end in
          if invalid then
            JSONError 401 (ErrorResponse.mk "invalid_credentials"
                             "Invalid email or password")
          else JSONError 500 (ErrorResponse.mk "internal_error" "Authentication failed")
      | inl user =>
          match generateToken (User.ID user) (User.Email user) with
          | Err _ =>
              JSONError 500 (ErrorResponse.mk "token_error" "Failed to generate token")
          | Ok token => JSONAuth 200 token user
          end
      end
  end.

End Http.

(** ** Properties of the stored rows *)

Module Rows.
Import Models Store.

(** [d'] is the row [d] after some calls: what no UPDATE of the service
    writes is the same, and a deletion time is still there. *)
Definition same_document (d d' : Document.t) : Prop :=
  Document.ID d' = Document.ID d
  /\ Document.OwnerID d' = Document.OwnerID d
  /\ Document.OriginalName d' = Document.OriginalName d
  /\ Document.Size d' = Document.Size d
  /\ Document.MimeType d' = Document.MimeType d
  /\ Document.FilePath d' = Document.FilePath d
  /\ Document.CreatedAt d' = Document.CreatedAt d
  /\ (Document.DeletedAt d <> None -> Document.DeletedAt d' <> None).

(** A row as [DocumentService.Create] writes it: the path made of the
    upload directory and the row's id, a sanitised original name, and the
    encryption columns of a document that is not encrypted. *)
Definition as_created `{Runtime} (uploadDir : string) (d : Document.t) : Prop :=
  Document.FilePath d = filepath_Join uploadDir (UUID_String (Document.ID d))
  /\ (exists supplied, Utils.SanitizeFilename supplied = Ok (Document.OriginalName d))
  /\ Document.IsEncrypted d = false
  /\ Document.EncryptionKey d = EmptyString
  /\ Document.EncryptionAlgo d = "AES-256-GCM"%string.

(** A share row points to rows that exist: its document, owned by the user
    who granted it, and its recipient. *)
Definition share_refers (st : State) (s : DocumentShare.t) : Prop :=
  (exists d, In d (documents st)
             /\ Document.ID d = DocumentShare.DocumentID s
             /\ Document.OwnerID d = DocumentShare.SharedByID s)
  /\ exists u, In u (users st) /\ User.ID u = DocumentShare.SharedWithID s.

(** Rows in the order of [ORDER BY key DESC]: no row has a key above the
    key of a row before it. *)
Fixpoint descending {A : Type} (key : A -> Z) (rows : list A) : Prop :=
  match rows with
  | [] => True
  | first :: rest => (forall r, In r rest -> key r <= key first) /\ descending key rest
  end.

End Rows.


(** ** A second sample: a share, a registration and a configured list *)

Module Scenario.
Import Models Store Sample.

(** A stand-in for bcrypt: the hash of a password is the password after
    "hash:". *)
#[export] Instance bcrypt : Users.Bcrypt := {|
  Users.CompareHashAndPassword :=
    fun hash password => String.eqb hash ("hash:" ++ password)
|}.

(** Its [GenerateFromPassword], which draws no salt. *)
#[export] Instance hasher : Users.Hasher := {|
  Users.GenerateFromPassword := fun salt password => Ok ("hash:" ++ password)%string
|}.

(** After the sample history, Alice shares the document with Bob. *)
Definition shared_history : list System.Op :=
  history ++ [System.OpShare 20 doc1 alice "bob@example.com"%string "view"%string].

Definition st_shared_history : State := System.run uploadDir Store.empty shared_history.

Definition new_share : DocumentShare.t := DocumentShare.mk doc1 alice bob "view" None 20.

(** An upload of [doc2] that works, and one during which the disk fills. *)
Definition upload_env : Services.CreateEnv :=
  Services.mkCreateEnv doc2 8 8 None None None.

Definition failing_env : Services.CreateEnv :=
  Services.mkCreateEnv doc2 8 8 None (Some "no space left on device"%string) None.

Definition notes_header : Http.FileHeader.t :=
  Http.FileHeader.mk "notes.txt" 64 "text/plain".

(** The same file under an allowed content type whose parameter takes
    it over the hundred bytes of [mime_type]. *)
Definition long_header : Http.FileHeader.t :=
  Http.FileHeader.mk "notes.txt" 64
    ("text/plain; charset=" ++ string_of_list_ascii (repeat "x"%char 100)).

(** Carol, registered with the password "secret". *)
Definition carol_row : User.t :=
  User.mk carol "carol@example.com" "hash:secret" "Carol" 7 7.

Definition st_registered : State :=
  set_users st_owned (users st_owned ++ [carol_row]).

Definition generateToken (id : UUID) (email : string) : result string :=
  Ok ("token:" ++ email)%string.

(** [ALLOWED_ORIGINS=" https://a.example ,https://b.example"] *)
Definition origins : list GoLib.bytes :=
  [GoLib.of_string " https://a.example "; GoLib.of_string "https://b.example"].

End Scenario.

(** * Proofs *)

(** ** Facts about the library functions *)

Module GoLibFacts.
Import GoLib.

Lemma bytes_eqb_true (s t : bytes) : bytes_eqb s t = true <-> s = t.
Proof.
  unfold bytes_eqb. destruct (list_eq_dec ascii_dec s t); split; congruence.
Qed.

Lemma bytes_eqb_false (s t : bytes) : bytes_eqb s t = false <-> s <> t.
Proof.
  unfold bytes_eqb. destruct (list_eq_dec ascii_dec s t); split; congruence.
Qed.

Lemma len_nonneg (b : bytes) : 0 <= len b.
Proof. unfold len. lia. Qed.

Lemma len_app (a b : bytes) : len (a ++ b) = len a + len b.
Proof. unfold len. rewrite length_app. lia. Qed.

Lemma of_to_string (b : bytes) : of_string (to_string b) = b.
Proof. apply list_ascii_of_string_of_list_ascii. Qed.

Lemma to_of_string (s : string) : to_string (of_string s) = s.
Proof. apply string_of_list_ascii_of_string. Qed.

Section While.
Context {A : Type} (p : A -> bool).

Lemma takeWhile_all (l : list A) :
  Forall (fun x => p x = true) l -> takeWhile p l = l.
Proof.
  induction 1 as [|x l Hx _ IH]; simpl; [reflexivity|].
  rewrite Hx, IH. reflexivity.
Qed.

Lemma takeWhile_stop (l1 l2 : list A) (x : A) :
  Forall (fun x => p x = true) l1 -> p x = false ->
  takeWhile p (l1 ++ x :: l2) = l1.
Proof.
  induction 1 as [|y l Hy _ IH]; simpl; intros Hx.
  - rewrite Hx. reflexivity.
  - rewrite Hy, IH by assumption. reflexivity.
Qed.

Lemma dropWhile_keep (x : A) (l : list A) :
  p x = false -> dropWhile p (x :: l) = x :: l.
Proof. simpl. intros ->. reflexivity. Qed.

End While.

(** *** TrimSpace only removes bytes at the two ends *)

Lemma trimLeft_suffix_le (n : nat) :
  forall s : bytes, (List.length s <= n)%nat -> exists pre, s = pre ++ trimLeft s.
Proof.
  induction n as [|n IH]; intros s Hn.
  - destruct s; [exists []; reflexivity | simpl in Hn; lia].
  - destruct s as [|c1 t1]; [exists []; reflexivity|].
    simpl in Hn. cbn [trimLeft].
    destruct (asciiSpace c1).
    { destruct (IH t1) as [pre Hpre]; [lia|].
      exists (c1 :: pre). simpl. congruence. }
    destruct t1 as [|c2 t2]; [exists []; reflexivity|].
    simpl in Hn.
    destruct (space2 c1 c2).
    { destruct (IH t2) as [pre Hpre]; [lia|].
      exists (c1 :: c2 :: pre). simpl. congruence. }
    destruct t2 as [|c3 t3]; [exists []; reflexivity|].
    simpl in Hn.
    destruct (space3 c1 c2 c3).
    { destruct (IH t3) as [pre Hpre]; [lia|].
      exists (c1 :: c2 :: c3 :: pre). simpl. congruence. }
    exists []. reflexivity.
Qed.

Lemma trimRightRev_suffix_le (n : nat) :
  forall r : bytes, (List.length r <= n)%nat -> exists pre, r = pre ++ trimRightRev r.
Proof.
  induction n as [|n IH]; intros r Hn.
  - destruct r; [exists []; reflexivity | simpl in Hn; lia].
  - destruct r as [|c1 t1]; [exists []; reflexivity|].
    simpl in Hn. cbn [trimRightRev].
    destruct (asciiSpace c1).
    { destruct (IH t1) as [pre Hpre]; [lia|].
      exists (c1 :: pre). simpl. congruence. }
    destruct t1 as [|c2 t2]; [exists []; reflexivity|].
    simpl in Hn.
    destruct (space2 c2 c1).
    { destruct (IH t2) as [pre Hpre]; [lia|].
      exists (c1 :: c2 :: pre). simpl. congruence. }
    destruct t2 as [|c3 t3]; [exists []; reflexivity|].
    simpl in Hn.
    destruct (space3 c3 c2 c1).
    { destruct (IH t3) as [pre Hpre]; [lia|].
      exists (c1 :: c2 :: c3 :: pre). simpl. congruence. }
    exists []. reflexivity.
Qed.

(** The result of [TrimSpace] is a contiguous piece of its argument. *)
Lemma TrimSpace_infix (s : bytes) :
  exists pre suf, s = pre ++ TrimSpace s ++ suf.
Proof.
  unfold TrimSpace.
  destruct (trimLeft_suffix_le (List.length s) s (le_n _)) as [pre Hpre].
  destruct (trimRightRev_suffix_le _ (rev (trimLeft s)) (le_n _)) as [suf Hsuf].
  exists pre, (rev suf).
  rewrite <- rev_app_distr, <- Hsuf, rev_involutive. exact Hpre.
Qed.

Lemma In_TrimSpace (c : ascii) (s : bytes) : In c (TrimSpace s) -> In c s.
Proof.
  intros Hc. destruct (TrimSpace_infix s) as (pre & suf & Hs).
  rewrite Hs. apply in_or_app. right. apply in_or_app. left. exact Hc.
Qed.

Lemma In_ReplaceAll_empty (c old : ascii) (s : bytes) :
  In c (ReplaceAll_empty s old) <-> In c s /\ c <> old.
Proof.
  unfold ReplaceAll_empty. rewrite filter_In, negb_true_iff.
  split; intros [H1 H2]; split; try assumption.
  - intros ->. rewrite Ascii.eqb_refl in H2. discriminate.
  - apply Ascii.eqb_neq. exact H2.
Qed.

(** *** The extension *)

Lemma ext_scan_dot (r1 r2 acc : bytes) :
  Forall plain r1 ->
  ext_scan (r1 ++ "."%char :: r2) acc = "."%char :: rev r1 ++ acc.
Proof.
  intros H. revert acc. induction H as [|c r1 [Hd Hs] _ IH]; intros acc.
  - reflexivity.
  - simpl. unfold IsPathSeparator.
    apply Ascii.eqb_neq in Hd, Hs. rewrite Hd, Hs.
    rewrite IH. rewrite <- app_assoc. reflexivity.
Qed.

Lemma ext_scan_cases (r acc : bytes) :
  (ext_scan r acc = [] /\ (Forall (fun c => c <> "/"%char) r -> Forall plain r))
  \/ exists r1 r2, r = r1 ++ "."%char :: r2 /\ Forall plain r1.
Proof.
  revert acc. induction r as [|c r IH]; intros acc.
  - left. split; [reflexivity | constructor].
  - simpl. unfold IsPathSeparator.
    destruct (Ascii.eqb c "/") eqn:Hs.
    { left. split; [reflexivity|]. intros Hall. inversion Hall; subst.
      apply Ascii.eqb_eq in Hs. contradiction. }
    destruct (Ascii.eqb c ".") eqn:Hd.
    { right. exists [], r. apply Ascii.eqb_eq in Hd. subst. split; [reflexivity | constructor]. }
    apply Ascii.eqb_neq in Hs, Hd.
    destruct (IH (c :: acc)) as [[Hnil Hall] | (r1 & r2 & Hr & Hp)].
    + left. split; [exact Hnil|]. intros H. inversion H; subst.
      constructor; [split; assumption | auto].
    + right. exists (c :: r1), r2. subst r. split; [reflexivity|].
      constructor; [split; assumption | assumption].
Qed.

(** [Ext] returns a suffix of the path ... *)
Lemma Ext_suffix (path : bytes) : exists pre, path = pre ++ Ext path.
Proof.
  unfold Ext.
  destruct (ext_scan_cases (rev path) []) as [[Hnil _] | (r1 & r2 & Hr & Hp)].
  - rewrite Hnil. exists path. rewrite app_nil_r. reflexivity.
  - rewrite Hr, ext_scan_dot by assumption. rewrite app_nil_r.
    exists (rev r2). rewrite <- (rev_involutive path), Hr.
    rewrite rev_app_distr. simpl. rewrite <- app_assoc. reflexivity.
Qed.

Lemma len_Ext_le (path : bytes) : len (Ext path) <= len path.
Proof.
  destruct (Ext_suffix path) as [pre Hpre].
  rewrite Hpre at 2. rewrite len_app. pose proof (len_nonneg pre). lia.
Qed.

(** ... and cutting the name before its extension keeps the extension:
    [Ext (name[:m] + Ext name) = Ext name] for a name without separator. *)
Lemma Ext_truncated (name : bytes) (m : nat) :
  Forall (fun c => c <> "/"%char) name ->
  Ext (firstn m name ++ Ext name) = Ext name.
Proof.
  intros Hns. unfold Ext at 1 3.
  destruct (ext_scan_cases (rev name) []) as [[Hnil Hall] | (r1 & r2 & Hr & Hp)].
  - unfold Ext. rewrite Hnil, app_nil_r.
    assert (Hplain : Forall plain (rev name)).
    { apply Hall. apply Forall_rev. exact Hns. }
    assert (Hfirst : Forall plain (rev (firstn m name))).
    { apply Forall_rev. apply Forall_rev in Hplain. rewrite rev_involutive in Hplain.
      rewrite Forall_forall in *. intros c Hc. apply Hplain.
      rewrite <- (firstn_skipn m name). apply in_or_app. left. exact Hc. }
    destruct (ext_scan_cases (rev (firstn m name)) []) as [[H0 _] | (q1 & q2 & Hq & _)].
    + exact H0.
    + exfalso. rewrite Hq in Hfirst. apply Forall_app in Hfirst. destruct Hfirst as [_ Hf].
      inversion Hf as [|? ? [Hd _] _]; subst. apply Hd. reflexivity.
  - unfold Ext. rewrite Hr, ext_scan_dot by assumption. rewrite app_nil_r.
    rewrite rev_app_distr. simpl. rewrite rev_involutive, <- app_assoc. simpl.
    rewrite ext_scan_dot by assumption. rewrite app_nil_r. reflexivity.
Qed.

(** *** The base name *)

Lemma Base_nonempty (path : bytes) :
  path <> [] ->
  Base path =
    let last := rev (takeWhile (fun c => negb (IsPathSeparator c))
                       (rev (rev (dropWhile IsPathSeparator (rev path))))) in
    match last with
    | [] => ["/"%char]
    | _ => last
    end.
Proof. destruct path; [congruence | reflexivity]. Qed.

Lemma Base_last_element (dir name : bytes) :
  name <> [] -> Forall (fun c => c <> "/"%char) name ->
  Base (dir ++ "/"%char :: name) = name.
Proof.
  intros Hne Hns.
  assert (Hrev : rev name <> []).
  { intros H. apply Hne. rewrite <- (rev_involutive name), H. reflexivity. }
  assert (Hp : Forall (fun c => negb (IsPathSeparator c) = true) (rev name)).
  { apply Forall_rev. eapply Forall_impl; [|exact Hns].
    intros c Hc. unfold IsPathSeparator. apply negb_true_iff, Ascii.eqb_neq. exact Hc. }
  assert (Hcut : rev (dir ++ "/"%char :: name) = rev name ++ "/"%char :: rev dir).
  { rewrite rev_app_distr. simpl. rewrite <- app_assoc. reflexivity. }
  assert (Hdrop : dropWhile IsPathSeparator (rev (dir ++ "/"%char :: name))
                  = rev (dir ++ "/"%char :: name)).
  { rewrite Hcut. destruct (rev name) as [|c r]; [congruence|].
    simpl app. apply dropWhile_keep.
    inversion Hp; subst. apply negb_true_iff. assumption. }
  rewrite Base_nonempty by (destruct dir; discriminate).
  cbv zeta. rewrite Hdrop, rev_involutive, Hcut.
  rewrite takeWhile_stop; [| exact Hp | reflexivity].
  rewrite rev_involutive. destruct name; [congruence | reflexivity].
Qed.

Lemma Base_plain_name (name : bytes) :
  name <> [] -> Forall (fun c => c <> "/"%char) name -> Base name = name.
Proof.
  intros Hne Hns.
  assert (Hp : Forall (fun c => negb (IsPathSeparator c) = true) (rev name)).
  { apply Forall_rev. eapply Forall_impl; [|exact Hns].
    intros c Hc. unfold IsPathSeparator. apply negb_true_iff, Ascii.eqb_neq. exact Hc. }
  assert (Hdrop : dropWhile IsPathSeparator (rev name) = rev name).
  { destruct (rev name) as [|c r] eqn:Hr; [reflexivity|].
    apply dropWhile_keep. inversion Hp; subst. apply negb_true_iff. assumption. }
  rewrite Base_nonempty by exact Hne.
  cbv zeta. rewrite Hdrop, rev_involutive, takeWhile_all by exact Hp.
  rewrite rev_involutive. destruct name; [congruence | reflexivity].
Qed.

End GoLibFacts.

(** ** Facts about [SanitizeFilename] *)

Module UtilsFacts.
Import GoLib GoLibFacts Utils.

Lemma cleaned_safe (filename : bytes) : Forall safe_byte (cleaned filename).
Proof.
  apply Forall_forall. intros c Hc. unfold cleaned in Hc.
  apply In_TrimSpace in Hc.
  apply In_ReplaceAll_empty in Hc. destruct Hc as [Hc H0].
  apply In_ReplaceAll_empty in Hc. destruct Hc as [Hc Hb].
  apply In_ReplaceAll_empty in Hc. destruct Hc as [_ Hs].
  repeat split; assumption.
Qed.

Lemma collapsed_test (name : bytes) :
  bytes_eqb name [] || bytes_eqb name ["."%char]
  || bytes_eqb name ["."%char; "."%char] = true <-> collapsed name.
Proof.
  unfold collapsed. rewrite !orb_true_iff, !bytes_eqb_true. tauto.
Qed.

Lemma collapsed_short (name : bytes) : collapsed name -> len name <= 2.
Proof. intros [-> | [-> | ->]]; unfold len; simpl; lia. Qed.

Lemma sanitize_unfold (filename : bytes) :
  filename <> [] ->
  SanitizeFilename_bytes filename =
    if bytes_eqb (cleaned filename) [] || bytes_eqb (cleaned filename) ["."%char]
       || bytes_eqb (cleaned filename) ["."%char; "."%char]
    then Err ErrInvalidFilename
    else if 255 <? len (cleaned filename) then
      if 255 - len (Ext (cleaned filename)) <? 1 then Err ErrInvalidFilename
      else Ok (firstn (Z.to_nat (255 - len (Ext (cleaned filename)))) (cleaned filename)
               ++ Ext (cleaned filename))
    else Ok (cleaned filename).
Proof. destruct filename; [congruence | reflexivity]. Qed.

Lemma sanitize_collapsed (filename : bytes) :
  filename = [] \/ collapsed (cleaned filename) ->
  SanitizeFilename_bytes filename = Err ErrInvalidFilename.
Proof.
  intros [-> | Hc]; [reflexivity|].
  destruct filename as [|c f] eqn:Hf; [reflexivity|]. rewrite <- Hf in *.
  rewrite sanitize_unfold by (subst; discriminate).
  apply collapsed_test in Hc. rewrite Hc. reflexivity.
Qed.

Lemma sanitize_fits (filename : bytes) :
  filename <> [] -> ~ collapsed (cleaned filename) -> len (cleaned filename) <= 255 ->
  SanitizeFilename_bytes filename = Ok (cleaned filename).
Proof.
  intros Hne Hc Hlen. rewrite sanitize_unfold by exact Hne.
  destruct (_ || _ || _) eqn:Ht; [apply collapsed_test in Ht; contradiction|].
  destruct (255 <? len (cleaned filename)) eqn:Hl; [apply Z.ltb_lt in Hl; lia|].
  reflexivity.
Qed.

Lemma sanitize_truncates (filename : bytes) :
  filename <> [] -> 255 < len (cleaned filename) ->
  len (Ext (cleaned filename)) <= 254 ->
  SanitizeFilename_bytes filename =
    Ok (firstn (Z.to_nat (255 - len (Ext (cleaned filename)))) (cleaned filename)
        ++ Ext (cleaned filename)).
Proof.
  intros Hne Hlen Hext. rewrite sanitize_unfold by exact Hne.
  destruct (_ || _ || _) eqn:Ht.
  { apply collapsed_test, collapsed_short in Ht. lia. }
  apply Z.ltb_lt in Hlen. rewrite Hlen.
  destruct (255 - len (Ext (cleaned filename)) <? 1) eqn:Hm; [apply Z.ltb_lt in Hm; lia|].
  reflexivity.
Qed.

Lemma sanitize_long_extension (filename : bytes) :
  255 < len (cleaned filename) -> 255 <= len (Ext (cleaned filename)) ->
  SanitizeFilename_bytes filename = Err ErrInvalidFilename.
Proof.
  intros Hlen Hext. destruct filename as [|c f] eqn:Hf; [reflexivity|]. rewrite <- Hf in *.
  rewrite sanitize_unfold by (subst; discriminate).
  destruct (_ || _ || _); [reflexivity|].
  apply Z.ltb_lt in Hlen. rewrite Hlen.
  destruct (255 - len (Ext (cleaned filename)) <? 1) eqn:Hm; [reflexivity|].
  apply Z.ltb_ge in Hm. lia.
Qed.

Lemma truncated_len (name : bytes) :
  255 < len name -> len (Ext name) <= 254 ->
  len (firstn (Z.to_nat (255 - len (Ext name))) name ++ Ext name) = 255.
Proof.
  intros Hlen Hext. pose proof (len_nonneg (Ext name)) as H0.
  rewrite len_app. unfold len in *. rewrite length_firstn. lia.
Qed.

Lemma truncated_safe (name : bytes) (m : nat) :
  Forall safe_byte name -> Forall safe_byte (firstn m name ++ Ext name).
Proof.
  intros Hs. apply Forall_app. split.
  - rewrite Forall_forall in *. intros c Hc. apply Hs.
    rewrite <- (firstn_skipn m name). apply in_or_app. left. exact Hc.
  - destruct (Ext_suffix name) as [pre Hpre]. rewrite Hpre in Hs.
    apply Forall_app in Hs. apply Hs.
Qed.

(** Every accepted name is either the cleaned name, when that fits, or
    its truncation. *)
Lemma sanitize_ok_inv (filename r : bytes) :
  SanitizeFilename_bytes filename = Ok r ->
  ~ collapsed (cleaned filename)
  /\ ((len (cleaned filename) <= 255 /\ r = cleaned filename)
      \/ (255 < len (cleaned filename) /\ len (Ext (cleaned filename)) <= 254
          /\ r = firstn (Z.to_nat (255 - len (Ext (cleaned filename)))) (cleaned filename)
                 ++ Ext (cleaned filename))).
Proof.
  intros Hok. destruct filename as [|c f] eqn:Hf; [discriminate|]. rewrite <- Hf in *.
  rewrite sanitize_unfold in Hok by (subst; discriminate).
  destruct (_ || _ || _) eqn:Ht; [discriminate|].
  split.
  { intros Hc. apply collapsed_test in Hc. congruence. }
  destruct (255 <? len (cleaned filename)) eqn:Hl.
  - apply Z.ltb_lt in Hl.
    destruct (255 - len (Ext (cleaned filename)) <? 1) eqn:Hm; [discriminate|].
    apply Z.ltb_ge in Hm. right. inversion Hok. repeat split; lia.
  - apply Z.ltb_ge in Hl. left. inversion Hok. split; [lia | reflexivity].
Qed.

Lemma sanitize_ok_safe (filename r : bytes) :
  SanitizeFilename_bytes filename = Ok r ->
  Forall safe_byte r /\ ~ collapsed r /\ len r <= 255.
Proof.
  intros Hok. apply sanitize_ok_inv in Hok.
  destruct Hok as [Hnc [[Hlen ->] | (Hlen & Hext & ->)]].
  - split; [apply cleaned_safe | split; assumption].
  - pose proof (truncated_len _ Hlen Hext) as H255.
    split; [apply truncated_safe, cleaned_safe|].
    split; [|lia].
    intros Hc. apply collapsed_short in Hc. lia.
Qed.

Lemma sanitize_string_bytes (filename r : string) :
  SanitizeFilename filename = Ok r <->
  SanitizeFilename_bytes (of_string filename) = Ok (of_string r).
Proof.
  unfold SanitizeFilename.
  destruct (SanitizeFilename_bytes (of_string filename)) as [b|e]; split; intros H;
    try discriminate.
  - inversion H. rewrite of_to_string. reflexivity.
  - inversion H. rewrite to_of_string. reflexivity.
Qed.

End UtilsFacts.

(** ** Facts about the tables *)

Module StoreFacts.
Import Models Store Services System.

Lemma find_app {A : Type} (p : A -> bool) (l1 l2 : list A) :
  find p (l1 ++ l2) = match find p l1 with Some x => Some x | None => find p l2 end.
Proof.
  induction l1 as [|a l1 IH]; simpl; [reflexivity|].
  destruct (p a); [reflexivity | exact IH].
Qed.

Lemma find_map_same {A : Type} (p : A -> bool) (f : A -> A) (l : list A) :
  (forall x, p (f x) = p x) ->
  find p (map f l) = option_map f (find p l).
Proof.
  intros Hp. induction l as [|a l IH]; simpl; [reflexivity|].
  rewrite Hp. destruct (p a); [reflexivity | exact IH].
Qed.

Lemma filter_map_same {A : Type} (p : A -> bool) (f : A -> A) (l : list A) :
  (forall x, p (f x) = p x) ->
  filter p (map f l) = map f (filter p l).
Proof.
  intros Hp. induction l as [|a l IH]; simpl; [reflexivity|].
  rewrite Hp. destruct (p a); simpl; congruence.
Qed.

Lemma filter_none_id {A : Type} (p : A -> bool) (l : list A) :
  filter p l = [] -> filter (fun x => negb (p x)) l = l.
Proof.
  induction l as [|a l IH]; simpl; [reflexivity|].
  destruct (p a); simpl; [discriminate|]. intros H. rewrite IH by exact H. reflexivity.
Qed.

Lemma filter_filter_negb {A : Type} (p : A -> bool) (l : list A) :
  filter p (filter (fun x => negb (p x)) l) = [].
Proof.
  induction l as [|a l IH]; simpl; [reflexivity|].
  destruct (p a) eqn:Hp; simpl; [exact IH|]. rewrite Hp. exact IH.
Qed.

Lemma distinct_keys_filter {Row Key : Type} (key : Row -> Key) (keep : Row -> bool) :
  forall rows : list Row,
    NoDup (map key rows) -> NoDup (map key (filter keep rows)).
Proof.
  intros rows. induction rows as [|r rows IH]; simpl; intros Hnd; [constructor|].
  inversion Hnd as [|? ? Hnotin Hnd']; subst.
  destruct (keep r); simpl; [|auto].
  constructor; [|auto].
  intros Hin. apply Hnotin. apply in_map_iff in Hin. destruct Hin as (x & Hx & Hin).
  apply filter_In in Hin. apply in_map_iff. exists x. tauto.
Qed.

(** *** Keys of share rows *)

Lemma share_for_key (documentID userID : UUID) (s : DocumentShare.t) :
  share_for documentID userID s = true <-> share_key s = (documentID, userID).
Proof.
  unfold share_for, share_key. rewrite andb_true_iff, !N.eqb_eq.
  split; [intros [-> ->]; reflexivity | intros H; inversion H; auto].
Qed.

Lemma update_permission_key (documentID userID : UUID) (permission : string) (s : DocumentShare.t) :
  share_key (update_permission documentID userID permission s) = share_key s.
Proof. unfold update_permission. destruct (share_for _ _ s); reflexivity. Qed.

Lemma update_permission_share_for (d u d' u' : UUID) (permission : string) (s : DocumentShare.t) :
  share_for d' u' (update_permission d u permission s) = share_for d' u' s.
Proof. unfold update_permission. destruct (share_for d u s); reflexivity. Qed.

Lemma existsb_share_for (documentID userID : UUID) (l : list DocumentShare.t) :
  existsb (share_for documentID userID) l = true <-> In (documentID, userID) (map share_key l).
Proof.
  rewrite existsb_exists, in_map_iff.
  split; intros (s & H1 & H2).
  - exists s. split; [apply share_for_key; assumption | assumption].
  - exists s. split; [assumption | apply share_for_key; assumption].
Qed.

(** The upsert keeps the keys distinct. *)
Lemma upsert_share_unique (now : Time) (d by_ w : UUID) (p : string) (l : list DocumentShare.t) :
  NoDup (map share_key l) -> NoDup (map share_key (upserted now d by_ w p l)).
Proof.
  intros Hnd. unfold upserted.
  destruct (existsb (share_for d w) l) eqn:Hex.
  - rewrite map_map.
    rewrite (map_ext _ share_key); [exact Hnd|].
    intros s. apply update_permission_key.
  - rewrite map_app. simpl.
    rewrite <- (rev_involutive (map share_key l ++ [share_key _])).
    apply NoDup_rev. rewrite rev_app_distr. simpl.
    constructor; [|apply NoDup_rev; exact Hnd].
    rewrite <- in_rev. intros Hin. change (share_key _) with (d, w) in Hin.
    apply existsb_share_for in Hin. congruence.
Qed.

(** Distinct keys leave at most one row per document and recipient. *)
Lemma unique_at_most_one (d u : UUID) (l : list DocumentShare.t) :
  NoDup (map share_key l) -> (List.length (filter (share_for d u) l) <= 1)%nat.
Proof.
  induction l as [|a l IH]; simpl; intros Hnd; [lia|].
  inversion Hnd as [|? ? Hnotin Hnd']; subst.
  destruct (share_for d u a) eqn:Ha; [|auto].
  simpl. destruct (filter (share_for d u) l) as [|b l'] eqn:Hf; [simpl; lia|].
  exfalso. apply Hnotin.
  assert (Hb : In b (filter (share_for d u) l)) by (rewrite Hf; left; reflexivity).
  apply filter_In in Hb. destruct Hb as [Hb1 Hb2].
  apply share_for_key in Ha, Hb2. rewrite Ha, <- Hb2. apply in_map. exact Hb1.
Qed.

(** With distinct keys, a query for the unexpired row of a pair finds the
    row that is there. *)
Lemma find_unique_share (now : Time) (d u : UUID) (l : list DocumentShare.t) (s : DocumentShare.t) :
  NoDup (map share_key l) -> In s l ->
  share_for d u s = true -> not_expired now s = true ->
  find (fun s => share_for d u s && not_expired now s) l = Some s.
Proof.
  induction l as [|a l IH]; simpl; intros Hnd Hin Hs He; [contradiction|].
  inversion Hnd as [|? ? Hnotin Hnd']; subst.
  destruct Hin as [-> | Hin].
  - rewrite Hs, He. reflexivity.
  - destruct (share_for d u a) eqn:Ha.
    + exfalso. apply Hnotin. apply share_for_key in Ha, Hs.
      rewrite Ha, <- Hs. apply in_map. exact Hin.
    + simpl. auto.
Qed.

Lemma find_no_share (now : Time) (d u : UUID) (l : list DocumentShare.t) :
  (forall s, In s l -> share_for d u s = true -> not_expired now s = false) ->
  find (fun s => share_for d u s && not_expired now s) l = None.
Proof.
  intros H. destruct (find _ l) as [s|] eqn:Hf; [|reflexivity].
  apply find_some in Hf. destruct Hf as [Hin Ht].
  apply andb_true_iff in Ht. destruct Ht as [Hs He].
  rewrite (H s Hin Hs) in He. discriminate.
Qed.

End StoreFacts.

(** ** Facts about the service methods *)

Module ServicesFacts.
Import Models Store Services System StoreFacts.

Section WithDatabase.
Context `{DB : Database}.

Lemma scan_document_OwnerID (d : Document.t) :
  Document.OwnerID (scan_document d) = Document.OwnerID d.
Proof. reflexivity. Qed.

(** [GetByID] either returns a row that is not deleted, or every row of
    the document, if there is one, is deleted and the document is not
    found. *)
Lemma GetByID_cases (st : State) (id : UUID) :
  (exists row, In row (documents st) /\ Document.ID row = id
               /\ Document.DeletedAt row = None
               /\ GetByID st id = Ok (scan_document row))
  \/ ((forall d, In d (documents st) -> Document.ID d = id -> Document.DeletedAt d <> None)
      /\ GetByID st id = Err ErrDocumentNotFound).
Proof.
  unfold GetByID.
  destruct (find _ (documents st)) as [row|] eqn:Hf.
  - left. apply find_some in Hf. destruct Hf as [Hin Ht].
    apply andb_true_iff in Ht. destruct Ht as [Hid Hnull].
    apply N.eqb_eq in Hid. exists row. repeat split; try assumption.
    destruct (Document.DeletedAt row); [discriminate | reflexivity].
  - right. split; [|reflexivity]. intros d Hin Hid Hdel.
    pose proof (find_none _ _ Hf d Hin) as Ht. simpl in Ht.
    apply N.eqb_eq in Hid. rewrite Hid, Hdel in Ht. discriminate.
Qed.

Lemma GetByID_Err (st : State) (id : UUID) (e : error) :
  GetByID st id = Err e -> e = ErrDocumentNotFound.
Proof.
  destruct (GetByID_cases st id) as [(row & _ & _ & _ & H) | [_ H]]; rewrite H; congruence.
Qed.

Lemma GetByID_deleted (st : State) (id : UUID) :
  (forall d, In d (documents st) -> Document.ID d = id -> Document.DeletedAt d <> None) ->
  GetByID st id = Err ErrDocumentNotFound.
Proof.
  intros Hdel.
  destruct (GetByID_cases st id) as [(row & Hin & Hid & Hnull & _) | [_ H]]; [|exact H].
  exfalso. exact (Hdel row Hin Hid Hnull).
Qed.

Lemma GetByID_soft_deleted (st : State) (id : UUID) :
  soft_deleted st id -> GetByID st id = Err ErrDocumentNotFound.
Proof. intros [_ H]. apply GetByID_deleted. exact H. Qed.

Lemma GetByID_documents (st st' : State) (id : UUID) :
  documents st' = documents st -> GetByID st' id = GetByID st id.
Proof. unfold GetByID. intros ->. reflexivity. Qed.

(** *** What each method does to [documents] *)

Lemma step_documents `{Runtime} (uploadDir : string) (st : State) (op : Op) :
  documents_step (documents st) (documents (step uploadDir st op)).
Proof.
  destruct op; simpl.
  - unfold UserCreate. destruct (GetByEmail st email); [constructor|].
    destruct hashed; [|constructor]. destruct (refused _); [constructor|].
    destruct (existsb _ (users st)); constructor.
  - unfold Create.
    destruct (Utils.ValidateContentType mimeType); [constructor|].
    destruct (Utils.SanitizeFilename originalName); [|constructor].
    destruct (if negb (name =? "")%string then _ else _); [|constructor].
    destruct (createFault env); [constructor|].
    destruct (copyFault env); [constructor|]. cbv zeta.
    destruct (refused _); [constructor|].
    destruct (existsb _ (documents st)) eqn:Hex; [constructor|].
    destruct (negb _); [constructor|].
    simpl. apply docs_inserted. exact Hex.
  - unfold Delete. destruct (GetByID st id); [|constructor].
    destruct (negb _); [constructor|].
    cbn [set_documents documents files].
    destruct (os_Remove _ _ _) as [fs [e|]]; [destruct (negb _)|]; simpl; constructor.
  - unfold Share. destruct (GetByID st documentID); [|constructor].
    destruct (negb _); [constructor|]. destruct (find _ _); [|constructor].
    unfold upsert_share. destruct (varchar _ _); constructor.
  - unfold RemoveShare. destruct (GetByID st documentID); [|constructor].
    destruct (negb _); [constructor|]. destruct (_ =? 0); constructor.
  - unfold Rename. destruct (CanAccess st now id userID) as [[c p] [e|]]; [constructor|].
    destruct (_ || _); [constructor|]. destruct (varchar _ _); constructor.
Qed.

Lemma update_deleted_at_ID (now : Time) (id : UUID) (d : Document.t) :
  Document.ID (update_deleted_at now id d) = Document.ID d.
Proof. unfold update_deleted_at. destruct (N.eqb _ _); reflexivity. Qed.

Lemma update_name_ID (n : string) (now : Time) (id : UUID) (d : Document.t) :
  Document.ID (update_name n now id d) = Document.ID d.
Proof. unfold update_name. destruct (N.eqb _ _); reflexivity. Qed.

Lemma update_name_DeletedAt (n : string) (now : Time) (id : UUID) (d : Document.t) :
  Document.DeletedAt (update_name n now id d) = Document.DeletedAt d.
Proof. unfold update_name. destruct (N.eqb _ _); reflexivity. Qed.

Lemma update_deleted_at_stays (now : Time) (id : UUID) (d : Document.t) :
  Document.DeletedAt d <> None -> Document.DeletedAt (update_deleted_at now id d) <> None.
Proof. unfold update_deleted_at. destruct (N.eqb _ _); simpl; congruence. Qed.

(** A deletion time, once set, is never reset, and no new row takes the
    identifier. *)
Lemma documents_step_soft_deleted (st st' : State) (id : UUID) :
  documents_step (documents st) (documents st') ->
  soft_deleted st id -> soft_deleted st' id.
Proof.
  intros Hstep [(d0 & Hin0 & Hid0) Hall]. unfold soft_deleted.
  inversion Hstep as [Heq | doc Hfresh Heq | now id' Heq | n now id' Heq].
  - split; [exists d0; auto | exact Hall].
  - split; [exists d0; split; [apply in_or_app; auto | exact Hid0]|].
    assert (Hne : Document.ID doc <> id).
    { intros Hdoc.
      assert (Hex : existsb (fun d => N.eqb (Document.ID d) (Document.ID doc)) (documents st) = true).
      { apply existsb_exists. exists d0. split; [exact Hin0|]. apply N.eqb_eq. congruence. }
      congruence. }
    intros d Hin Hid. apply in_app_or in Hin. destruct Hin as [Hin | [<- | []]]; [auto|].
    contradiction.
  - split.
    + exists (update_deleted_at now id' d0). split; [apply in_map; exact Hin0|].
      rewrite update_deleted_at_ID. exact Hid0.
    + intros d Hin Hid. apply in_map_iff in Hin. destruct Hin as (x & <- & Hx).
      rewrite update_deleted_at_ID in Hid. apply update_deleted_at_stays. auto.
  - split.
    + exists (update_name n now id' d0). split; [apply in_map; exact Hin0|].
      rewrite update_name_ID. exact Hid0.
    + intros d Hin Hid. apply in_map_iff in Hin. destruct Hin as (x & <- & Hx).
      rewrite update_name_ID in Hid. rewrite update_name_DeletedAt. auto.
Qed.

Lemma run_soft_deleted `{Runtime} (uploadDir : string) (ops : list Op) :
  forall (st : State) (id : UUID),
    soft_deleted st id -> soft_deleted (run uploadDir st ops) id.
Proof.
  induction ops as [|op ops IH]; intros st id Hd; [exact Hd|].
  simpl. apply IH. eapply documents_step_soft_deleted; [apply step_documents | exact Hd].
Qed.

(** *** What each method does to [document_shares] *)

Lemma step_shares `{Runtime} (uploadDir : string) (st : State) (op : Op) :
  shares_step (document_shares st) (document_shares (step uploadDir st op)).
Proof.
  destruct op; simpl.
  - unfold UserCreate. destruct (GetByEmail st email); [constructor|].
    destruct hashed; [|constructor]. destruct (refused _); [constructor|].
    destruct (existsb _ (users st)); constructor.
  - unfold Create.
    destruct (Utils.ValidateContentType mimeType); [constructor|].
    destruct (Utils.SanitizeFilename originalName); [|constructor].
    destruct (if negb (name =? "")%string then _ else _); [|constructor].
    destruct (createFault env); [constructor|].
    destruct (copyFault env); [constructor|]. cbv zeta.
    destruct (refused _); [constructor|].
    destruct (existsb _ (documents st)); [constructor|].
    destruct (negb _); constructor.
  - unfold Delete. destruct (GetByID st id); [|constructor].
    destruct (negb _); [constructor|].
    cbn [set_documents documents files].
    destruct (os_Remove _ _ _) as [fs [e|]]; [destruct (negb _)|]; simpl; constructor.
  - unfold Share. destruct (GetByID st documentID); [|constructor].
    destruct (negb _); [constructor|]. destruct (find _ _); [|constructor].
    unfold upsert_share. destruct (varchar _ _); simpl; constructor.
  - unfold RemoveShare. destruct (GetByID st documentID); [|constructor].
    destruct (negb _); [constructor|]. destruct (_ =? 0); simpl; constructor.
  - unfold Rename. destruct (CanAccess st now id userID) as [[c p] [e|]]; [constructor|].
    destruct (_ || _); [constructor|]. destruct (varchar _ _); constructor.
Qed.

Lemma shares_step_unique (st st' : State) :
  shares_step (document_shares st) (document_shares st') ->
  shares_unique st -> shares_unique st'.
Proof.
  unfold shares_unique. intros Hstep Hu.
  inversion Hstep as [Heq | now d by_ w p Heq | d w Heq].
  - exact Hu.
  - apply upsert_share_unique. exact Hu.
  - apply distinct_keys_filter. exact Hu.
Qed.

Lemma run_shares_unique `{Runtime} (uploadDir : string) (ops : list Op) :
  forall st : State, shares_unique st -> shares_unique (run uploadDir st ops).
Proof.
  induction ops as [|op ops IH]; intros st Hu; [exact Hu|].
  simpl. apply IH. eapply shares_step_unique; [apply step_shares | exact Hu].
Qed.

Lemma reachable_shares_unique `{Runtime} (uploadDir : string) (st : State) :
  reachable uploadDir st -> shares_unique st.
Proof.
  intros [ops ->]. apply run_shares_unique. constructor.
Qed.

End WithDatabase.

End ServicesFacts.

(** * Properties of the document service *)

Module AccessProperties.
Import Models Store Services System StoreFacts ServicesFacts.

Section WithDatabase.
Context `{DB : Database}.

Lemma Delete_not_found (st : State) (now : Time) (fault : option string) (id userID : UUID) :
  GetByID st id = Err ErrDocumentNotFound ->
  Delete st now fault id userID = (st, Some ErrDocumentNotFound).
Proof. unfold Delete. intros ->. reflexivity. Qed.

Lemma CanAccess_not_found (st : State) (now : Time) (id userID : UUID) :
  GetByID st id = Err ErrDocumentNotFound ->
  CanAccess st now id userID = (false, EmptyString, Some ErrDocumentNotFound).
Proof. unfold CanAccess. intros ->. reflexivity. Qed.

Lemma Rename_not_found (st : State) (now : Time) (id userID : UUID) (newName : string) :
  GetByID st id = Err ErrDocumentNotFound ->
  Rename st now id userID newName = (st, Some ErrDocumentNotFound).
Proof. intros H. unfold Rename. rewrite (CanAccess_not_found _ _ _ _ H). reflexivity. Qed.

Lemma CanAccess_owner (st : State) (now : Time) (id : UUID) (doc : Document.t) :
  GetByID st id = Ok doc ->
  CanAccess st now id (Document.OwnerID doc) = (true, "owner"%string, None).
Proof. unfold CanAccess. intros ->. rewrite N.eqb_refl. reflexivity. Qed.

(** The metadata half of a successful [Delete] does not depend on the fate
    of the file. *)
Lemma Delete_owner (st : State) (now : Time) (fault : option string) (id : UUID)
    (doc : Document.t) :
  GetByID st id = Ok doc ->
  exists st',
    Delete st now fault id (Document.OwnerID doc) = (st', None)
    /\ users st' = users st
    /\ documents st' = map (update_deleted_at now id) (documents st)
    /\ document_shares st' = document_shares st
    /\ (forall msg, fault = Some msg -> files st' = files st /\ warnings st' <> warnings st).
Proof.
  intros Hget. unfold Delete. rewrite Hget, N.eqb_refl. cbn [negb].
  cbn [set_documents files].
  destruct fault as [msg|]; cbn [os_Remove].
  - cbn [IsNotExist negb]. eexists. split; [reflexivity|].
    split; [reflexivity|]. split; [reflexivity|]. split; [reflexivity|].
    intros m _. split; [reflexivity|].
    unfold add_warning. cbn [warnings]. intros Heq.
    apply (f_equal (@List.length string)) in Heq.
    rewrite length_app in Heq. simpl in Heq. lia.
  - destruct (existsb _ (files st)); cbn [IsNotExist negb];
      (eexists; split; [reflexivity|];
       split; [reflexivity|]; split; [reflexivity|]; split; [reflexivity|];
       intros m Hm; discriminate).
Qed.

Lemma deleted_rows_soft_deleted (st st' : State) (now : Time) (id : UUID) (doc : Document.t) :
  GetByID st id = Ok doc ->
  documents st' = map (update_deleted_at now id) (documents st) ->
  soft_deleted st' id.
Proof.
  intros Hget Hdocs.
  destruct (GetByID_cases st id) as [(row & Hin & Hid & _ & _) | [_ Herr]]; [|congruence].
  unfold soft_deleted. rewrite Hdocs. split.
  - exists (update_deleted_at now id row). split; [apply in_map; exact Hin|].
    rewrite update_deleted_at_ID. exact Hid.
  - intros d Hd Hdid. apply in_map_iff in Hd. destruct Hd as (x & <- & Hx).
    rewrite update_deleted_at_ID in Hdid. unfold update_deleted_at.
    apply N.eqb_eq in Hdid. rewrite Hdid. simpl. discriminate.
Qed.

(** C5. [Delete] fails with [ErrDocumentNotFound] when the document is
    absent or already soft-deleted; it fails with [ErrAccessDenied], leaving
    the state as it was and the document accessible to its owner, when the
    caller is not the owner; called by the owner it succeeds whatever
    becomes of the file (also when [os.Remove] fails: the file stays and a
    warning is printed), sets [deleted_at] on the document, and from then
    on, whatever the service does next, [GetByID] fails with
    [ErrDocumentNotFound]. *)
Theorem delete_soft_deletes `{Runtime} (uploadDir : string) (st : State) (now : Time)
    (fault : option string) (id userID : UUID) :
  ((forall d, In d (documents st) -> Document.ID d = id -> Document.DeletedAt d <> None) ->
   Delete st now fault id userID = (st, Some ErrDocumentNotFound))
  /\ (forall doc, GetByID st id = Ok doc -> Document.OwnerID doc <> userID ->
        Delete st now fault id userID = (st, Some ErrAccessDenied)
        /\ forall now',
             let st1 := fst (Delete st now fault id userID) in
             GetByID st1 id = Ok doc
             /\ CanAccess st1 now' id (Document.OwnerID doc) = (true, "owner"%string, None)
             /\ GetFilePath st1 now' id (Document.OwnerID doc) = (Document.FilePath doc, None))
  /\ (forall doc, GetByID st id = Ok doc -> Document.OwnerID doc = userID ->
        exists st',
          Delete st now fault id userID = (st', None)
          /\ documents st' = map (update_deleted_at now id) (documents st)
          /\ soft_deleted st' id
          /\ (forall msg, fault = Some msg -> files st' = files st /\ warnings st' <> warnings st)
          /\ forall ops, GetByID (run uploadDir st' ops) id = Err ErrDocumentNotFound).
Proof.
  split; [|split].
  - intros Hdel. apply Delete_not_found, GetByID_deleted. exact Hdel.
  - intros doc Hget Hown.
    assert (Hdelete : Delete st now fault id userID = (st, Some ErrAccessDenied)).
    { unfold Delete. rewrite Hget. apply N.eqb_neq in Hown. rewrite Hown. reflexivity. }
    split; [exact Hdelete|]. intros now'. rewrite Hdelete. cbn [fst].
    split; [exact Hget|]. split; [apply CanAccess_owner; exact Hget|].
    unfold GetFilePath. rewrite Hget, N.eqb_refl. reflexivity.
  - intros doc Hget <-.
    destruct (Delete_owner st now fault id doc Hget) as (st' & Hd & _ & Hdocs & _ & Hfiles).
    exists st'. split; [exact Hd|]. split; [exact Hdocs|].
    assert (Hsd : soft_deleted st' id) by (eapply deleted_rows_soft_deleted; eassumption).
    split; [exact Hsd|]. split; [exact Hfiles|].
    intros ops. apply GetByID_soft_deleted, run_soft_deleted. exact Hsd.
Qed.

(** C10. Once every row of a document carries a deletion time, and
    whatever the service has done since, [GetByID], [CanAccess],
    [GetFilePath], [Rename], [Share], [RemoveShare] and [Delete] all fail
    with [ErrDocumentNotFound] and change nothing, for every user: the
    owner and the holders of unexpired shares included. *)
Theorem soft_deleted_is_not_found `{Runtime} (uploadDir : string) (st : State) (id : UUID) :
  soft_deleted st id ->
  forall (ops : list Op) (st' : State), st' = run uploadDir st ops ->
  forall (now : Time) (userID : UUID),
    soft_deleted st' id
    /\ GetByID st' id = Err ErrDocumentNotFound
    /\ CanAccess st' now id userID = (false, EmptyString, Some ErrDocumentNotFound)
    /\ GetFilePath st' now id userID = (EmptyString, Some ErrDocumentNotFound)
    /\ (forall newName,
          Rename st' now id userID newName = (st', Some ErrDocumentNotFound))
    /\ (forall email permission,
          Share st' now id userID email permission = (st', Some ErrDocumentNotFound))
    /\ (forall sharedWithID,
          RemoveShare st' id userID sharedWithID = (st', Some ErrDocumentNotFound))
    /\ (forall fault,
          Delete st' now fault id userID = (st', Some ErrDocumentNotFound)).
Proof.
  intros Hsd ops st' -> now userID.
  assert (Hsd' : soft_deleted (run uploadDir st ops) id) by (apply run_soft_deleted; exact Hsd).
  pose proof (GetByID_soft_deleted _ _ Hsd') as Hget.
  split; [exact Hsd'|]. split; [exact Hget|].
  split; [apply CanAccess_not_found; exact Hget|].
  split; [unfold GetFilePath; rewrite Hget; reflexivity|].
  split; [intros; apply Rename_not_found; exact Hget|].
  split; [intros; unfold Share; rewrite Hget; reflexivity|].
  split; [intros; unfold RemoveShare; rewrite Hget; reflexivity|].
  intros; apply Delete_not_found; exact Hget.
Qed.


Lemma Share_ok_inv (st st1 : State) (now : Time) (documentID ownerID : UUID)
    (email permission : string) :
  Share st now documentID ownerID email permission = (st1, None) ->
  exists doc u,
    GetByID st documentID = Ok doc /\ Document.OwnerID doc = ownerID
    /\ GetByEmail st email = Ok u
    /\ st1 = set_document_shares st
               (upserted now documentID ownerID (User.ID u) permission
                             (document_shares st)).
Proof.
  unfold Share, GetByEmail. destruct (GetByID st documentID) as [doc|e]; [|discriminate].
  destruct (N.eqb (Document.OwnerID doc) ownerID) eqn:Hown; [|discriminate].
  cbn [negb]. destruct (find _ (users st)) as [u|]; [|discriminate].
  unfold upsert_share. destruct (varchar 20 permission); [discriminate|].
  intros Heq. inversion Heq. exists doc, u. apply N.eqb_eq in Hown. auto.
Qed.

(** [Share] succeeds only with a permission that the column takes. *)
Lemma Share_ok_accepted (st st1 : State) (now : Time) (documentID ownerID : UUID)
    (email permission : string) :
  Share st now documentID ownerID email permission = (st1, None) ->
  varchar 20 permission = None.
Proof.
  unfold Share. destruct (GetByID st documentID) as [doc|e]; [|discriminate].
  destruct (negb _); [discriminate|].
  destruct (find _ (users st)) as [u|]; [|discriminate].
  unfold upsert_share. destruct (varchar 20 permission); [discriminate | reflexivity].
Qed.

Lemma upsert_share_present (now : Time) (d by_ w : UUID) (p : string) (l : list DocumentShare.t) :
  existsb (share_for d w) (upserted now d by_ w p l) = true.
Proof.
  unfold upserted. destruct (existsb (share_for d w) l) eqn:Hex.
  - apply existsb_exists in Hex. destruct Hex as (s & Hin & Hs).
    apply existsb_exists. exists (update_permission d w p s).
    split; [apply in_map; exact Hin|]. rewrite update_permission_share_for. exact Hs.
  - rewrite existsb_app. simpl. unfold share_for at 2. simpl.
    rewrite !N.eqb_refl. simpl. apply orb_true_r.
Qed.

Lemma update_permission_sets (d w : UUID) (p : string) (s : DocumentShare.t) :
  share_for d w s = true -> DocumentShare.Permission (update_permission d w p s) = p.
Proof. unfold update_permission. intros ->. reflexivity. Qed.

(** C3. In every state the service reaches from the empty database there
    is at most one row of [document_shares] per document and recipient; and
    when [Share] has succeeded for a document and a recipient, sharing again
    with another permission, one that the column [permission VARCHAR(20)]
    takes, as it takes "view" and "edit", succeeds too, rewrites the
    permission of the rows in place, and leaves exactly one row for the
    pair, with the new permission. *)
Theorem one_share_per_recipient `{Runtime} (uploadDir : string) (st : State) :
  reachable uploadDir st ->
  (forall documentID userID, (List.length (shares_of st documentID userID) <= 1)%nat)
  /\ forall (now1 now2 : Time) (documentID ownerID : UUID) (email p1 p2 : string)
            (st1 : State),
       Share st now1 documentID ownerID email p1 = (st1, None) ->
       varchar 20 p2 = None ->
       exists (st2 : State) (recipient : User.t) (row : DocumentShare.t),
         Share st1 now2 documentID ownerID email p2 = (st2, None)
         /\ GetByEmail st email = Ok recipient
         /\ shares_of st2 documentID (User.ID recipient) = [row]
         /\ DocumentShare.Permission row = p2
         /\ document_shares st2
            = map (update_permission documentID (User.ID recipient) p2)
                  (document_shares st1)
         /\ List.length (document_shares st2) = List.length (document_shares st1).
Proof.
  intros Hreach. pose proof (reachable_shares_unique _ _ Hreach) as Hu.
  split.
  { intros d u. apply unique_at_most_one. exact Hu. }
  intros now1 now2 d owner email p1 p2 st1 Hshare Hp2.
  destruct (Share_ok_inv _ _ _ _ _ _ _ Hshare) as (doc & u & Hget & Hown & Hmail & ->).
  set (l1 := upserted now1 d owner (User.ID u) p1 (document_shares st)).
  assert (Hu1 : NoDup (map share_key l1)) by (apply upsert_share_unique; exact Hu).
  assert (Hex : existsb (share_for d (User.ID u)) l1 = true) by apply upsert_share_present.
  assert (Hshare2 :
    Share (set_document_shares st l1) now2 d owner email p2
    = (set_document_shares st (map (update_permission d (User.ID u) p2) l1), None)).
  { unfold Share. rewrite (GetByID_documents st) by reflexivity. rewrite Hget.
    apply N.eqb_eq in Hown. rewrite Hown. cbn [negb].
    pose proof Hmail as Hfind. unfold GetByEmail in Hfind.
    cbn [users set_document_shares].
    destruct (find _ (users st)) as [u'|]; [|discriminate]. inversion Hfind; subst u'.
    cbn [document_shares set_document_shares]. unfold upsert_share. rewrite Hp2.
    unfold upserted at 1. fold l1. rewrite Hex. reflexivity. }
  assert (Hrows : exists r, filter (share_for d (User.ID u)) l1 = [r]).
  { pose proof (unique_at_most_one d (User.ID u) l1 Hu1) as Hle.
    apply existsb_exists in Hex. destruct Hex as (s & Hin & Hs).
    assert (Hf : In s (filter (share_for d (User.ID u)) l1)) by (apply filter_In; auto).
    destruct (filter (share_for d (User.ID u)) l1) as [|r [|r' rest]];
      [contradiction | exists r; reflexivity | simpl in Hle; lia]. }
  destruct Hrows as [r Hr].
  exists (set_document_shares st (map (update_permission d (User.ID u) p2) l1)),
         u, (update_permission d (User.ID u) p2 r).
  split; [exact Hshare2|]. split; [exact Hmail|].
  split.
  { unfold shares_of. cbn [document_shares set_document_shares].
    rewrite filter_map_same by (intros; apply update_permission_share_for).
    rewrite Hr. reflexivity. }
  split.
  { apply update_permission_sets.
    assert (Hin : In r (filter (share_for d (User.ID u)) l1)) by (rewrite Hr; left; reflexivity).
    apply filter_In in Hin. apply Hin. }
  split; [reflexivity|].
  cbn [document_shares set_document_shares]. apply length_map.
Qed.

Lemma not_expired_spec (now : Time) (s : DocumentShare.t) :
  not_expired now s = true <->
  DocumentShare.ExpiresAt s = None
  \/ exists t, DocumentShare.ExpiresAt s = Some t /\ now < t.
Proof.
  unfold not_expired. destruct (DocumentShare.ExpiresAt s) as [t|].
  - rewrite Z.ltb_lt. split.
    + intros Hlt. right. exists t. auto.
    + intros [Hnone | (t' & Heq & Hlt)]; [discriminate | congruence].
  - split; auto.
Qed.

Lemma CanAccess_shared (st : State) (now : Time) (documentID userID : UUID)
    (doc : Document.t) (s : DocumentShare.t) :
  GetByID st documentID = Ok doc -> Document.OwnerID doc <> userID ->
  shares_unique st -> In s (document_shares st) ->
  share_for documentID userID s = true -> not_expired now s = true ->
  CanAccess st now documentID userID = (true, DocumentShare.Permission s, None).
Proof.
  intros Hget Hown Hu Hin Hs He. unfold CanAccess. rewrite Hget.
  apply N.eqb_neq in Hown. rewrite Hown.
  rewrite (find_unique_share now documentID userID _ s Hu Hin Hs He). reflexivity.
Qed.

Lemma CanAccess_not_shared (st : State) (now : Time) (documentID userID : UUID)
    (doc : Document.t) :
  GetByID st documentID = Ok doc -> Document.OwnerID doc <> userID ->
  (forall s, In s (document_shares st) -> share_for documentID userID s = true ->
             not_expired now s = false) ->
  CanAccess st now documentID userID = (false, EmptyString, None).
Proof.
  intros Hget Hown Hnone. unfold CanAccess. rewrite Hget.
  apply N.eqb_neq in Hown. rewrite Hown.
  rewrite (find_no_share now documentID userID _ Hnone). reflexivity.
Qed.

(** C1 (amended). For a document that exists and is not soft-deleted,
    [CanAccess] returns [(true, "owner")] to the owner; to another user it
    returns [(true, p)] when the user's share row is unexpired ([expires_at]
    null or strictly later than the time of the call), [p] being the
    permission of that row, and [(false, "")] otherwise, in each case
    without error. For a document that is absent or soft-deleted it returns
    [(false, "")] with [ErrDocumentNotFound], also to the owner. A share
    whose [expires_at] is not later than the time of the call changes no
    answer of [CanAccess]: the state without that row gives the same. *)
Theorem can_access_of_live_document (st : State) (now : Time) (documentID userID : UUID) :
  (forall doc, GetByID st documentID = Ok doc ->
     (Document.OwnerID doc = userID ->
      CanAccess st now documentID userID = (true, "owner"%string, None))
     /\ (Document.OwnerID doc <> userID ->
         (forall s, shares_unique st -> In s (document_shares st) ->
                    share_for documentID userID s = true ->
                    (DocumentShare.ExpiresAt s = None
                     \/ exists t, DocumentShare.ExpiresAt s = Some t /\ now < t) ->
                    CanAccess st now documentID userID
                    = (true, DocumentShare.Permission s, None))
         /\ ((forall s, In s (document_shares st) ->
                        share_for documentID userID s = true ->
                        exists t, DocumentShare.ExpiresAt s = Some t /\ t <= now) ->
             CanAccess st now documentID userID = (false, EmptyString, None))))
  /\ (forall e, GetByID st documentID = Err e ->
        CanAccess st now documentID userID = (false, EmptyString, Some ErrDocumentNotFound))
  /\ (forall (l1 l2 : list DocumentShare.t) (r : DocumentShare.t) (t : Time),
        document_shares st = l1 ++ r :: l2 ->
        DocumentShare.ExpiresAt r = Some t -> t <= now ->
        CanAccess st now documentID userID
        = CanAccess (set_document_shares st (l1 ++ l2)) now documentID userID).
Proof.
  split; [|split].
  - intros doc Hget. split; [|intros Hown; split].
    + intros <-. apply CanAccess_owner. exact Hget.
    + intros s Hu Hin Hs He. eapply CanAccess_shared; try eassumption.
      apply not_expired_spec. exact He.
    + intros Hall. eapply CanAccess_not_shared; try eassumption.
      intros s Hin Hs. destruct (Hall s Hin Hs) as (t & Ht & Hle).
      unfold not_expired. rewrite Ht. apply Z.ltb_ge. exact Hle.
  - intros e He. apply CanAccess_not_found.
    rewrite He. f_equal. eapply GetByID_Err. exact He.
  - intros l1 l2 r t Hsh Hexp Hle. unfold CanAccess.
    rewrite (GetByID_documents st (set_document_shares st (l1 ++ l2))) by reflexivity.
    destruct (GetByID st documentID) as [doc|e]; [|reflexivity].
    destruct (N.eqb (Document.OwnerID doc) userID); [reflexivity|].
    cbn [document_shares set_document_shares]. rewrite Hsh, !find_app. simpl.
    assert (Hr : not_expired now r = false).
    { unfold not_expired. rewrite Hexp. apply Z.ltb_ge. exact Hle. }
    rewrite Hr, andb_false_r. reflexivity.
Qed.


Lemma update_name_live (newName : string) (now : Time) (id id' : UUID) (d : Document.t) :
  N.eqb (Document.ID (update_name newName now id d)) id'
  && is_null (Document.DeletedAt (update_name newName now id d))
  = N.eqb (Document.ID d) id' && is_null (Document.DeletedAt d).
Proof. rewrite update_name_ID, update_name_DeletedAt. reflexivity. Qed.

(** After the UPDATE of [Rename] the document is found under its new
    name, with the owner it had. *)
Lemma GetByID_renamed (st : State) (newName : string) (now : Time) (id : UUID)
    (doc : Document.t) :
  GetByID st id = Ok doc ->
  exists doc',
    GetByID (set_documents st (map (update_name newName now id) (documents st))) id = Ok doc'
    /\ Document.Name doc' = newName
    /\ Document.UpdatedAt doc' = now
    /\ Document.OwnerID doc' = Document.OwnerID doc
    /\ Document.FilePath doc' = Document.FilePath doc.
Proof.
  intros Hget.
  destruct (GetByID_cases st id) as [(row & Hin & Hid & Hnull & Hrow) | [_ Herr]]; [|congruence].
  unfold GetByID in *. cbn [documents set_documents].
  rewrite (find_map_same _ (update_name newName now id))
    by (intros; apply update_name_live).
  destruct (find _ (documents st)) as [row'|] eqn:Hf; [|discriminate].
  cbn [option_map]. inversion Hget; subst doc.
  apply find_some in Hf. destruct Hf as [_ Ht]. apply andb_true_iff in Ht.
  destruct Ht as [Hid' _].
  eexists. split; [reflexivity|].
  unfold update_name. rewrite Hid'. repeat split.
Qed.

(** C4 (amended). On a document that exists and is not soft-deleted,
    when the caller is the owner or holds an unexpired share with
    permission "edit", [Rename] succeeds, and from then on the document is
    found under the new name, if the column [name VARCHAR(255)] takes the
    name, and fails with the error of the database, changing nothing, if
    the column refuses it; [Rename] fails with [ErrAccessDenied] and
    changes nothing when the caller's unexpired share has permission
    "view" or the caller has no unexpired share. On a document that is
    absent or soft-deleted it fails with [ErrDocumentNotFound] for every
    caller. *)
Theorem rename_needs_owner_or_edit (st : State) (now : Time) (id userID : UUID)
    (newName : string) :
  (forall e, GetByID st id = Err e ->
     Rename st now id userID newName = (st, Some ErrDocumentNotFound))
  /\ forall doc, GetByID st id = Ok doc ->
       forall renamed,
         renamed = set_documents st (map (update_name newName now id) (documents st)) ->
         (exists doc', GetByID renamed id = Ok doc' /\ Document.Name doc' = newName
                       /\ Document.OwnerID doc' = Document.OwnerID doc)
         /\ (Document.OwnerID doc = userID ->
             (varchar 255 newName = None ->
              Rename st now id userID newName = (renamed, None))
             /\ (forall msg, varchar 255 newName = Some msg ->
                   Rename st now id userID newName = (st, Some (ErrDB msg))))
         /\ (Document.OwnerID doc <> userID -> shares_unique st ->
             forall s, In s (document_shares st) -> share_for id userID s = true ->
                       (DocumentShare.ExpiresAt s = None
                        \/ exists t, DocumentShare.ExpiresAt s = Some t /\ now < t) ->
               (DocumentShare.Permission s = "edit"%string ->
                (varchar 255 newName = None ->
                 Rename st now id userID newName = (renamed, None))
                /\ (forall msg, varchar 255 newName = Some msg ->
                      Rename st now id userID newName = (st, Some (ErrDB msg))))
               /\ (DocumentShare.Permission s = "view"%string ->
                   Rename st now id userID newName = (st, Some ErrAccessDenied)))
         /\ (Document.OwnerID doc <> userID ->
             (forall s, In s (document_shares st) -> share_for id userID s = true ->
                        exists t, DocumentShare.ExpiresAt s = Some t /\ t <= now) ->
             Rename st now id userID newName = (st, Some ErrAccessDenied)).
Proof.
  split.
  { intros e He. apply Rename_not_found. rewrite He. f_equal. eapply GetByID_Err. exact He. }
  intros doc Hget renamed ->. split; [|split; [|split]].
  - destruct (GetByID_renamed st newName now id doc Hget) as (doc' & H1 & H2 & _ & H3 & _).
    exists doc'. auto.
  - intros <-. unfold Rename. rewrite (CanAccess_owner _ _ _ _ Hget). cbn.
    split; [intros -> | intros msg ->]; reflexivity.
  - intros Hown Hu s Hin Hs He. apply not_expired_spec in He.
    pose proof (CanAccess_shared _ _ _ _ _ _ Hget Hown Hu Hin Hs He) as Hca.
    split; intros Hp; unfold Rename; rewrite Hca, Hp; [|reflexivity]. cbn.
    split; [intros -> | intros msg ->]; reflexivity.
  - intros Hown Hall. unfold Rename.
    rewrite (CanAccess_not_shared _ now _ _ _ Hget Hown); [reflexivity|].
    intros s Hin Hs. destruct (Hall s Hin Hs) as (t & Ht & Hle).
    unfold not_expired. rewrite Ht. apply Z.ltb_ge. exact Hle.
Qed.



(** C9 (amended). [RemoveShare] fails with [ErrDocumentNotFound] when the
    document is absent or soft-deleted and with [ErrAccessDenied] when the
    caller is not its owner. Called by the owner it fails with
    [ErrShareNotFound], changing nothing, exactly when [document_shares]
    has no row for the document and the recipient, expired or not;
    otherwise it succeeds and deletes every row of the pair, and no other
    row. *)
Theorem remove_share_result (st : State) (documentID ownerID sharedWithID : UUID) :
  (forall e, GetByID st documentID = Err e ->
     RemoveShare st documentID ownerID sharedWithID = (st, Some ErrDocumentNotFound))
  /\ forall doc, GetByID st documentID = Ok doc ->
       (Document.OwnerID doc <> ownerID ->
        RemoveShare st documentID ownerID sharedWithID = (st, Some ErrAccessDenied))
       /\ (Document.OwnerID doc = ownerID ->
           (snd (RemoveShare st documentID ownerID sharedWithID) = Some ErrShareNotFound
            <-> shares_of st documentID sharedWithID = [])
           /\ (shares_of st documentID sharedWithID = [] ->
               RemoveShare st documentID ownerID sharedWithID = (st, Some ErrShareNotFound))
           /\ (shares_of st documentID sharedWithID <> [] ->
               exists st',
                 RemoveShare st documentID ownerID sharedWithID = (st', None)
                 /\ shares_of st' documentID sharedWithID = []
                 /\ (forall s, In s (document_shares st') <->
                               In s (document_shares st)
                               /\ share_for documentID sharedWithID s = false)
                 /\ users st' = users st /\ documents st' = documents st)).
Proof.
  split.
  { intros e He. unfold RemoveShare. rewrite He. f_equal. f_equal. eapply GetByID_Err. exact He. }
  intros doc Hget. split.
  { intros Hown. unfold RemoveShare. rewrite Hget. apply N.eqb_neq in Hown. rewrite Hown.
    reflexivity. }
  intros <-. unfold shares_of.
  assert (Hrun : RemoveShare st documentID (Document.OwnerID doc) sharedWithID =
    let st' := set_document_shares st
                 (filter (fun s => negb (share_for documentID sharedWithID s))
                         (document_shares st)) in
    if Z.of_nat (List.length (filter (share_for documentID sharedWithID) (document_shares st))) =? 0
    then (st', Some ErrShareNotFound) else (st', None)).
  { unfold RemoveShare. rewrite Hget, N.eqb_refl. reflexivity. }
  cbv zeta in Hrun.
  destruct (filter (share_for documentID sharedWithID) (document_shares st)) as [|r rows] eqn:Hf.
  - simpl in Hrun. rewrite (filter_none_id _ _ Hf) in Hrun.
    assert (Hst : set_document_shares st (document_shares st) = st) by (destruct st; reflexivity).
    rewrite Hst in Hrun. rewrite Hrun. split; [|split].
    + split; reflexivity.
    + reflexivity.
    + congruence.
  - assert (Hnz : (Z.of_nat (List.length (r :: rows)) =? 0) = false).
    { apply Z.eqb_neq. simpl List.length. lia. }
    rewrite Hnz in Hrun. rewrite Hrun. split; [|split].
    + split; [discriminate | discriminate].
    + discriminate.
    + intros _. eexists. split; [reflexivity|].
      cbn [document_shares set_document_shares users documents].
      split; [apply filter_filter_negb|]. split; [|split; reflexivity].
      intros s. rewrite filter_In, negb_true_iff. reflexivity.
Qed.


Lemma wrap_int_small (z : Z) : - 2 ^ 63 <= z < 2 ^ 63 -> wrap_int z = z.
Proof. intros Hz. unfold wrap_int. rewrite Z.mod_small; lia. Qed.

Lemma limit_offset_ok {A : Type} (limit offset : Z) (rows : list A) :
  0 <= limit -> 0 <= offset ->
  limit_offset limit offset rows
  = Ok (firstn (Z.to_nat limit) (skipn (Z.to_nat offset) rows)).
Proof.
  intros Hl Ho. unfold limit_offset.
  destruct (limit <? 0) eqn:H1; [apply Z.ltb_lt in H1; lia|].
  destruct (offset <? 0) eqn:H2; [apply Z.ltb_lt in H2; lia|].
  reflexivity.
Qed.

Lemma clamped_offset (page perPage : Z) :
  (page - 1) * 100 < 2 ^ 63 ->
  let page' := if page <? 1 then 1 else page in
  let perPage' := if (perPage <? 1) || (100 <? perPage) then 20 else perPage in
  0 <= perPage' /\ 0 <= wrap_int ((page' - 1) * perPage').
Proof.
  intros Hp. cbv zeta.
  assert (Hpp : 1 <= (if (perPage <? 1) || (100 <? perPage) then 20 else perPage) <= 100).
  { destruct (perPage <? 1) eqn:H1; [simpl; lia|].
    destruct (100 <? perPage) eqn:H2; [simpl; lia|].
    apply Z.ltb_ge in H1, H2. simpl. lia. }
  set (perPage' := if (perPage <? 1) || (100 <? perPage) then 20 else perPage) in *.
  split; [lia|].
  destruct (page <? 1) eqn:H1.
  - replace ((1 - 1) * perPage') with 0 by lia. rewrite wrap_int_small; lia.
  - apply Z.ltb_ge in H1. rewrite wrap_int_small; nia.
Qed.

(** C8 (amended). [GetByOwner] and [GetSharedWithUser] treat a page below
    1 as page 1 and a page size below 1 or above 100 as 20; a page size
    from 1 to 100, 1 included, is used as it is, as the LIMIT of the query,
    with OFFSET (page - 1) * size. No pagination input is refused: whenever
    the offset fits Go's 64-bit [int], the listing returns its rows and no
    error. *)
Theorem listing_clamps_pagination (st : State) (now : Time) (userID : UUID)
    (page perPage : Z) :
  (page < 1 ->
   GetByOwner st userID page perPage = GetByOwner st userID 1 perPage
   /\ GetSharedWithUser st now userID page perPage
      = GetSharedWithUser st now userID 1 perPage)
  /\ (perPage < 1 \/ 100 < perPage ->
      GetByOwner st userID page perPage = GetByOwner st userID page 20
      /\ GetSharedWithUser st now userID page perPage
         = GetSharedWithUser st now userID page 20)
  /\ (1 <= page -> 1 <= perPage <= 100 -> (page - 1) * perPage < 2 ^ 63 ->
      GetByOwner st userID page perPage
      = Ok (map scan_owned
              (firstn (Z.to_nat perPage)
                 (skipn (Z.to_nat ((page - 1) * perPage))
                    (order_by_desc Document.CreatedAt
                       (filter (fun d => N.eqb (Document.OwnerID d) userID
                                         && is_null (Document.DeletedAt d))
                               (documents st))))),
            Z.of_nat (List.length
                        (filter (fun d => N.eqb (Document.OwnerID d) userID
                                          && is_null (Document.DeletedAt d))
                                (documents st))))
      /\ GetSharedWithUser st now userID page perPage
         = Ok (map (fun r => DocumentResponse.mk (scan_shared (snd (fst r)))
                               (User.Name (snd r)) [])
                 (firstn (Z.to_nat perPage)
                    (skipn (Z.to_nat ((page - 1) * perPage))
                       (order_by_desc (fun r => DocumentShare.CreatedAt (fst (fst r)))
                          (shared_rows_with_owner st now userID)))),
               Z.of_nat (List.length (shared_rows st now userID))))
  /\ ((page - 1) * 100 < 2 ^ 63 ->
      (exists r, GetByOwner st userID page perPage = Ok r)
      /\ (exists r, GetSharedWithUser st now userID page perPage = Ok r)).
Proof.
  split; [|split; [|split]].
  - intros Hp. apply Z.ltb_lt in Hp. unfold GetByOwner, GetSharedWithUser.
    rewrite Hp. change (1 <? 1) with false. cbv iota. split; reflexivity.
  - intros Hpp.
    assert (Hc : (perPage <? 1) || (100 <? perPage) = true).
    { apply orb_true_iff. destruct Hpp as [H1 | H2]; [left | right]; apply Z.ltb_lt; lia. }
    unfold GetByOwner, GetSharedWithUser. rewrite Hc.
    change ((20 <? 1) || (100 <? 20)) with false. cbv iota. split; reflexivity.
  - intros Hp [Hl Hh] Hoff.
    assert (H1 : (page <? 1) = false) by (apply Z.ltb_ge; lia).
    assert (H2 : (perPage <? 1) || (100 <? perPage) = false).
    { apply orb_false_iff. split; apply Z.ltb_ge; lia. }
    unfold GetByOwner, GetSharedWithUser. rewrite H1, H2.
    rewrite wrap_int_small by nia.
    rewrite !limit_offset_ok by nia. split; reflexivity.
  - intros Hoff. destruct (clamped_offset page perPage Hoff) as [Hl Ho].
    unfold GetByOwner, GetSharedWithUser.
    rewrite !limit_offset_ok by assumption. split; eexists; reflexivity.
Qed.

End WithDatabase.

End AccessProperties.

(** ** The token service *)

Module AuthProperties.
Import Models Auth.

(** C2. A token issued by [GenerateToken] verifies, under the secret that
    signed it and at any time of its 24-hour window, to the user id and
    e-mail address it was issued for; past [expiresAt] it fails with
    [ErrExpiredToken], as does every token signed with the secret whose
    [expiresAt] has passed; a token signed with another secret fails with
    [ErrInvalidToken], expired or not, and so does every token of the
    "none" algorithm and every token without signature; and the two errors
    are different values. *)
Theorem token_verification (jwtSecret : Secret) (issuedAt : Time) (userID : UUID)
    (email : string) :
  (forall now, issuedAt <= now <= issuedAt + 24 * 3600 ->
     exists claims,
       ValidateToken jwtSecret now (GenerateToken jwtSecret issuedAt userID email)
       = inl claims
       /\ UserID claims = userID /\ Email claims = email
       /\ IssuedAt claims = issuedAt
       /\ ExpiresAt claims = issuedAt + 24 * 3600)
  /\ (forall now, issuedAt + 24 * 3600 < now ->
        ValidateToken jwtSecret now (GenerateToken jwtSecret issuedAt userID email)
        = inr ErrExpiredToken)
  /\ (forall now claims, ExpiresAt claims < now ->
        ValidateToken jwtSecret now (SignedString SigningMethodHS256 claims jwtSecret)
        = inr ErrExpiredToken)
  /\ (forall other now, other <> jwtSecret ->
        ValidateToken other now (GenerateToken jwtSecret issuedAt userID email)
        = inr ErrInvalidToken)
  /\ (forall other now claims, other <> jwtSecret ->
        ValidateToken jwtSecret now (SignedString SigningMethodHS256 claims other)
        = inr ErrInvalidToken)
  /\ (forall now claims key,
        ValidateToken jwtSecret now (SignedString SigningMethodNone claims key)
        = inr ErrInvalidToken)
  /\ (forall now claims signature,
        ValidateToken jwtSecret now (Encoded (mkToken SigningMethodNone claims signature))
        = inr ErrInvalidToken)
  /\ (forall now method claims,
        ValidateToken jwtSecret now (Encoded (mkToken method claims Unsigned))
        = inr ErrInvalidToken)
  /\ ErrExpiredToken <> ErrInvalidToken.
Proof.
  assert (Hexp : forall now claims, ExpiresAt claims < now ->
            ValidateToken jwtSecret now (SignedString SigningMethodHS256 claims jwtSecret)
            = inr ErrExpiredToken).
  { intros now claims Hlate. unfold ValidateToken, SignedString.
    cbn [Method Sig TokenClaims].
    destruct (Signature_eq_dec _ _) as [_|Hne]; [|congruence].
    apply Z.ltb_lt in Hlate. rewrite Hlate. reflexivity. }
  assert (Hkey : forall other now claims, other <> jwtSecret ->
            ValidateToken jwtSecret now (SignedString SigningMethodHS256 claims other)
            = inr ErrInvalidToken).
  { intros other now claims Hother. unfold ValidateToken, SignedString.
    cbn [Method Sig TokenClaims].
    destruct (Signature_eq_dec _ _) as [Heq|_]; [|reflexivity].
    inversion Heq. congruence. }
  split; [|split; [|split; [|split; [|split; [|split; [|split; [|split]]]]]]].
  - intros now [Hlo Hhi]. eexists. unfold ValidateToken, GenerateToken, SignedString, validity.
    cbn [Method Sig TokenClaims ExpiresAt].
    destruct (Signature_eq_dec _ _) as [_|Hne]; [|congruence].
    destruct (_ <? now) eqn:Hlt; [apply Z.ltb_lt in Hlt; lia|].
    repeat split.
  - intros now Hlate. apply Hexp. unfold validity. cbn [ExpiresAt]. lia.
  - exact Hexp.
  - intros other now Hother. unfold ValidateToken, GenerateToken, SignedString.
    cbn [Method Sig TokenClaims].
    destruct (Signature_eq_dec _ _) as [Heq|_]; [|reflexivity].
    inversion Heq. congruence.
  - exact Hkey.
  - reflexivity.
  - reflexivity.
  - intros now method claims. unfold ValidateToken. cbn [Method Sig].
    destruct method; reflexivity.
  - discriminate.
Qed.

End AuthProperties.

(** ** Filenames and the storage path *)

Module UtilsProperties.
Import GoLib GoLibFacts Utils UtilsFacts Models Store Services.

Section WithDatabase.
Context `{DB : Database}.

Lemma cleaned_last_element (dir name : bytes) :
  name <> [] -> Forall (fun c => c <> "/"%char) name ->
  cleaned (dir ++ "/"%char :: name) = cleaned name.
Proof.
  intros Hne Hns. unfold cleaned.
  rewrite Base_last_element, Base_plain_name by assumption. reflexivity.
Qed.

Lemma Create_ok_inv `{Runtime} (uploadDir : string) (st st' : State) (env : CreateEnv)
    (ownerID : UUID) (name originalName mimeType : string) (size : Z) (doc : Document.t) :
  Create uploadDir st env ownerID name originalName mimeType size = (st', Ok doc) ->
  Document.ID doc = newID env
  /\ Document.FilePath doc = filepath_Join uploadDir (UUID_String (newID env))
  /\ documents st' = documents st ++ [doc]
  /\ SanitizeFilename originalName = Ok (Document.OriginalName doc).
Proof.
  unfold Create.
  destruct (ValidateContentType mimeType); [discriminate|].
  destruct (SanitizeFilename originalName) as [orig|]; [|discriminate].
  destruct (if negb (name =? "")%string then _ else _) as [n|]; [|discriminate].
  destruct (createFault env); [discriminate|].
  destruct (copyFault env); [discriminate|]. cbv zeta.
  destruct (refused _); [discriminate|].
  destruct (existsb _ (documents st)); [discriminate|].
  destruct (negb _); [discriminate|].
  intros Heq. inversion Heq. subst. cbn. auto.
Qed.

(** C7 (amended). Whatever name the caller supplies, a name accepted by
    [SanitizeFilename] has no path separator and no null byte, is not
    empty, "." or "..", and is at most 255 bytes long; what precedes the
    last slash of the input plays no part; an input that is empty or whose
    cleaned base name is empty, "." or ".." is refused; a cleaned name of
    at most 255 bytes is returned as it is; a longer one is cut to exactly
    255 bytes, keeping its extension, when the extension is at most 254
    bytes long, and refused otherwise; "../../../etc/passwd" gives
    "passwd", while backslashes are removed and what they separate is kept.
    And the [FilePath] of a created document is
    [filepath.Join(uploadDir, id.String())] for the freshly generated id: two
    calls that draw the same id store the same path, whatever the caller
    supplied. *)
Theorem sanitized_names_and_storage_path `{Runtime} :
  (forall filename r : string,
     SanitizeFilename filename = Ok r ->
     Forall safe_byte (of_string r) /\ ~ collapsed (of_string r)
     /\ len (of_string r) <= 255)
  /\ (forall dir name : bytes,
        name <> [] -> Forall (fun c => c <> "/"%char) name ->
        SanitizeFilename_bytes (dir ++ "/"%char :: name) = SanitizeFilename_bytes name)
  /\ (forall filename : bytes,
        filename = [] \/ collapsed (cleaned filename) ->
        SanitizeFilename_bytes filename = Err ErrInvalidFilename)
  /\ (forall filename : bytes,
        filename <> [] -> ~ collapsed (cleaned filename) ->
        len (cleaned filename) <= 255 ->
        SanitizeFilename_bytes filename = Ok (cleaned filename))
  /\ (forall filename : bytes,
        filename <> [] -> 255 < len (cleaned filename) ->
        (len (Ext (cleaned filename)) <= 254 ->
         exists r,
           SanitizeFilename_bytes filename = Ok r
           /\ len r = 255
           /\ Ext r = Ext (cleaned filename)
           /\ exists m, r = firstn m (cleaned filename) ++ Ext (cleaned filename))
        /\ (255 <= len (Ext (cleaned filename)) ->
            SanitizeFilename_bytes filename = Err ErrInvalidFilename))
  /\ SanitizeFilename "../../../etc/passwd" = Ok "passwd"%string
  /\ SanitizeFilename "..\..\windows\system32\config"
     = Ok "....windowssystem32config"%string
  /\ (forall (uploadDir : string) (st st' : State) (env : CreateEnv) (ownerID : UUID)
             (name originalName mimeType : string) (size : Z) (doc : Document.t),
        Create uploadDir st env ownerID name originalName mimeType size = (st', Ok doc) ->
        Document.FilePath doc = filepath_Join uploadDir (UUID_String (newID env))
        /\ documents st' = documents st ++ [doc])
  /\ (forall (uploadDir : string) (st1 st1' st2 st2' : State) (env1 env2 : CreateEnv)
             (owner1 owner2 : UUID) (name1 name2 orig1 orig2 mime1 mime2 : string)
             (size1 size2 : Z) (doc1 doc2 : Document.t),
        Create uploadDir st1 env1 owner1 name1 orig1 mime1 size1 = (st1', Ok doc1) ->
        Create uploadDir st2 env2 owner2 name2 orig2 mime2 size2 = (st2', Ok doc2) ->
        newID env1 = newID env2 ->
        Document.FilePath doc1 = Document.FilePath doc2).
Proof.
  split; [|split; [|split; [|split; [|split; [|split; [|split; [|split]]]]]]].
  - intros filename r Hok. apply sanitize_string_bytes in Hok.
    apply sanitize_ok_safe in Hok. exact Hok.
  - intros dir name Hne Hns.
    rewrite !sanitize_unfold by (try assumption; destruct dir; discriminate).
    rewrite cleaned_last_element by assumption. reflexivity.
  - apply sanitize_collapsed.
  - apply sanitize_fits.
  - intros filename Hne Hlen. split.
    + intros Hext. eexists. split; [apply sanitize_truncates; assumption|].
      split; [apply truncated_len; assumption|].
      split; [|eexists; reflexivity].
      apply Ext_truncated. eapply Forall_impl; [|apply cleaned_safe].
      intros c Hc. apply Hc.
    + apply sanitize_long_extension. exact Hlen.
  - reflexivity.
  - reflexivity.
  - intros uploadDir st st' env ownerID name originalName mimeType size doc Hc.
    apply Create_ok_inv in Hc. tauto.
  - intros uploadDir st1 st1' st2 st2' env1 env2 owner1 owner2 name1 name2 orig1 orig2
           mime1 mime2 size1 size2 doc1 doc2 H1 H2 Hid.
    apply Create_ok_inv in H1, H2.
    destruct H1 as (_ & -> & _). destruct H2 as (_ & -> & _). rewrite Hid. reflexivity.
Qed.

End WithDatabase.

End UtilsProperties.

(** * The properties on a concrete run *)

Module Examples.
Import Models Store Services System Sample.
Import StoreFacts ServicesFacts AccessProperties AuthProperties UtilsProperties.

Lemma sample_shares_unique (permission : string) (expires : option Time) :
  shares_unique (st_shared permission expires).
Proof. repeat constructor; simpl; tauto. Qed.

Lemma st_deleted_soft_deleted : soft_deleted st_deleted doc1.
Proof.
  split.
  - exists (doc1_row (Some 50)). split; [left; reflexivity | reflexivity].
  - intros d [<- | []] _. discriminate.
Qed.

(** C1: as stated, the property fails on a soft-deleted document: its owner,
    and a user whose share has not expired, are both answered
    [(false, "")] with [ErrDocumentNotFound]. *)
Lemma can_access_soft_deleted_counterexample :
  In (doc1_row (Some 50)) (documents st_deleted)
  /\ Document.OwnerID (doc1_row (Some 50)) = alice
  /\ CanAccess st_deleted 100 doc1 alice <> (true, "owner"%string, None)
  /\ In (share_row "edit" None) (document_shares st_deleted)
  /\ not_expired 100 (share_row "edit" None) = true
  /\ CanAccess st_deleted 100 doc1 bob <> (true, "edit"%string, None)
  /\ CanAccess st_deleted 100 doc1 bob <> (false, EmptyString, None).
Proof.
  split; [left; reflexivity|]. split; [reflexivity|].
  split; [vm_compute; discriminate|].
  split; [left; reflexivity|]. split; [reflexivity|].
  split; vm_compute; discriminate.
Qed.

(** C1 on the sample states: the owner, a user with an unexpired share, a
    user whose share has expired, and a soft-deleted document. *)
Lemma can_access_witness :
  CanAccess (st_shared "view" (Some 150)) 100 doc1 alice = (true, "owner"%string, None)
  /\ CanAccess (st_shared "view" (Some 150)) 100 doc1 bob = (true, "view"%string, None)
  /\ CanAccess (st_shared "view" (Some 50)) 100 doc1 bob = (false, EmptyString, None)
  /\ CanAccess st_deleted 100 doc1 alice = (false, EmptyString, Some ErrDocumentNotFound)
  /\ CanAccess (st_shared "view" (Some 50)) 100 doc1 bob = CanAccess st_owned 100 doc1 bob.
Proof.
  split; [|split; [|split; [|split]]].
  - destruct (can_access_of_live_document (st_shared "view" (Some 150)) 100 doc1 alice)
      as [Hlive _].
    destruct (Hlive (scan_document (doc1_row None)) eq_refl) as [Howner _].
    apply Howner. reflexivity.
  - destruct (can_access_of_live_document (st_shared "view" (Some 150)) 100 doc1 bob)
      as [Hlive _].
    destruct (Hlive (scan_document (doc1_row None)) eq_refl) as [_ Hother].
    destruct Hother as [Hshared _]; [discriminate|].
    apply (Hshared (share_row "view" (Some 150))).
    + apply sample_shares_unique.
    + left. reflexivity.
    + reflexivity.
    + right. exists 150. split; [reflexivity | lia].
  - destruct (can_access_of_live_document (st_shared "view" (Some 50)) 100 doc1 bob)
      as [Hlive _].
    destruct (Hlive (scan_document (doc1_row None)) eq_refl) as [_ Hother].
    destruct Hother as [_ Hnone]; [discriminate|].
    apply Hnone. intros s [<- | []] _. exists 50. split; [reflexivity | lia].
  - destruct (can_access_of_live_document st_deleted 100 doc1 alice) as (_ & Hgone & _).
    apply (Hgone ErrDocumentNotFound). reflexivity.
  - destruct (can_access_of_live_document (st_shared "view" (Some 50)) 100 doc1 bob)
      as (_ & _ & Hexpired).
    apply (Hexpired [] [] (share_row "view" (Some 50)) 50); [reflexivity | reflexivity | lia].
Defined.

(** C2 for a token issued to Alice at time 0. *)
Lemma token_verification_witness :
  (exists claims,
     Auth.ValidateToken "secret-key-1"%string 3600
       (Auth.GenerateToken "secret-key-1"%string 0 alice "alice@example.com") = inl claims
     /\ Auth.UserID claims = alice /\ Auth.Email claims = "alice@example.com"%string
     /\ Auth.IssuedAt claims = 0
     /\ Auth.ExpiresAt claims = 0 + 24 * 3600)
  /\ Auth.ValidateToken "secret-key-1"%string 86401
       (Auth.GenerateToken "secret-key-1"%string 0 alice "alice@example.com")
     = inr Auth.ErrExpiredToken
  /\ Auth.ValidateToken "secret-key-2"%string 3600
       (Auth.GenerateToken "secret-key-1"%string 0 alice "alice@example.com")
     = inr Auth.ErrInvalidToken.
Proof.
  destruct (token_verification "secret-key-1"%string 0 alice "alice@example.com")
    as (Hvalid & Hexpired & _ & Hother & _).
  split; [|split].
  - apply Hvalid. lia.
  - apply Hexpired. lia.
  - apply Hother. discriminate.
Defined.

Lemma st_history_reachable : reachable uploadDir st_history.
Proof. exists history. reflexivity. Qed.

(** C3 after the sample history: Alice shares the document with Bob at
    "view", then at "edit". *)
Lemma one_share_per_recipient_witness :
  (List.length (shares_of st_history doc1 bob) <= 1)%nat
  /\ exists st2 recipient row,
       Share (fst (Share st_history 20 doc1 alice "bob@example.com" "view")) 21
             doc1 alice "bob@example.com" "edit" = (st2, None)
       /\ GetByEmail st_history "bob@example.com" = Ok recipient
       /\ shares_of st2 doc1 (User.ID recipient) = [row]
       /\ DocumentShare.Permission row = "edit"%string
       /\ document_shares st2
          = map (update_permission doc1 (User.ID recipient) "edit")
                (document_shares (fst (Share st_history 20 doc1 alice "bob@example.com" "view")))
       /\ List.length (document_shares st2)
          = List.length (document_shares
                           (fst (Share st_history 20 doc1 alice "bob@example.com" "view"))).
Proof.
  destruct (one_share_per_recipient uploadDir st_history st_history_reachable)
    as [Hone Hagain].
  split; [apply Hone|].
  apply (Hagain 20 21 doc1 alice "bob@example.com" "view" "edit")%string;
    vm_compute; reflexivity.
Defined.

(** C4: as stated, the property fails on a soft-deleted document: the owner's
    [Rename] does not succeed, and a user without any access is answered
    [ErrDocumentNotFound], not [ErrAccessDenied]. *)
Lemma rename_soft_deleted_counterexample :
  Document.OwnerID (doc1_row (Some 50)) = alice
  /\ Rename st_deleted 100 doc1 alice "new.pdf" = (st_deleted, Some ErrDocumentNotFound)
  /\ shares_of st_deleted doc1 carol = []
  /\ Rename st_deleted 100 doc1 carol "new.pdf" <> (st_deleted, Some ErrAccessDenied).
Proof.
  split; [reflexivity|]. split; [reflexivity|]. split; [reflexivity|].
  vm_compute. discriminate.
Qed.

(** C4 on the sample states; the owner's last name is longer than the
    column. *)
Lemma rename_witness :
  (exists st', Rename st_owned 100 doc1 alice "new.pdf" = (st', None)
               /\ exists doc', GetByID st' doc1 = Ok doc'
                               /\ Document.Name doc' = "new.pdf"%string)
  /\ Rename st_owned 100 doc1 alice long_name
     = (st_owned, Some (ErrDB "value too long for type character varying"))
  /\ (exists st', Rename (st_shared "edit" None) 100 doc1 bob "new.pdf" = (st', None))
  /\ Rename (st_shared "view" None) 100 doc1 bob "new.pdf"
     = (st_shared "view" None, Some ErrAccessDenied)
  /\ Rename st_owned 100 doc1 bob "new.pdf" = (st_owned, Some ErrAccessDenied)
  /\ Rename st_deleted 100 doc1 alice "new.pdf" = (st_deleted, Some ErrDocumentNotFound).
Proof.
  split; [|split; [|split; [|split; [|split]]]].
  - destruct (rename_needs_owner_or_edit st_owned 100 doc1 alice "new.pdf") as [_ Hlive].
    destruct (Hlive (scan_document (doc1_row None)) eq_refl _ eq_refl)
      as ((doc' & Hget & Hname & _) & Howner & _).
    eexists. split; [apply (proj1 (Howner eq_refl)); reflexivity|].
    exists doc'. split; assumption.
  - destruct (rename_needs_owner_or_edit st_owned 100 doc1 alice long_name) as [_ Hlive].
    destruct (Hlive (scan_document (doc1_row None)) eq_refl _ eq_refl)
      as (_ & Howner & _).
    apply (proj2 (Howner eq_refl)). vm_compute. reflexivity.
  - destruct (rename_needs_owner_or_edit (st_shared "edit" None) 100 doc1 bob "new.pdf")
      as [_ Hlive].
    destruct (Hlive (scan_document (doc1_row None)) eq_refl _ eq_refl)
      as (_ & _ & Hshare & _).
    destruct (Hshare ltac:(discriminate) (sample_shares_unique _ _)
                (share_row "edit" None) ltac:(left; reflexivity) eq_refl
                ltac:(left; reflexivity)) as [Hedit _].
    eexists. apply (proj1 (Hedit eq_refl)). reflexivity.
  - destruct (rename_needs_owner_or_edit (st_shared "view" None) 100 doc1 bob "new.pdf")
      as [_ Hlive].
    destruct (Hlive (scan_document (doc1_row None)) eq_refl _ eq_refl)
      as (_ & _ & Hshare & _).
    apply (Hshare ltac:(discriminate) (sample_shares_unique _ _) (share_row "view" None)); auto.
    left. reflexivity.
  - destruct (rename_needs_owner_or_edit st_owned 100 doc1 bob "new.pdf") as [_ Hlive].
    destruct (Hlive (scan_document (doc1_row None)) eq_refl _ eq_refl)
      as (_ & _ & _ & Hnone).
    apply Hnone; [discriminate|]. intros s [].
  - destruct (rename_needs_owner_or_edit st_deleted 100 doc1 alice "new.pdf") as [Hgone _].
    apply (Hgone ErrDocumentNotFound). reflexivity.
Defined.

(** C5 on the sample states; the owner's call meets a failing [os.Remove]. *)
Lemma delete_witness :
  Delete st_deleted 100 None doc1 alice = (st_deleted, Some ErrDocumentNotFound)
  /\ Delete st_owned 100 None doc1 bob = (st_owned, Some ErrAccessDenied)
  /\ exists st',
       Delete st_owned 100 (Some "permission denied"%string) doc1 alice = (st', None)
       /\ soft_deleted st' doc1
       /\ files st' = files st_owned
       /\ forall ops, GetByID (run uploadDir st' ops) doc1 = Err ErrDocumentNotFound.
Proof.
  split; [|split].
  - destruct (delete_soft_deletes uploadDir st_deleted 100 None doc1 alice) as [Hgone _].
    apply Hgone. intros d [<- | []] _. discriminate.
  - destruct (delete_soft_deletes uploadDir st_owned 100 None doc1 bob) as (_ & Hdenied & _).
    apply (Hdenied (scan_document (doc1_row None)) eq_refl). discriminate.
  - destruct (delete_soft_deletes uploadDir st_owned 100 (Some "permission denied"%string)
                doc1 alice) as (_ & _ & Howner).
    destruct (Howner (scan_document (doc1_row None)) eq_refl eq_refl)
      as (st' & Hd & _ & Hsd & Hfiles & Hlater).
    exists st'. split; [exact Hd|]. split; [exact Hsd|].
    split; [apply (Hfiles "permission denied"%string eq_refl) | exact Hlater].
Defined.



(** C7: a cleaned name longer than 255 bytes is not always truncated: with
    an extension of 261 bytes the name is refused. *)
Lemma sanitize_long_extension_counterexample :
  255 < GoLib.len (Utils.cleaned (GoLib.of_string long_extension))
  /\ Utils.SanitizeFilename long_extension = Err ErrInvalidFilename
  /\ ~ exists r, Utils.SanitizeFilename long_extension = Ok r.
Proof.
  split; [vm_compute; reflexivity|].
  assert (H : Utils.SanitizeFilename long_extension = Err ErrInvalidFilename)
    by (vm_compute; reflexivity).
  split; [exact H|]. intros [r Hr]. rewrite H in Hr. discriminate.
Qed.

(** C7 for "../../../etc/passwd", a blank name and the two long names. *)
Lemma sanitize_witness :
  (Forall Utils.safe_byte (GoLib.of_string "passwd")
   /\ ~ Utils.collapsed (GoLib.of_string "passwd")
   /\ GoLib.len (GoLib.of_string "passwd") <= 255)
  /\ Utils.SanitizeFilename_bytes (GoLib.of_string "../../../etc/passwd")
     = Utils.SanitizeFilename_bytes (GoLib.of_string "passwd")
  /\ Utils.SanitizeFilename_bytes (GoLib.of_string "   ") = Err ErrInvalidFilename
  /\ (exists r,
        Utils.SanitizeFilename_bytes (GoLib.of_string long_name) = Ok r
        /\ GoLib.len r = 255
        /\ GoLib.Ext r = GoLib.Ext (Utils.cleaned (GoLib.of_string long_name))
        /\ exists m, r = firstn m (Utils.cleaned (GoLib.of_string long_name))
                         ++ GoLib.Ext (Utils.cleaned (GoLib.of_string long_name)))
  /\ Utils.SanitizeFilename_bytes (GoLib.of_string long_extension) = Err ErrInvalidFilename.
Proof.
  destruct (@sanitized_names_and_storage_path database runtime)
    as (Hsafe & Hbase & Hcollapsed & _ & Hlong & _).
  split; [|split; [|split; [|split]]].
  - apply (Hsafe "../../../etc/passwd"%string). reflexivity.
  - apply (Hbase (GoLib.of_string "../../../etc") (GoLib.of_string "passwd")).
    + discriminate.
    + repeat constructor; discriminate.
  - apply Hcollapsed. right. left. reflexivity.
  - apply (Hlong (GoLib.of_string long_name)).
    + discriminate.
    + vm_compute. reflexivity.
    + vm_compute. discriminate.
  - apply (Hlong (GoLib.of_string long_extension)).
    + discriminate.
    + vm_compute. reflexivity.
    + vm_compute. discriminate.
Defined.

(** C8: a page size of 1 lies outside (1, 100] but is not replaced by 20:
    the listing returns one row where a page size of 20 returns two. *)
Lemma page_size_one_counterexample :
  ~ (1 < 1 <= 100)
  /\ GetByOwner st_two_docs alice 1 1 = Ok ([scan_owned doc2_row], 2)
  /\ GetByOwner st_two_docs alice 1 20
     = Ok ([scan_owned doc2_row; scan_owned (doc1_row None)], 2)
  /\ GetByOwner st_two_docs alice 1 1 <> GetByOwner st_two_docs alice 1 20.
Proof.
  split; [lia|]. split; [reflexivity|]. split; [reflexivity|].
  vm_compute. discriminate.
Qed.

(** C8 for pages and page sizes out of range. *)
Lemma listing_witness :
  GetByOwner st_two_docs alice 0 20 = GetByOwner st_two_docs alice 1 20
  /\ GetByOwner st_two_docs alice 1 0 = GetByOwner st_two_docs alice 1 20
  /\ GetByOwner st_two_docs alice 1 200 = GetByOwner st_two_docs alice 1 20
  /\ (exists r, GetSharedWithUser (st_shared "view" None) 100 bob (-3) 1000 = Ok r).
Proof.
  split; [|split; [|split]].
  - destruct (listing_clamps_pagination st_two_docs 100 alice 0 20) as [Hpage _].
    apply Hpage. lia.
  - destruct (listing_clamps_pagination st_two_docs 100 alice 1 0) as (_ & Hsize & _).
    apply Hsize. lia.
  - destruct (listing_clamps_pagination st_two_docs 100 alice 1 200) as (_ & Hsize & _).
    apply Hsize. lia.
  - destruct (listing_clamps_pagination (st_shared "view" None) 100 bob (-3) 1000)
      as (_ & _ & _ & Hok).
    apply Hok. lia.
Defined.

(** C9: the DELETE of [RemoveShare] has no expiry filter: with only an
    expired share of the pair in the table, no unexpired row is removed,
    yet the call succeeds and removes the expired row. *)
Lemma remove_expired_share_counterexample :
  document_shares (st_shared "view" (Some 50)) = [share_row "view" (Some 50)]
  /\ not_expired 100 (share_row "view" (Some 50)) = false
  /\ RemoveShare (st_shared "view" (Some 50)) doc1 alice bob = (st_owned, None)
  /\ snd (RemoveShare (st_shared "view" (Some 50)) doc1 alice bob) <> Some ErrShareNotFound.
Proof.
  split; [reflexivity|]. split; [reflexivity|]. split; [reflexivity|].
  vm_compute. discriminate.
Qed.

(** C9 on the sample states. *)
Lemma remove_share_witness :
  RemoveShare st_deleted doc1 alice bob = (st_deleted, Some ErrDocumentNotFound)
  /\ RemoveShare (st_shared "view" None) doc1 bob bob
     = (st_shared "view" None, Some ErrAccessDenied)
  /\ RemoveShare st_owned doc1 alice bob = (st_owned, Some ErrShareNotFound)
  /\ exists st',
       RemoveShare (st_shared "view" None) doc1 alice bob = (st', None)
       /\ shares_of st' doc1 bob = [].
Proof.
  split; [|split; [|split]].
  - destruct (remove_share_result st_deleted doc1 alice bob) as [Hgone _].
    apply (Hgone ErrDocumentNotFound). reflexivity.
  - destruct (remove_share_result (st_shared "view" None) doc1 bob bob) as [_ Hlive].
    destruct (Hlive (scan_document (doc1_row None)) eq_refl) as [Hdenied _].
    apply Hdenied. discriminate.
  - destruct (remove_share_result st_owned doc1 alice bob) as [_ Hlive].
    destruct (Hlive (scan_document (doc1_row None)) eq_refl) as [_ Howner].
    destruct (Howner eq_refl) as (_ & Hnone & _). apply Hnone. reflexivity.
  - destruct (remove_share_result (st_shared "view" None) doc1 alice bob) as [_ Hlive].
    destruct (Hlive (scan_document (doc1_row None)) eq_refl) as [_ Howner].
    destruct (Howner eq_refl) as (_ & _ & Hsome).
    destruct Hsome as (st' & Hrm & Hempty & _); [discriminate|].
    exists st'. split; assumption.
Defined.

(** C10 for the soft-deleted sample document, its owner and Bob, whose
    share is unexpired. *)
Lemma soft_deleted_witness :
  GetByID st_deleted doc1 = Err ErrDocumentNotFound
  /\ CanAccess st_deleted 100 doc1 alice = (false, EmptyString, Some ErrDocumentNotFound)
  /\ CanAccess st_deleted 100 doc1 bob = (false, EmptyString, Some ErrDocumentNotFound)
  /\ GetFilePath st_deleted 100 doc1 bob = (EmptyString, Some ErrDocumentNotFound)
  /\ Delete st_deleted 100 None doc1 alice = (st_deleted, Some ErrDocumentNotFound).
Proof.
  pose proof (soft_deleted_is_not_found uploadDir st_deleted doc1 st_deleted_soft_deleted
                [] st_deleted eq_refl) as Hgone.
  destruct (Hgone 100 alice) as (_ & Hget & Hca & _ & _ & _ & _ & Hdel).
  destruct (Hgone 100 bob) as (_ & _ & Hcb & Hfp & _).
  split; [exact Hget|]. split; [exact Hca|]. split; [exact Hcb|].
  split; [exact Hfp | apply Hdel].
Defined.

End Examples.

(** * More of the document service *)

Module AccessExtras.
Import Models Store Services System StoreFacts ServicesFacts AccessProperties.

Section WithDatabase.
Context `{DB : Database}.

Lemma find_none_filter {A : Type} (p : A -> bool) (l : list A) :
  find p l = None <-> filter p l = [].
Proof.
  induction l as [|a l IH]; simpl; [tauto|].
  destruct (p a); [split; discriminate | exact IH].
Qed.

(** X1. Download and read access coincide: [GetFilePath] returns the
    document's path, without error, exactly when [CanAccess] allows the
    user; it fails with [ErrDocumentNotFound] exactly when [CanAccess]
    does, and with [ErrAccessDenied] exactly when [CanAccess] answers
    [(false, "")] without error; whenever it fails the path it returns is
    empty. *)
Theorem get_file_path_agrees_with_can_access (st : State) (now : Time) (id userID : UUID) :
  (snd (GetFilePath st now id userID) = None
   <-> fst (fst (CanAccess st now id userID)) = true)
  /\ (snd (GetFilePath st now id userID) = Some ErrDocumentNotFound
      <-> snd (CanAccess st now id userID) = Some ErrDocumentNotFound)
  /\ (snd (GetFilePath st now id userID) = Some ErrAccessDenied
      <-> CanAccess st now id userID = (false, EmptyString, None))
  /\ (snd (GetFilePath st now id userID) <> None ->
      fst (GetFilePath st now id userID) = EmptyString)
  /\ (snd (GetFilePath st now id userID) = None ->
      exists doc, GetByID st id = Ok doc
                  /\ fst (GetFilePath st now id userID) = Document.FilePath doc).
Proof.
  unfold GetFilePath, CanAccess.
  destruct (GetByID_cases st id) as [(row & _ & _ & _ & Hget) | [_ Hget]]; rewrite Hget.
  2:{ cbn. repeat split; intros; try discriminate; try congruence. }
  destruct (N.eqb (Document.OwnerID (scan_document row)) userID).
  { cbn. repeat split; intros; try discriminate; try congruence.
    exists (scan_document row). auto. }
  destruct (find _ (document_shares st)) as [s|] eqn:Hf.
  - assert (Hne : filter (fun s => share_for id userID s && not_expired now s)
                    (document_shares st) <> []).
    { intros Hnil. apply find_none_filter in Hnil. congruence. }
    destruct (filter _ (document_shares st)) as [|r rows]; [congruence|].
    cbn. repeat split; intros; try discriminate; try congruence.
    exists (scan_document row). auto.
  - apply find_none_filter in Hf. rewrite Hf.
    cbn. repeat split; intros; try discriminate; try congruence.
Qed.

(** Induction over the states the service reaches. *)
Lemma reachable_ind `{Runtime} (uploadDir : string) (P : State -> Prop) :
  P Store.empty ->
  (forall st op, reachable uploadDir st -> P st -> P (step uploadDir st op)) ->
  forall st, reachable uploadDir st -> P st.
Proof.
  intros Hempty Hstep st [ops ->]. unfold run.
  induction ops as [|op ops IH] using rev_ind; [exact Hempty|].
  rewrite fold_left_app. simpl. apply Hstep; [exists ops; reflexivity | exact IH].
Qed.

Lemma reachable_step `{Runtime} (uploadDir : string) (st : State) (op : Op) :
  reachable uploadDir st -> reachable uploadDir (step uploadDir st op).
Proof.
  intros [ops ->]. exists (ops ++ [op]). unfold run. rewrite fold_left_app. reflexivity.
Qed.

Lemma update_permission_ExpiresAt (d w : UUID) (p : string) (s : DocumentShare.t) :
  DocumentShare.ExpiresAt (update_permission d w p s) = DocumentShare.ExpiresAt s.
Proof. unfold update_permission. destruct (share_for d w s); reflexivity. Qed.

Lemma reachable_no_expiry `{Runtime} (uploadDir : string) (st : State) :
  reachable uploadDir st ->
  forall s, In s (document_shares st) -> DocumentShare.ExpiresAt s = None.
Proof.
  apply (reachable_ind uploadDir
           (fun st => forall s, In s (document_shares st) ->
                                DocumentShare.ExpiresAt s = None)).
  - intros s [].
  - clear st. intros st op _ IH s Hin.
    pose proof (step_shares uploadDir st op) as Hstep.
    inversion Hstep as [Heq | now d by_ w p Heq | d w Heq]; rewrite <- Heq in Hin.
    + auto.
    + unfold upserted in Hin.
      destruct (existsb (share_for d w) (document_shares st)).
      * apply in_map_iff in Hin. destruct Hin as (x & <- & Hx).
        rewrite update_permission_ExpiresAt. auto.
      * apply in_app_or in Hin. destruct Hin as [Hin | [<- | []]]; [auto | reflexivity].
    + apply filter_In in Hin. apply IH, Hin.
Qed.

(** X2. The service never sets an expiry: in every state it reaches from
    the empty database, [expires_at] is NULL in every row of
    [document_shares], so every stored share is unexpired at every time. *)
Theorem shares_never_expire `{Runtime} (uploadDir : string) (st : State) :
  reachable uploadDir st ->
  forall s, In s (document_shares st) ->
    DocumentShare.ExpiresAt s = None /\ forall now, not_expired now s = true.
Proof.
  intros Hr s Hin. pose proof (reachable_no_expiry uploadDir st Hr s Hin) as Hnull.
  split; [exact Hnull|]. intros now. unfold not_expired. rewrite Hnull. reflexivity.
Qed.

Lemma upsert_share_rows (now : Time) (d by_ w : UUID) (p : string)
    (l : list DocumentShare.t) (s : DocumentShare.t) :
  In s (upserted now d by_ w p l) -> share_for d w s = true ->
  DocumentShare.Permission s = p
  /\ (DocumentShare.ExpiresAt s = None
      \/ exists s0, In s0 l /\ share_for d w s0 = true
                    /\ DocumentShare.ExpiresAt s = DocumentShare.ExpiresAt s0).
Proof.
  unfold upserted. destruct (existsb (share_for d w) l) eqn:Hex.
  - intros Hin Hs. apply in_map_iff in Hin. destruct Hin as (x & <- & Hx).
    rewrite update_permission_share_for in Hs.
    split; [apply update_permission_sets; exact Hs|].
    right. exists x. rewrite update_permission_ExpiresAt. auto.
  - intros Hin Hs. apply in_app_or in Hin. destruct Hin as [Hin | [<- | []]].
    + exfalso. assert (Hex' : existsb (share_for d w) l = true)
        by (apply existsb_exists; eauto).
      congruence.
    + split; [reflexivity | left; reflexivity].
Qed.


(** X3. Sharing grants access: in a state the service has reached, once
    [Share] has succeeded the recipient is answered [(true, permission)] by
    [CanAccess] at every later time, or [(true, "owner")] when the owner
    shared the document with their own address. *)
Theorem share_grants_access `{Runtime} (uploadDir : string) (st st1 : State)
    (now : Time) (documentID ownerID : UUID) (email permission : string) :
  reachable uploadDir st ->
  Share st now documentID ownerID email permission = (st1, None) ->
  exists u,
    GetByEmail st email = Ok u
    /\ forall now',
         (User.ID u <> ownerID ->
          CanAccess st1 now' documentID (User.ID u) = (true, permission, None))
         /\ (User.ID u = ownerID ->
             CanAccess st1 now' documentID (User.ID u) = (true, "owner"%string, None)).
Proof.
  intros Hr Hshare.
  destruct (Share_ok_inv _ _ _ _ _ _ _ Hshare) as (doc & u & Hget & Hown & Hmail & ->).
  exists u. split; [exact Hmail|]. intros now'.
  assert (Hget1 : GetByID (set_document_shares st
                     (upserted now documentID ownerID (User.ID u) permission
                        (document_shares st))) documentID = Ok doc).
  { rewrite (GetByID_documents st) by reflexivity. exact Hget. }
  split.
  - intros Hne. unfold CanAccess. rewrite Hget1, Hown.
    apply N.eqb_neq in Hne. rewrite N.eqb_sym in Hne. rewrite Hne.
    cbn [document_shares set_document_shares].
    set (l1 := upserted now documentID ownerID (User.ID u) permission
                 (document_shares st)).
    assert (Hrows : forall s, In s l1 -> share_for documentID (User.ID u) s = true ->
              DocumentShare.Permission s = permission /\ not_expired now' s = true).
    { intros s Hin Hs. destruct (upsert_share_rows _ _ _ _ _ _ _ Hin Hs) as [Hp Hexp].
      split; [exact Hp|]. unfold not_expired.
      destruct Hexp as [-> | (s0 & Hin0 & _ & ->)]; [reflexivity|].
      rewrite (reachable_no_expiry uploadDir st Hr s0 Hin0). reflexivity. }
    pose proof (upsert_share_present now documentID ownerID (User.ID u) permission
                  (document_shares st)) as Hex. fold l1 in Hex.
    apply existsb_exists in Hex. destruct Hex as (s & Hin & Hs).
    destruct (find (fun s => share_for documentID (User.ID u) s && not_expired now' s) l1)
      as [s'|] eqn:Hf.
    + apply find_some in Hf. destruct Hf as [Hin' Ht]. apply andb_true_iff in Ht.
      destruct (Hrows s' Hin' (proj1 Ht)) as [-> _]. reflexivity.
    + pose proof (find_none _ _ Hf s Hin) as Hnone. cbn beta in Hnone.
      destruct (Hrows s Hin Hs) as [_ He]. rewrite Hs, He in Hnone. discriminate.
  - intros Heq. unfold CanAccess. rewrite Hget1, Hown, Heq, N.eqb_refl. reflexivity.
Qed.

(** X4. Sharing again does not renew an expired share: when the pair
    already has a row, [Share] succeeds and only rewrites the permission,
    so a recipient all of whose rows have expired is still answered
    [(false, "")] by [CanAccess]. *)
Theorem reshare_keeps_expiry (st st1 : State) (now now' : Time)
    (documentID ownerID : UUID) (email permission : string) (u : User.t) :
  Share st now documentID ownerID email permission = (st1, None) ->
  GetByEmail st email = Ok u ->
  User.ID u <> ownerID ->
  (exists s, In s (document_shares st) /\ share_for documentID (User.ID u) s = true) ->
  (forall s, In s (document_shares st) -> share_for documentID (User.ID u) s = true ->
             exists t, DocumentShare.ExpiresAt s = Some t /\ t <= now') ->
  document_shares st1
  = map (update_permission documentID (User.ID u) permission) (document_shares st)
  /\ CanAccess st1 now' documentID (User.ID u) = (false, EmptyString, None).
Proof.
  intros Hshare Hmail Hne (s0 & Hin0 & Hs0) Hexp.
  destruct (Share_ok_inv _ _ _ _ _ _ _ Hshare) as (doc & u' & Hget & Hown & Hmail' & ->).
  assert (u' = u) by congruence. subst u'.
  assert (Hex : existsb (share_for documentID (User.ID u)) (document_shares st) = true)
    by (apply existsb_exists; eauto).
  assert (Hup : upserted now documentID ownerID (User.ID u) permission
                  (document_shares st)
                = map (update_permission documentID (User.ID u) permission)
                      (document_shares st)).
  { unfold upserted. rewrite Hex. reflexivity. }
  cbn [document_shares set_document_shares]. split; [exact Hup|].
  eapply CanAccess_not_shared.
  - rewrite (GetByID_documents st) by reflexivity. exact Hget.
  - congruence.
  - cbn [document_shares set_document_shares]. rewrite Hup. intros s Hin Hs.
    apply in_map_iff in Hin. destruct Hin as (x & <- & Hx).
    rewrite update_permission_share_for in Hs.
    destruct (Hexp x Hx Hs) as (t & Ht & Hle).
    unfold not_expired. rewrite update_permission_ExpiresAt, Ht.
    apply Z.ltb_ge. exact Hle.
Qed.

Lemma filter_and_nil {A : Type} (p q : A -> bool) (l : list A) :
  filter p l = [] -> filter (fun x => p x && q x) l = [].
Proof.
  induction l as [|a l IH]; simpl; [reflexivity|].
  destruct (p a); simpl; [discriminate | exact IH].
Qed.

Lemma filter_other_pair (d u d0 u0 : UUID) (l : list DocumentShare.t) :
  (d, u) <> (d0, u0) ->
  filter (share_for d u) (filter (fun s => negb (share_for d0 u0 s)) l)
  = filter (share_for d u) l.
Proof.
  intros Hdu. induction l as [|s l IH]; [reflexivity|].
  simpl. destruct (share_for d0 u0 s) eqn:Hs; simpl.
  - destruct (share_for d u s) eqn:Hs'; [|exact IH].
    exfalso. apply share_for_key in Hs, Hs'. apply Hdu. congruence.
  - rewrite IH. reflexivity.
Qed.

Lemma RemoveShare_ok_inv (st st' : State) (documentID ownerID sharedWithID : UUID) :
  RemoveShare st documentID ownerID sharedWithID = (st', None) ->
  exists doc,
    GetByID st documentID = Ok doc /\ Document.OwnerID doc = ownerID
    /\ st' = set_document_shares st
               (filter (fun s => negb (share_for documentID sharedWithID s))
                       (document_shares st)).
Proof.
  unfold RemoveShare. destruct (GetByID st documentID) as [doc|e]; [|discriminate].
  destruct (N.eqb (Document.OwnerID doc) ownerID) eqn:Hown; [|discriminate].
  cbn [negb]. destruct (_ =? 0); [discriminate|].
  intros Heq. inversion Heq. exists doc. apply N.eqb_eq in Hown. auto.
Qed.

(** X5. Revocation is complete: after a successful [RemoveShare] the
    recipient, unless they are the owner, is answered [(false, "")] by
    [CanAccess] and [ErrAccessDenied] by [GetFilePath] at every time, the
    other rows of [document_shares] are as before, and revoking again fails
    with [ErrShareNotFound]. *)
Theorem remove_share_revokes (st st' : State) (documentID ownerID sharedWithID : UUID) :
  RemoveShare st documentID ownerID sharedWithID = (st', None) ->
  (sharedWithID <> ownerID ->
   forall now,
     CanAccess st' now documentID sharedWithID = (false, EmptyString, None)
     /\ GetFilePath st' now documentID sharedWithID = (EmptyString, Some ErrAccessDenied))
  /\ (forall d u, (d, u) <> (documentID, sharedWithID) ->
                  shares_of st' d u = shares_of st d u)
  /\ RemoveShare st' documentID ownerID sharedWithID = (st', Some ErrShareNotFound).
Proof.
  intros Hrm. destruct (RemoveShare_ok_inv _ _ _ _ _ Hrm) as (doc & Hget & Hown & ->).
  set (rest := filter (fun s => negb (share_for documentID sharedWithID s))
                      (document_shares st)).
  assert (Hget' : GetByID (set_document_shares st rest) documentID = Ok doc).
  { rewrite (GetByID_documents st) by reflexivity. exact Hget. }
  assert (Hnone : filter (share_for documentID sharedWithID) rest = [])
    by apply filter_filter_negb.
  split; [|split].
  - intros Hne now.
    assert (Hnot : N.eqb (Document.OwnerID doc) sharedWithID = false).
    { apply N.eqb_neq. congruence. }
    split.
    + eapply CanAccess_not_shared; [exact Hget' | congruence |].
      cbn [document_shares set_document_shares]. intros s Hin Hs. exfalso.
      assert (Hin' : In s (filter (share_for documentID sharedWithID) rest))
        by (apply filter_In; auto).
      rewrite Hnone in Hin'. exact Hin'.
    + unfold GetFilePath. rewrite Hget', Hnot.
      cbn [document_shares set_document_shares].
      assert (Hf : filter (fun s => share_for documentID sharedWithID s && not_expired now s)
                     rest = [])
        by (apply filter_and_nil; exact Hnone).
      rewrite Hf. reflexivity.
  - intros d u Hdu. unfold shares_of. cbn [document_shares set_document_shares].
    apply filter_other_pair. exact Hdu.
  - unfold RemoveShare. rewrite Hget', Hown, N.eqb_refl. cbn [negb].
    cbn [document_shares set_document_shares]. rewrite Hnone. cbn [List.length Z.of_nat Z.eqb].
    rewrite (filter_none_id _ _ Hnone). reflexivity.
Qed.

Lemma Delete_ok_inv (st st' : State) (now : Time) (fault : option string) (id userID : UUID) :
  Delete st now fault id userID = (st', None) ->
  exists doc, GetByID st id = Ok doc /\ Document.OwnerID doc = userID.
Proof.
  unfold Delete. destruct (GetByID st id) as [doc|e]; [|discriminate].
  destruct (N.eqb (Document.OwnerID doc) userID) eqn:Hown; [|discriminate].
  intros _. exists doc. apply N.eqb_eq in Hown. auto.
Qed.

Lemma update_deleted_at_other (now : Time) (id id' : UUID) (d : Document.t) :
  id' <> id ->
  N.eqb (Document.ID (update_deleted_at now id d)) id'
  && is_null (Document.DeletedAt (update_deleted_at now id d))
  = N.eqb (Document.ID d) id' && is_null (Document.DeletedAt d).
Proof.
  intros Hne. unfold update_deleted_at.
  destruct (N.eqb (Document.ID d) id) eqn:Hid; [|reflexivity].
  apply N.eqb_eq in Hid. cbn.
  assert (Hf : N.eqb (Document.ID d) id' = false) by (apply N.eqb_neq; congruence).
  rewrite Hf. reflexivity.
Qed.

(** X6. A deletion touches one document only: a successful [Delete]
    leaves [users] and [document_shares] as they were (the shares of the
    deleted document stay in the table), creates no file, and changes the
    answer of [GetByID] and of [CanAccess] for no other document. *)
Theorem delete_touches_one_document (st st' : State) (now : Time)
    (fault : option string) (id userID : UUID) :
  Delete st now fault id userID = (st', None) ->
  users st' = users st
  /\ document_shares st' = document_shares st
  /\ (forall p, In p (files st') -> In p (files st))
  /\ (forall id', id' <> id -> GetByID st' id' = GetByID st id')
  /\ (forall id' now' u, id' <> id -> CanAccess st' now' id' u = CanAccess st now' id' u).
Proof.
  intros Hdel. destruct (Delete_ok_inv _ _ _ _ _ _ Hdel) as (doc & Hget & <-).
  destruct (Delete_owner st now fault id doc Hget) as (st2 & Hd & Hu & Hdocs & Hsh & _).
  assert (st2 = st') by congruence. subst st2.
  assert (Hother : forall id', id' <> id -> GetByID st' id' = GetByID st id').
  { intros id' Hne. unfold GetByID. rewrite Hdocs.
    rewrite (find_map_same _ (update_deleted_at now id))
      by (intros; apply update_deleted_at_other; exact Hne).
    destruct (find _ (documents st)) as [row|] eqn:Hf; [|reflexivity].
    cbn [option_map]. apply find_some in Hf. destruct Hf as [_ Ht].
    apply andb_true_iff in Ht. destruct Ht as [Hid _]. apply N.eqb_eq in Hid.
    unfold update_deleted_at.
    assert (Hf : N.eqb (Document.ID row) id = false) by (apply N.eqb_neq; congruence).
    rewrite Hf. reflexivity. }
  split; [exact Hu|]. split; [exact Hsh|]. split; [|split; [exact Hother|]].
  - intros p. revert Hdel. unfold Delete. rewrite Hget, N.eqb_refl. cbn [negb].
    cbn [set_documents files].
    unfold os_Remove. destruct fault as [msg|].
    + cbn. intros Heq. inversion Heq. cbn. auto.
    + destruct (existsb _ (files st)); cbn; intros Heq; inversion Heq; cbn.
      * intros Hin. apply filter_In in Hin. apply Hin.
      * auto.
  - intros id' now' u Hne. unfold CanAccess. rewrite (Hother id' Hne), Hsh. reflexivity.
Qed.

End WithDatabase.

End AccessExtras.

(** * Creation and the invariants of the tables *)

Module StoreExtras.
Import Models Store Services System Rows StoreFacts ServicesFacts AccessProperties AccessExtras.

Section WithDatabase.
Context `{DB : Database}.

Lemma NoDup_snoc {A : Type} (l : list A) (x : A) :
  NoDup l -> ~ In x l -> NoDup (l ++ [x]).
Proof.
  intros Hnd Hx. rewrite <- (rev_involutive (l ++ [x])). apply NoDup_rev.
  rewrite rev_app_distr. simpl. constructor; [rewrite <- in_rev; exact Hx|].
  apply NoDup_rev. exact Hnd.
Qed.

Lemma Create_success `{Runtime} (uploadDir : string) (st st' : State) (env : CreateEnv)
    (ownerID : UUID) (name originalName mimeType : string) (size : Z) (doc : Document.t) :
  Create uploadDir st env ownerID name originalName mimeType size = (st', Ok doc) ->
  exists sanitizedName sanitizedOriginalName,
    Utils.SanitizeFilename originalName = Ok sanitizedOriginalName
    /\ (name = EmptyString -> sanitizedName = sanitizedOriginalName)
    /\ (name <> EmptyString -> Utils.SanitizeFilename name = Ok sanitizedName)
    /\ doc = Document.mk (newID env) ownerID sanitizedName sanitizedOriginalName size
               mimeType EmptyString "AES-256-GCM"
               (filepath_Join uploadDir (UUID_String (newID env))) false
               (createdAt env) (updatedAt env) None
    /\ existsb (fun d => N.eqb (Document.ID d) (newID env)) (documents st) = false
    /\ users st' = users st
    /\ documents st' = documents st ++ [doc]
    /\ document_shares st' = document_shares st
    /\ In (Document.FilePath doc) (files st').
Proof.
  unfold Create.
  destruct (Utils.ValidateContentType mimeType); [discriminate|].
  destruct (Utils.SanitizeFilename originalName) as [orig|]; [|discriminate].
  destruct (String.eqb name "") eqn:Hname; cbn [negb].
  - destruct (createFault env); [discriminate|].
    destruct (copyFault env); [discriminate|]. cbv zeta.
    destruct (refused _); [discriminate|].
    destruct (existsb _ (documents st)) eqn:Hex; [discriminate|].
    destruct (existsb _ (users st)); cbn [negb]; [|discriminate].
    intros Heq. inversion Heq. subst. exists orig, orig.
    apply String.eqb_eq in Hname.
    split; [reflexivity|]. split; [intros _; reflexivity|].
    split; [intros Hn; contradiction|].
    split; [reflexivity|]. split; [reflexivity|].
    cbn. split; [reflexivity|]. split; [reflexivity|]. split; [reflexivity|].
    destruct (existsb _ (files st)) eqn:Hfile.
    + apply existsb_exists in Hfile. destruct Hfile as (p & Hin & Hp).
      apply String.eqb_eq in Hp. subst p. exact Hin.
    + apply in_or_app. right. left. reflexivity.
  - destruct (Utils.SanitizeFilename name) as [n|]; [|discriminate].
    destruct (createFault env); [discriminate|].
    destruct (copyFault env); [discriminate|]. cbv zeta.
    destruct (refused _); [discriminate|].
    destruct (existsb _ (documents st)) eqn:Hex; [discriminate|].
    destruct (existsb _ (users st)); cbn [negb]; [|discriminate].
    intros Heq. inversion Heq. subst. exists n, orig.
    apply String.eqb_neq in Hname.
    split; [reflexivity|]. split; [intros Hn; contradiction|].
    split; [intros _; reflexivity|].
    split; [reflexivity|]. split; [reflexivity|].
    cbn. split; [reflexivity|]. split; [reflexivity|]. split; [reflexivity|].
    destruct (existsb _ (files st)) eqn:Hfile.
    + apply existsb_exists in Hfile. destruct Hfile as (p & Hin & Hp).
      apply String.eqb_eq in Hp. subst p. exact Hin.
    + apply in_or_app. right. left. reflexivity.
Qed.

Lemma Create_failure `{Runtime} (uploadDir : string) (st st' : State) (env : CreateEnv)
    (ownerID : UUID) (name originalName mimeType : string) (size : Z) (e : error) :
  Create uploadDir st env ownerID name originalName mimeType size = (st', Err e) ->
  users st' = users st /\ documents st' = documents st
  /\ document_shares st' = document_shares st
  /\ (files st' = files st
      \/ files st'
         = fst (os_Remove (removeFault env)
                  (filepath_Join uploadDir (UUID_String (newID env)))
                  (if existsb (String.eqb (filepath_Join uploadDir (UUID_String (newID env))))
                              (files st)
                   then files st
                   else files st ++ [filepath_Join uploadDir (UUID_String (newID env))]))).
Proof.
  unfold Create.
  destruct (Utils.ValidateContentType mimeType);
    [intros Heq; inversion Heq; subst; auto 6|].
  destruct (Utils.SanitizeFilename originalName) as [orig|];
    [|intros Heq; inversion Heq; subst; auto 6].
  destruct (if negb (name =? "")%string then _ else _) as [n|];
    [|intros Heq; inversion Heq; subst; auto 6].
  destruct (createFault env); [intros Heq; inversion Heq; subst; auto 6|].
  destruct (copyFault env); [intros Heq; inversion Heq; subst; cbn; auto 6|].
  cbv zeta.
  destruct (refused _); [intros Heq; inversion Heq; subst; cbn; auto 6|].
  destruct (existsb _ (documents st)); [intros Heq; inversion Heq; subst; cbn; auto 6|].
  destruct (negb _); [|discriminate].
  intros Heq; inversion Heq; subst; cbn; auto 6.
Qed.

(** What the INSERT of a successful [Create] met: columns that take the
    values of the row, and an owner with a row in [users]. *)
Lemma Create_success_row `{Runtime} (uploadDir : string) (st st' : State) (env : CreateEnv)
    (ownerID : UUID) (name originalName mimeType : string) (size : Z) (doc : Document.t) :
  Create uploadDir st env ownerID name originalName mimeType size = (st', Ok doc) ->
  refused [(255, Document.Name doc); (255, Document.OriginalName doc);
           (100, mimeType); (50, "AES-256-GCM"%string); (500, Document.FilePath doc)]
  = None
  /\ existsb (fun u => N.eqb (User.ID u) ownerID) (users st) = true
  /\ createFault env = None /\ copyFault env = None
  /\ Utils.ValidateContentType mimeType = None.
Proof.
  unfold Create.
  destruct (Utils.ValidateContentType mimeType); [discriminate|].
  destruct (Utils.SanitizeFilename originalName) as [orig|]; [|discriminate].
  destruct (if negb (name =? "")%string then _ else _) as [n|]; [|discriminate].
  destruct (createFault env); [discriminate|].
  destruct (copyFault env); [discriminate|]. cbv zeta.
  destruct (refused _) eqn:Hcols; [discriminate|].
  destruct (existsb _ (documents st)); [discriminate|].
  destruct (existsb _ (users st)); cbn [negb]; [|discriminate].
  intros Heq. inversion Heq. subst. cbn [Document.Name Document.OriginalName
                                          Document.FilePath]. auto.
Qed.


Lemma find_fresh_id (id : UUID) (l : list Document.t) :
  existsb (fun d => N.eqb (Document.ID d) id) l = false ->
  find (fun d => N.eqb (Document.ID d) id && is_null (Document.DeletedAt d)) l = None.
Proof.
  intros Hex. destruct (find _ l) as [d|] eqn:Hf; [|reflexivity].
  apply find_some in Hf. destruct Hf as [Hin Ht]. apply andb_true_iff in Ht.
  assert (existsb (fun d => N.eqb (Document.ID d) id) l = true)
    by (apply existsb_exists; exists d; tauto).
  congruence.
Qed.

(** X7. A created document is stored as the caller's: after a successful
    [Create] the document is found by [GetByID] under the fresh id, it is
    owned by the caller, who is answered [(true, "owner")], its content is
    on disk under its path, its names are outputs of [SanitizeFilename]
    (the name defaults to the original name) and hold no path separator
    and no null byte, and every other document is found as before. *)
Theorem created_document_is_stored `{Runtime} (uploadDir : string) (st st' : State)
    (env : CreateEnv) (ownerID : UUID) (name originalName mimeType : string) (size : Z)
    (doc : Document.t) :
  Create uploadDir st env ownerID name originalName mimeType size = (st', Ok doc) ->
  Document.ID doc = newID env
  /\ Document.OwnerID doc = ownerID
  /\ GetByID st' (newID env) = Ok doc
  /\ (forall now, CanAccess st' now (newID env) ownerID = (true, "owner"%string, None))
  /\ In (Document.FilePath doc) (files st')
  /\ Utils.SanitizeFilename originalName = Ok (Document.OriginalName doc)
  /\ (name = EmptyString -> Document.Name doc = Document.OriginalName doc)
  /\ (name <> EmptyString -> Utils.SanitizeFilename name = Ok (Document.Name doc))
  /\ Forall Utils.safe_byte (GoLib.of_string (Document.Name doc))
  /\ Forall Utils.safe_byte (GoLib.of_string (Document.OriginalName doc))
  /\ (forall id, id <> newID env -> GetByID st' id = GetByID st id).
Proof.
  intros Hc.
  destruct (Create_success _ _ _ _ _ _ _ _ _ _ Hc)
    as (n & orig & Horig & Hdef & Hname & Hdoc & Hfresh & _ & Hdocs & _ & Hfile).
  subst doc.
  match type of Hdocs with _ = _ ++ [?d] =>
    assert (Hget : GetByID st' (newID env) = Ok d)
  end.
  { unfold GetByID. rewrite Hdocs, find_app, (find_fresh_id _ _ Hfresh).
    cbn. rewrite N.eqb_refl. reflexivity. }
  assert (Hn : exists supplied, Utils.SanitizeFilename supplied = Ok n).
  { destruct (string_dec name EmptyString) as [He|He].
    - exists originalName. rewrite (Hdef He). exact Horig.
    - exists name. auto. }
  destruct Hn as [supplied Hsup].
  pose proof (UtilsFacts.sanitize_ok_safe _ _
                (proj1 (UtilsFacts.sanitize_string_bytes _ _) Hsup)) as [Hsafe_n _].
  pose proof (UtilsFacts.sanitize_ok_safe _ _
                (proj1 (UtilsFacts.sanitize_string_bytes _ _) Horig)) as [Hsafe_o _].
  cbn [Document.ID Document.OwnerID Document.Name Document.OriginalName
       Document.FilePath] in *.
  split; [reflexivity|]. split; [reflexivity|]. split; [exact Hget|].
  split.
  { intros now. unfold CanAccess. rewrite Hget. cbn [Document.OwnerID].
    rewrite N.eqb_refl. reflexivity. }
  split; [exact Hfile|]. split; [exact Horig|]. split; [exact Hdef|].
  split; [exact Hname|]. split; [exact Hsafe_n|]. split; [exact Hsafe_o|].
  intros id Hne. unfold GetByID. rewrite Hdocs, find_app.
  destruct (find _ (documents st)); [reflexivity|].
  cbn. assert (Hf : N.eqb (newID env) id = false) by (apply N.eqb_neq; congruence).
  rewrite Hf. reflexivity.
Qed.

Lemma filter_remove_appended (path : string) (fs : list string) :
  ~ In path fs ->
  filter (fun p => negb (String.eqb path p)) (fs ++ [path]) = fs.
Proof.
  intros Hnot. rewrite filter_app. simpl. rewrite String.eqb_refl. simpl.
  rewrite app_nil_r. induction fs as [|p fs IH]; [reflexivity|].
  simpl. destruct (String.eqb path p) eqn:Hp.
  - apply String.eqb_eq in Hp. exfalso. apply Hnot. left. congruence.
  - simpl. rewrite IH; [reflexivity|]. intros Hin. apply Hnot. right. exact Hin.
Qed.

(** X8. A failed [Create] leaves nothing behind: whatever the error, no
    row of [users], [documents] or [document_shares] changes, and, when
    [os.Remove] works and the path was not on disk before, the files on
    disk are those of before: the content written before the failure is
    removed. *)
Theorem failed_create_leaves_nothing `{Runtime} (uploadDir : string) (st st' : State)
    (env : CreateEnv) (ownerID : UUID) (name originalName mimeType : string) (size : Z)
    (e : error) :
  Create uploadDir st env ownerID name originalName mimeType size = (st', Err e) ->
  users st' = users st
  /\ documents st' = documents st
  /\ document_shares st' = document_shares st
  /\ (removeFault env = None ->
      ~ In (filepath_Join uploadDir (UUID_String (newID env))) (files st) ->
      files st' = files st).
Proof.
  intros Hc. destruct (Create_failure _ _ _ _ _ _ _ _ _ _ Hc) as (Hu & Hd & Hs & Hf).
  split; [exact Hu|]. split; [exact Hd|]. split; [exact Hs|].
  intros Hrm Hnot. destruct Hf as [Hf | Hf]; [exact Hf|].
  rewrite Hf, Hrm.
  destruct (existsb _ (files st)) eqn:Hex.
  { apply existsb_exists in Hex. destruct Hex as (p & Hin & Hp).
    apply String.eqb_eq in Hp. subst p. contradiction. }
  unfold os_Remove.
  assert (Hin : existsb (String.eqb (filepath_Join uploadDir (UUID_String (newID env))))
                  (files st ++ [filepath_Join uploadDir (UUID_String (newID env))]) = true).
  { rewrite existsb_app. simpl. rewrite String.eqb_refl. apply orb_true_iff. right.
    reflexivity. }
  rewrite Hin. cbn [fst]. apply filter_remove_appended. exact Hnot.
Qed.

End WithDatabase.

End StoreExtras.

(** * Invariants of the tables *)

Module TableInvariants.
Import Models Store Services System Rows StoreFacts ServicesFacts AccessProperties
       AccessExtras StoreExtras.

Section WithDatabase.
Context `{DB : Database}.

(** *** What each method does to the three tables *)

Lemma Share_failure (st st1 : State) (now : Time) (documentID ownerID : UUID)
    (email permission : string) (e : error) :
  Share st now documentID ownerID email permission = (st1, Some e) -> st1 = st.
Proof.
  unfold Share. destruct (GetByID st documentID); [|congruence].
  destruct (negb _); [congruence|]. destruct (find _ _); [|congruence].
  unfold upsert_share. destruct (varchar _ _); congruence.
Qed.

Lemma step_users `{Runtime} (uploadDir : string) (st : State) (op : Op) :
  users (step uploadDir st op) = users st
  \/ exists user,
       users (step uploadDir st op) = users st ++ [user]
       /\ existsb (fun u => N.eqb (User.ID u) (User.ID user)) (users st) = false
       /\ find (fun u => String.eqb (User.Email u) (User.Email user)) (users st) = None.
Proof.
  destruct op; simpl.
  - unfold UserCreate, GetByEmail.
    destruct (find _ (users st)) eqn:Hf; [left; reflexivity|].
    destruct hashed; [|left; reflexivity].
    destruct (refused _); [left; reflexivity|].
    destruct (existsb _ (users st)) eqn:Hex; [left; reflexivity|].
    right. eexists. simpl. split; [reflexivity|]. split; assumption.
  - left. destruct (Create uploadDir st env ownerID name originalName mimeType size)
      as [st' [doc|e]] eqn:Hc; simpl.
    + destruct (Create_success _ _ _ _ _ _ _ _ _ _ Hc)
        as (_ & _ & _ & _ & _ & _ & _ & Hu & _). exact Hu.
    + destruct (Create_failure _ _ _ _ _ _ _ _ _ _ Hc) as (Hu & _). exact Hu.
  - left. unfold Delete. destruct (GetByID st id); [|reflexivity].
    destruct (negb _); [reflexivity|].
    cbn [set_documents documents files].
    destruct (os_Remove _ _ _) as [fs [e|]]; [destruct (negb _)|]; reflexivity.
  - left. unfold Share. destruct (GetByID st documentID); [|reflexivity].
    destruct (negb _); [reflexivity|]. destruct (find _ _); [|reflexivity].
    unfold upsert_share. destruct (varchar _ _); reflexivity.
  - left. unfold RemoveShare. destruct (GetByID st documentID); [|reflexivity].
    destruct (negb _); [reflexivity|]. destruct (_ =? 0); reflexivity.
  - left. unfold Rename.
    destruct (CanAccess st now id userID) as [[c p] [e|]]; [reflexivity|].
    destruct (_ || _); [reflexivity|]. destruct (varchar _ _); reflexivity.
Qed.

Lemma step_documents_cases `{Runtime} (uploadDir : string) (st : State) (op : Op) :
  documents (step uploadDir st op) = documents st
  \/ (exists env ownerID name originalName mimeType size st' doc,
        Create uploadDir st env ownerID name originalName mimeType size = (st', Ok doc)
        /\ documents (step uploadDir st op) = documents st ++ [doc])
  \/ (exists now id,
        documents (step uploadDir st op) = map (update_deleted_at now id) (documents st))
  \/ (exists newName now id,
        documents (step uploadDir st op) = map (update_name newName now id) (documents st)).
Proof.
  destruct op; simpl.
  - left. unfold UserCreate. destruct (GetByEmail st email); [reflexivity|].
    destruct hashed; [|reflexivity]. destruct (refused _); [reflexivity|].
    destruct (existsb _ (users st)); reflexivity.
  - destruct (Create uploadDir st env ownerID name originalName mimeType size)
      as [st' [doc|e]] eqn:Hc; simpl.
    + right. left. exists env, ownerID, name, originalName, mimeType, size, st', doc.
      split; [exact Hc|].
      destruct (Create_success _ _ _ _ _ _ _ _ _ _ Hc)
        as (_ & _ & _ & _ & _ & _ & _ & _ & Hd & _). exact Hd.
    + left. destruct (Create_failure _ _ _ _ _ _ _ _ _ _ Hc) as (_ & Hd & _). exact Hd.
  - unfold Delete. destruct (GetByID st id); [|left; reflexivity].
    destruct (negb _); [left; reflexivity|].
    cbn [set_documents documents files].
    right. right. left. exists now, id.
    destruct (os_Remove _ _ _) as [fs [e|]]; [destruct (negb _)|]; reflexivity.
  - left. unfold Share. destruct (GetByID st documentID); [|reflexivity].
    destruct (negb _); [reflexivity|]. destruct (find _ _); [|reflexivity].
    unfold upsert_share. destruct (varchar _ _); reflexivity.
  - left. unfold RemoveShare. destruct (GetByID st documentID); [|reflexivity].
    destruct (negb _); [reflexivity|]. destruct (_ =? 0); reflexivity.
  - unfold Rename.
    destruct (CanAccess st now id userID) as [[c p] [e|]]; [left; reflexivity|].
    destruct (_ || _); [left; reflexivity|].
    destruct (varchar _ _); [left; reflexivity|].
    right. right. right. exists newName, now, id. reflexivity.
Qed.

Lemma step_shares_cases `{Runtime} (uploadDir : string) (st : State) (op : Op) :
  document_shares (step uploadDir st op) = document_shares st
  \/ (exists now d by_ w p row u,
        document_shares (step uploadDir st op)
        = upserted now d by_ w p (document_shares st)
        /\ In row (documents st) /\ Document.ID row = d /\ Document.OwnerID row = by_
        /\ In u (users st) /\ User.ID u = w)
  \/ (exists d w,
        document_shares (step uploadDir st op)
        = filter (fun s => negb (share_for d w s)) (document_shares st)).
Proof.
  destruct op; simpl.
  - left. unfold UserCreate. destruct (GetByEmail st email); [reflexivity|].
    destruct hashed; [|reflexivity]. destruct (refused _); [reflexivity|].
    destruct (existsb _ (users st)); reflexivity.
  - left. destruct (Create uploadDir st env ownerID name originalName mimeType size)
      as [st' [doc|e]] eqn:Hc; simpl.
    + destruct (Create_success _ _ _ _ _ _ _ _ _ _ Hc)
        as (_ & _ & _ & _ & _ & _ & _ & _ & _ & Hs & _). exact Hs.
    + destruct (Create_failure _ _ _ _ _ _ _ _ _ _ Hc) as (_ & _ & Hs & _). exact Hs.
  - left. unfold Delete. destruct (GetByID st id); [|reflexivity].
    destruct (negb _); [reflexivity|].
    cbn [set_documents documents files].
    destruct (os_Remove _ _ _) as [fs [e|]]; [destruct (negb _)|]; reflexivity.
  - destruct (Share st now documentID ownerID sharedWithEmail permission)
      as [st1 [e|]] eqn:Hs; simpl.
    + left. rewrite (Share_failure _ _ _ _ _ _ _ _ Hs). reflexivity.
    + right. left.
      destruct (Share_ok_inv _ _ _ _ _ _ _ Hs) as (doc & u & Hget & Hown & Hu & ->).
      destruct (GetByID_cases st documentID)
        as [(row & Hin & Hid & _ & Hrow) | [_ Hnone]]; [|congruence].
      exists now, documentID, ownerID, (User.ID u), permission, row, u.
      split; [reflexivity|]. split; [exact Hin|]. split; [exact Hid|].
      split.
      { rewrite Hrow in Hget. inversion Hget. subst doc. exact Hown. }
      split; [|reflexivity].
      unfold GetByEmail in Hu. destruct (find _ (users st)) as [u'|] eqn:Hf; [|discriminate].
      inversion Hu. subst u'. apply find_some in Hf. tauto.
  - unfold RemoveShare. destruct (GetByID st documentID); [|left; reflexivity].
    destruct (negb _); [left; reflexivity|].
    right. right. exists documentID, sharedWithID.
    destruct (_ =? 0); reflexivity.
  - left. unfold Rename.
    destruct (CanAccess st now id userID) as [[c p] [e|]]; [reflexivity|].
    destruct (_ || _); [reflexivity|]. destruct (varchar _ _); reflexivity.
Qed.

(** *** Unique keys *)

Lemma fresh_key_not_in {Row Key : Type} (key : Row -> Key) (test : Key -> Key -> bool)
    (k : Key) (rows : list Row) :
  (forall a b, test a b = true <-> a = b) ->
  existsb (fun r => test (key r) k) rows = false -> ~ In k (map key rows).
Proof.
  intros Htest Hex Hin. apply in_map_iff in Hin. destruct Hin as (r & Hk & Hr).
  assert (existsb (fun r => test (key r) k) rows = true)
    by (apply existsb_exists; exists r; split; [exact Hr | apply Htest; exact Hk]).
  congruence.
Qed.

Lemma unused_key_not_in {Row Key : Type} (key : Row -> Key) (test : Key -> Key -> bool)
    (k : Key) (rows : list Row) :
  (forall a b, test a b = true <-> a = b) ->
  find (fun r => test (key r) k) rows = None -> ~ In k (map key rows).
Proof.
  intros Htest Hf Hin. apply in_map_iff in Hin. destruct Hin as (r & Hk & Hr).
  pose proof (find_none _ _ Hf r Hr) as Hno. simpl in Hno.
  assert (test (key r) k = true) by (apply Htest; exact Hk). congruence.
Qed.

Lemma keyed_row_found {Row Key : Type} (key : Row -> Key) (wanted : Row -> bool)
    (rows : list Row) (row : Row) :
  NoDup (map key rows) -> In row rows -> wanted row = true ->
  (forall other, wanted other = true -> key other = key row) ->
  find wanted rows = Some row.
Proof.
  intros Hnd Hin Hrow Hkey. induction rows as [|first rest IH]; [destruct Hin|].
  simpl in Hnd. inversion Hnd as [|k ks Hfirst Hrest]. subst. simpl.
  destruct (wanted first) eqn:Hw.
  - destruct Hin as [-> | Hin]; [reflexivity|].
    exfalso. apply Hfirst. rewrite (Hkey first Hw). apply in_map. exact Hin.
  - destruct Hin as [-> | Hin]; [congruence|]. apply IH; assumption.
Qed.

Lemma map_ID_update_deleted_at (now : Time) (id : UUID) (ds : list Document.t) :
  map Document.ID (map (update_deleted_at now id) ds) = map Document.ID ds.
Proof.
  rewrite map_map. apply map_ext. intros d. apply update_deleted_at_ID.
Qed.

Lemma map_ID_update_name (n : string) (now : Time) (id : UUID) (ds : list Document.t) :
  map Document.ID (map (update_name n now id) ds) = map Document.ID ds.
Proof.
  rewrite map_map. apply map_ext. intros d. apply update_name_ID.
Qed.

Lemma reachable_keys `{Runtime} (uploadDir : string) (st : State) :
  reachable uploadDir st ->
  NoDup (map User.ID (users st))
  /\ NoDup (map User.Email (users st))
  /\ NoDup (map Document.ID (documents st)).
Proof.
  apply (reachable_ind uploadDir
           (fun st => NoDup (map User.ID (users st))
                      /\ NoDup (map User.Email (users st))
                      /\ NoDup (map Document.ID (documents st)))).
  { simpl. repeat split; constructor. }
  clear st. intros st op _ (Hid & Hemail & Hdoc).
  assert (Husers : NoDup (map User.ID (users (step uploadDir st op)))
                   /\ NoDup (map User.Email (users (step uploadDir st op)))).
  { destruct (step_users uploadDir st op) as [-> | (user & -> & Hfresh & Hunused)];
      [split; assumption|].
    rewrite !map_app. simpl. split; apply NoDup_snoc; try assumption.
    - apply (fresh_key_not_in User.ID N.eqb); [apply N.eqb_eq | exact Hfresh].
    - apply (unused_key_not_in User.Email String.eqb); [apply String.eqb_eq | exact Hunused]. }
  destruct Husers as [Hid' Hemail']. split; [exact Hid'|]. split; [exact Hemail'|].
  pose proof (step_documents uploadDir st op) as Hstep.
  inversion Hstep as [Heq | doc Hfresh Heq | now id' Heq | n now id' Heq].
  - exact Hdoc.
  - rewrite map_app. simpl. apply NoDup_snoc; [exact Hdoc|].
    apply (fresh_key_not_in Document.ID N.eqb); [apply N.eqb_eq | exact Hfresh].
  - rewrite map_ID_update_deleted_at. exact Hdoc.
  - rewrite map_ID_update_name. exact Hdoc.
Qed.

(** X9. Identifiers and e-mail addresses are keys: in every state reached
    from the empty database no two users share an id or an e-mail address
    and no two documents share an id; so [GetByEmail] returns the very row
    of every stored user, and [GetByID] the scanned row of every stored
    document that is not deleted. *)
Theorem identifiers_are_keys `{Runtime} (uploadDir : string) (st : State) :
  reachable uploadDir st ->
  NoDup (map User.ID (users st))
  /\ NoDup (map User.Email (users st))
  /\ NoDup (map Document.ID (documents st))
  /\ (forall u, In u (users st) -> GetByEmail st (User.Email u) = Ok u)
  /\ (forall d, In d (documents st) -> Document.DeletedAt d = None ->
                GetByID st (Document.ID d) = Ok (scan_document d)).
Proof.
  intros Hr. destruct (reachable_keys uploadDir st Hr) as (Hid & Hemail & Hdoc).
  split; [exact Hid|]. split; [exact Hemail|]. split; [exact Hdoc|]. split.
  - intros u Hin. unfold GetByEmail.
    rewrite (keyed_row_found User.Email _ (users st) u Hemail Hin); [reflexivity| |].
    + apply String.eqb_refl.
    + intros other Ho. apply String.eqb_eq. exact Ho.
  - intros d Hin Hnull. unfold GetByID.
    rewrite (keyed_row_found Document.ID _ (documents st) d Hdoc Hin); [reflexivity| |].
    + rewrite N.eqb_refl, Hnull. reflexivity.
    + intros other Ho. apply andb_true_iff in Ho. apply N.eqb_eq. tauto.
Qed.

(** *** The columns no method writes *)

Lemma update_deleted_at_as_created `{Runtime} (uploadDir : string) (now : Time) (id : UUID)
    (d : Document.t) :
  as_created uploadDir d -> as_created uploadDir (update_deleted_at now id d).
Proof. unfold as_created, update_deleted_at. destruct (N.eqb _ _); simpl; tauto. Qed.

Lemma update_name_as_created `{Runtime} (uploadDir : string) (n : string) (now : Time)
    (id : UUID) (d : Document.t) :
  as_created uploadDir d -> as_created uploadDir (update_name n now id d).
Proof. unfold as_created, update_name. destruct (N.eqb _ _); simpl; tauto. Qed.

(** X10. Every stored document is as [Create] wrote it: in every state
    reached from the empty database, the path of every row of [documents]
    is the upload directory joined with the row's own id, its original
    name is an output of [SanitizeFilename], and it is marked unencrypted
    with an empty key, renamed or deleted though it may be. *)
Theorem stored_documents_as_created `{Runtime} (uploadDir : string) (st : State) :
  reachable uploadDir st ->
  forall d, In d (documents st) -> as_created uploadDir d.
Proof.
  apply (reachable_ind uploadDir
           (fun st => forall d, In d (documents st) -> as_created uploadDir d)).
  { intros d []. }
  clear st. intros st op _ IH d Hin.
  destruct (step_documents_cases uploadDir st op)
    as [Heq | [(env & ownerID & name & originalName & mimeType & size & st' & doc & Hc & Heq)
       | [(now & id & Heq) | (n & now & id & Heq)]]]; rewrite Heq in Hin.
  - auto.
  - apply in_app_or in Hin. destruct Hin as [Hin | [<- | []]]; [auto|].
    destruct (Create_success _ _ _ _ _ _ _ _ _ _ Hc)
      as (sn & so & Horig & _ & _ & -> & _).
    unfold as_created. simpl. split; [reflexivity|].
    split; [exists originalName; exact Horig|]. auto.
  - apply in_map_iff in Hin. destruct Hin as (x & <- & Hx).
    apply update_deleted_at_as_created. auto.
  - apply in_map_iff in Hin. destruct Hin as (x & <- & Hx).
    apply update_name_as_created. auto.
Qed.

Lemma same_document_refl (d : Document.t) : same_document d d.
Proof. unfold same_document. tauto. Qed.

Lemma same_document_trans (d1 d2 d3 : Document.t) :
  same_document d1 d2 -> same_document d2 d3 -> same_document d1 d3.
Proof.
  unfold same_document.
  intros (H1 & H2 & H3 & H4 & H5 & H6 & H7 & H8) (K1 & K2 & K3 & K4 & K5 & K6 & K7 & K8).
  repeat split; try congruence. auto.
Qed.

Lemma update_deleted_at_same (now : Time) (id : UUID) (d : Document.t) :
  same_document d (update_deleted_at now id d).
Proof.
  unfold same_document, update_deleted_at.
  destruct (N.eqb _ _); simpl; repeat split; try reflexivity; auto; discriminate.
Qed.

Lemma update_name_same (n : string) (now : Time) (id : UUID) (d : Document.t) :
  same_document d (update_name n now id d).
Proof.
  unfold same_document, update_name.
  destruct (N.eqb _ _); simpl; repeat split; try reflexivity; auto.
Qed.

Lemma documents_step_keeps (ds ds' : list Document.t) (d : Document.t) :
  documents_step ds ds' -> In d ds -> exists d', In d' ds' /\ same_document d d'.
Proof.
  intros Hstep Hin.
  inversion Hstep as [Heq | doc Hfresh Heq | now id Heq | n now id Heq]; subst ds'.
  - exists d. split; [exact Hin | apply same_document_refl].
  - exists d. split; [apply in_or_app; left; exact Hin | apply same_document_refl].
  - exists (update_deleted_at now id d). split; [apply in_map; exact Hin|].
    apply update_deleted_at_same.
  - exists (update_name n now id d). split; [apply in_map; exact Hin|].
    apply update_name_same.
Qed.

(** X11. No call removes a row of [documents] or moves a document: after
    any sequence of calls from any state, every document of before still
    has a row, with the same id, owner, original name, size, content
    type, path and creation time, and still deleted if it was. *)
Theorem documents_are_never_lost `{Runtime} (uploadDir : string) (ops : list Op) :
  forall (st : State) (d : Document.t),
    In d (documents st) ->
    exists d', In d' (documents (run uploadDir st ops)) /\ same_document d d'.
Proof.
  induction ops as [|op ops IH]; intros st d Hin.
  - exists d. split; [exact Hin | apply same_document_refl].
  - simpl.
    destruct (documents_step_keeps _ _ d (step_documents uploadDir st op) Hin)
      as (d1 & Hin1 & Hsame1).
    destruct (IH _ d1 Hin1) as (d2 & Hin2 & Hsame2).
    exists d2. split; [exact Hin2|]. eapply same_document_trans; eassumption.
Qed.

(** *** Shares point to rows *)

Lemma share_refers_step `{Runtime} (uploadDir : string) (st : State) (op : Op)
    (d by_ w : UUID) :
  (exists row, In row (documents st) /\ Document.ID row = d /\ Document.OwnerID row = by_) ->
  (exists u, In u (users st) /\ User.ID u = w) ->
  (exists row, In row (documents (step uploadDir st op))
               /\ Document.ID row = d /\ Document.OwnerID row = by_)
  /\ exists u, In u (users (step uploadDir st op)) /\ User.ID u = w.
Proof.
  intros (row & Hin & Hid & Hown) (u & Hu & Huid). split.
  - destruct (documents_step_keeps _ _ row (step_documents uploadDir st op) Hin)
      as (row' & Hin' & Hsame).
    destruct Hsame as (Hid' & Hown' & _).
    exists row'. split; [exact Hin'|]. split; congruence.
  - exists u. split; [|exact Huid].
    destruct (step_users uploadDir st op) as [-> | (user & -> & _)]; [exact Hu|].
    apply in_or_app. left. exact Hu.
Qed.

Lemma update_permission_columns (d w : UUID) (p : string) (s : DocumentShare.t) :
  DocumentShare.DocumentID (update_permission d w p s) = DocumentShare.DocumentID s
  /\ DocumentShare.SharedByID (update_permission d w p s) = DocumentShare.SharedByID s
  /\ DocumentShare.SharedWithID (update_permission d w p s) = DocumentShare.SharedWithID s.
Proof. unfold update_permission. destruct (share_for d w s); simpl; auto. Qed.

(** X12. Shares point to rows that exist: in every state reached from the
    empty database, every row of [document_shares] names a document that
    has a row, was granted by the owner of that document, and names a
    recipient that has a row in [users]. *)
Theorem shares_refer_to_rows `{Runtime} (uploadDir : string) (st : State) :
  reachable uploadDir st ->
  forall s, In s (document_shares st) -> share_refers st s.
Proof.
  apply (reachable_ind uploadDir
           (fun st => forall s, In s (document_shares st) -> share_refers st s)).
  { intros s []. }
  clear st. intros st op _ IH s Hin.
  assert (Hold : forall s0, In s0 (document_shares st) ->
                   share_refers (step uploadDir st op) s0).
  { intros s0 Hs0. destruct (IH s0 Hs0) as [Hd Hu].
    exact (share_refers_step uploadDir st op _ _ _ Hd Hu). }
  destruct (step_shares_cases uploadDir st op)
    as [Heq | [(now & d & by_ & w & p & row & u & Heq & Hrow & Hid & Hown & Hu & Huid)
       | (d & w & Heq)]]; rewrite Heq in Hin.
  - auto.
  - unfold upserted in Hin. destruct (existsb _ (document_shares st)).
    + apply in_map_iff in Hin. destruct Hin as (x & <- & Hx).
      destruct (update_permission_columns d w p x) as (E1 & E2 & E3).
      unfold share_refers. rewrite E1, E2, E3. apply (Hold x Hx).
    + apply in_app_or in Hin. destruct Hin as [Hin | [<- | []]]; [auto|].
      unfold share_refers. simpl. apply share_refers_step.
      * exists row. auto.
      * exists u. auto.
  - apply filter_In in Hin. apply Hold. tauto.
Qed.

End WithDatabase.

End TableInvariants.

(** * The two listings *)

Module ListingExtras.
Import Models Store Services System Rows StoreFacts ServicesFacts AccessProperties.

Lemma insert_desc_In {A : Type} (key : A -> Z) (x y : A) (l : list A) :
  In y (insert_desc key x l) <-> y = x \/ In y l.
Proof.
  induction l as [|a l IH]; simpl.
  - split; [intros [<- | []]; auto | intros [-> | []]; auto].
  - destruct (key a <=? key x); simpl.
    + split; [intros [<- | H]; auto | intros [-> | H]; auto].
    + rewrite IH. split; [intros [H | [H | H]]; auto | intros [H | [H | H]]; auto].
Qed.

Lemma order_by_desc_In {A : Type} (key : A -> Z) (y : A) (l : list A) :
  In y (order_by_desc key l) <-> In y l.
Proof.
  induction l as [|a l IH]; simpl; [tauto|].
  rewrite insert_desc_In, IH. split; [intros [-> | H]; auto | intros [<- | H]; auto].
Qed.

Lemma insert_desc_length {A : Type} (key : A -> Z) (x : A) (l : list A) :
  List.length (insert_desc key x l) = S (List.length l).
Proof.
  induction l as [|a l IH]; simpl; [reflexivity|].
  destruct (key a <=? key x); simpl; [reflexivity | rewrite IH; reflexivity].
Qed.

Lemma order_by_desc_length {A : Type} (key : A -> Z) (l : list A) :
  List.length (order_by_desc key l) = List.length l.
Proof.
  induction l as [|a l IH]; simpl; [reflexivity|].
  rewrite insert_desc_length, IH. reflexivity.
Qed.

Lemma insert_desc_descending {A : Type} (key : A -> Z) (x : A) (l : list A) :
  descending key l -> descending key (insert_desc key x l).
Proof.
  induction l as [|a l IH]; simpl.
  - intros _. split; [intros r []|exact I].
  - intros [Ha Hl]. destruct (key a <=? key x) eqn:Hle; simpl.
    + apply Z.leb_le in Hle. split; [|split; assumption].
      intros r [<- | Hr]; [exact Hle|]. specialize (Ha r Hr). lia.
    + apply Z.leb_gt in Hle. split; [|apply IH; exact Hl].
      intros r Hr. apply insert_desc_In in Hr. destruct Hr as [-> | Hr]; [lia | auto].
Qed.

Lemma order_by_desc_descending {A : Type} (key : A -> Z) (l : list A) :
  descending key (order_by_desc key l).
Proof.
  induction l as [|a l IH]; simpl; [exact I|]. apply insert_desc_descending. exact IH.
Qed.

Lemma descending_skipn {A : Type} (key : A -> Z) (n : nat) :
  forall l : list A, descending key l -> descending key (skipn n l).
Proof.
  induction n as [|n IH]; intros l Hl; [exact Hl|].
  destruct l as [|a l]; [exact I|]. simpl. apply IH. apply Hl.
Qed.

Lemma in_firstn {A : Type} (n : nat) :
  forall (l : list A) (x : A), In x (firstn n l) -> In x l.
Proof.
  induction n as [|n IH]; intros l x Hx; [destruct Hx|].
  destruct l as [|a l]; [destruct Hx|]. simpl in Hx.
  destruct Hx as [-> | Hx]; [left; reflexivity | right; auto].
Qed.

Lemma in_skipn {A : Type} (n : nat) :
  forall (l : list A) (x : A), In x (skipn n l) -> In x l.
Proof.
  induction n as [|n IH]; intros l x Hx; [exact Hx|].
  destruct l as [|a l]; [destruct Hx|]. right. apply IH. exact Hx.
Qed.

Lemma descending_firstn {A : Type} (key : A -> Z) (n : nat) :
  forall l : list A, descending key l -> descending key (firstn n l).
Proof.
  induction n as [|n IH]; intros l Hl; [exact I|].
  destruct l as [|a l]; [exact I|]. simpl. destruct Hl as [Ha Hl].
  split; [|apply IH; exact Hl]. intros r Hr. apply Ha. eapply in_firstn. exact Hr.
Qed.

Lemma descending_map {A B : Type} (key : A -> Z) (key' : B -> Z) (f : A -> B) (l : list A) :
  (forall x, key' (f x) = key x) -> descending key l -> descending key' (map f l).
Proof.
  intros Hk. induction l as [|a l IH]; simpl; [auto|].
  intros [Ha Hl]. split; [|auto].
  intros r Hr. apply in_map_iff in Hr. destruct Hr as (x & <- & Hx).
  rewrite !Hk. auto.
Qed.

Lemma page_size_range (perPage : Z) :
  1 <= (if (perPage <? 1) || (100 <? perPage) then 20 else perPage) <= 100.
Proof.
  destruct (perPage <? 1) eqn:H1; [simpl; lia|].
  destruct (100 <? perPage) eqn:H2; [simpl; lia|].
  apply Z.ltb_ge in H1, H2. simpl. lia.
Qed.

Lemma limit_offset_rows {A : Type} (limit offset : Z) (rows page : list A) :
  limit_offset limit offset rows = Ok page ->
  0 <= limit /\ 0 <= offset
  /\ page = firstn (Z.to_nat limit) (skipn (Z.to_nat offset) rows).
Proof.
  unfold limit_offset.
  destruct (limit <? 0) eqn:H1; [discriminate|].
  destruct (offset <? 0) eqn:H2; [discriminate|].
  apply Z.ltb_ge in H1, H2. intros Heq. inversion Heq. auto.
Qed.

Lemma page_length {A : Type} (limit offset : nat) (rows : list A) :
  (List.length (firstn limit (skipn offset rows)) <= limit)%nat
  /\ (List.length (firstn limit (skipn offset rows)) <= List.length rows)%nat
  /\ ((List.length rows <= offset)%nat ->
      firstn limit (skipn offset rows) = []).
Proof.
  rewrite length_firstn, length_skipn. split; [lia|]. split; [lia|].
  intros Hlen. rewrite skipn_all2 by exact Hlen. apply firstn_nil.
Qed.

(** X13. What a page of [GetByOwner] holds: whenever the listing
    succeeds, every returned row is the scan of a stored row of the
    caller that is not deleted, with the encryption key blank; the rows
    are in descending order of creation; there are at most [perPage] of
    them after clamping, hence at most 100, and no more than [total];
    [total] counts the caller's documents that are not deleted and is the
    same for every page and page size; and a page that starts at or after
    [total] is empty. *)
Theorem owner_listing_rows (st : State) (ownerID : UUID) (page perPage : Z)
    (rows : list Document.t) (total : Z) :
  GetByOwner st ownerID page perPage = Ok (rows, total) ->
  (forall r, In r rows ->
     Document.OwnerID r = ownerID
     /\ Document.DeletedAt r = None
     /\ Document.EncryptionKey r = EmptyString
     /\ exists d, In d (documents st) /\ Document.DeletedAt d = None /\ r = scan_owned d)
  /\ descending Document.CreatedAt rows
  /\ (List.length rows <= 100)%nat
  /\ (1 <= perPage <= 100 -> Z.of_nat (List.length rows) <= perPage)
  /\ Z.of_nat (List.length rows) <= total
  /\ (forall page' perPage' rows' total',
        GetByOwner st ownerID page' perPage' = Ok (rows', total') -> total' = total)
  /\ (1 <= page -> 1 <= perPage <= 100 -> (page - 1) * perPage < 2 ^ 63 ->
      total <= (page - 1) * perPage -> rows = []).
Proof.
  unfold GetByOwner.
  pose proof (page_size_range perPage) as Hpp.
  set (perPage1 := if (perPage <? 1) || (100 <? perPage) then 20 else perPage) in *.
  set (page1 := if page <? 1 then 1 else page).
  set (owned := filter _ (documents st)).
  destruct (limit_offset _ _ _) as [slice|e] eqn:Hlim; [|discriminate].
  intros Heq. inversion Heq. subst rows total. clear Heq.
  destruct (limit_offset_rows _ _ _ _ Hlim) as (Hl & Ho & ->). clear Hlim.
  destruct (page_length (Z.to_nat perPage1)
              (Z.to_nat (wrap_int ((page1 - 1) * perPage1)))
              (order_by_desc Document.CreatedAt owned)) as (Hlen1 & Hlen2 & Hempty).
  rewrite order_by_desc_length in Hlen2, Hempty.
  split.
  { intros r Hr. apply in_map_iff in Hr. destruct Hr as (d & <- & Hd).
    apply in_firstn, in_skipn, order_by_desc_In in Hd.
    apply filter_In in Hd. destruct Hd as [Hin Ht].
    apply andb_true_iff in Ht. destruct Ht as [Hown Hnull].
    apply N.eqb_eq in Hown.
    split; [exact Hown|]. split; [reflexivity|]. split; [reflexivity|].
    exists d. split; [exact Hin|]. split; [|reflexivity].
    destruct (Document.DeletedAt d); [discriminate | reflexivity]. }
  split.
  { apply (descending_map Document.CreatedAt); [reflexivity|].
    apply descending_firstn, descending_skipn, order_by_desc_descending. }
  rewrite length_map.
  split; [lia|].
  assert (Hsame : 1 <= perPage <= 100 -> perPage1 = perPage).
  { intros Hrange. unfold perPage1.
    destruct (perPage <? 1) eqn:H1; [apply Z.ltb_lt in H1; lia|].
    destruct (100 <? perPage) eqn:H2; [apply Z.ltb_lt in H2; lia|]. reflexivity. }
  split; [intros Hrange; specialize (Hsame Hrange); lia|].
  split; [lia|].
  split.
  { intros page' perPage' rows' total'.
    destruct (limit_offset _ _ _); [|discriminate].
    intros Heq. inversion Heq. reflexivity. }
  intros Hpage Hrange Hfit Htotal. specialize (Hsame Hrange).
  assert (page1 = page) as Hp1.
  { unfold page1. destruct (page <? 1) eqn:H1; [apply Z.ltb_lt in H1; lia | reflexivity]. }
  assert (Hoff : wrap_int ((page1 - 1) * perPage1) = (page - 1) * perPage).
  { rewrite Hsame, Hp1. apply wrap_int_small. nia. }
  rewrite Hoff in *. rewrite Hempty; [reflexivity | lia].
Qed.

Lemma shared_rows_In (st : State) (now : Time) (userID : UUID)
    (s : DocumentShare.t) (d : Document.t) :
  In (s, d) (shared_rows st now userID) ->
  In s (document_shares st) /\ In d (documents st)
  /\ DocumentShare.SharedWithID s = userID /\ not_expired now s = true
  /\ Document.ID d = DocumentShare.DocumentID s /\ Document.DeletedAt d = None.
Proof.
  unfold shared_rows. intros Hin. apply in_flat_map in Hin.
  destruct Hin as (s0 & Hs0 & Hin).
  destruct (N.eqb (DocumentShare.SharedWithID s0) userID && not_expired now s0) eqn:Ht;
    [|destruct Hin].
  apply in_map_iff in Hin. destruct Hin as (d0 & Heq & Hd0). inversion Heq. subst s0 d0.
  apply filter_In in Hd0. destruct Hd0 as [Hd Hp].
  apply andb_true_iff in Ht. destruct Ht as [Hw Hne].
  apply andb_true_iff in Hp. destruct Hp as [Hid Hnull].
  apply N.eqb_eq in Hw, Hid.
  repeat split; try assumption.
  destruct (Document.DeletedAt d); [discriminate | reflexivity].
Qed.

(** X14. What a page of [GetSharedWithUser] holds: whenever the listing
    succeeds, every returned entry comes from a stored share of the caller
    that has not expired, on a stored document that is not deleted, and
    carries the name of that document's owner; the entry hides the
    storage path and the encryption key and lists no recipients; and
    [CanAccess] allows the caller on the listed document. At most 100
    entries are returned. *)
Theorem shared_listing_rows (st : State) (now : Time) (userID : UUID) (page perPage : Z)
    (rows : list DocumentResponse.t) (total : Z) :
  GetSharedWithUser st now userID page perPage = Ok (rows, total) ->
  (List.length rows <= 100)%nat
  /\ forall r, In r rows ->
       Document.FilePath (DocumentResponse.Doc r) = EmptyString
       /\ Document.EncryptionKey (DocumentResponse.Doc r) = EmptyString
       /\ DocumentResponse.SharedWith r = []
       /\ exists s d owner,
            In s (document_shares st) /\ In d (documents st) /\ In owner (users st)
            /\ DocumentShare.SharedWithID s = userID /\ not_expired now s = true
            /\ DocumentShare.DocumentID s = Document.ID d
            /\ Document.DeletedAt d = None
            /\ User.ID owner = Document.OwnerID d
            /\ DocumentResponse.Doc r = scan_shared d
            /\ DocumentResponse.OwnerName r = User.Name owner
            /\ fst (fst (CanAccess st now (Document.ID d) userID)) = true
            /\ snd (CanAccess st now (Document.ID d) userID) = None.
Proof.
  unfold GetSharedWithUser.
  pose proof (page_size_range perPage) as Hpp.
  set (perPage1 := if (perPage <? 1) || (100 <? perPage) then 20 else perPage) in *.
  set (page1 := if page <? 1 then 1 else page).
  destruct (limit_offset _ _ _) as [slice|e] eqn:Hlim; [|discriminate].
  intros Heq. inversion Heq. subst rows total. clear Heq.
  destruct (limit_offset_rows _ _ _ _ Hlim) as (Hl & Ho & ->).
  split.
  { rewrite length_map, length_firstn. lia. }
  intros r Hr. apply in_map_iff in Hr. destruct Hr as ([[s d] owner] & <- & Hin).
  apply in_firstn, in_skipn, order_by_desc_In in Hin.
  unfold shared_rows_with_owner in Hin. apply in_flat_map in Hin.
  destruct Hin as ([s0 d0] & Hsd & Hin).
  apply in_map_iff in Hin. destruct Hin as (o & Heq & Ho').
  inversion Heq. subst s0 d0 o. clear Heq.
  apply filter_In in Ho'. destruct Ho' as [Howner Hoid]. simpl in Hoid.
  apply N.eqb_eq in Hoid.
  destruct (shared_rows_In _ _ _ _ _ Hsd) as (Hs & Hd & Hw & Hne & Hid & Hnull).
  simpl. split; [reflexivity|]. split; [reflexivity|]. split; [reflexivity|].
  exists s, d, owner.
  assert (Hcan : fst (fst (CanAccess st now (Document.ID d) userID)) = true
                 /\ snd (CanAccess st now (Document.ID d) userID) = None).
  { unfold CanAccess, GetByID.
    destruct (find _ (documents st)) as [row|] eqn:Hf.
    - destruct (N.eqb (Document.OwnerID (scan_document row)) userID); [split; reflexivity|].
      destruct (find _ (document_shares st)) as [s1|] eqn:Hfs; [split; reflexivity|].
      exfalso. pose proof (find_none _ _ Hfs s Hs) as Hno. simpl in Hno.
      unfold share_for in Hno. rewrite <- Hid, Hw, !N.eqb_refl, Hne in Hno. discriminate.
    - exfalso. pose proof (find_none _ _ Hf d Hd) as Hno. simpl in Hno.
      rewrite N.eqb_refl, Hnull in Hno. discriminate. }
  destruct Hcan as [Hc1 Hc2].
  repeat split; try assumption; try reflexivity. congruence.
Qed.

End ListingExtras.

(** * Users and login *)

Module UserExtras.
Import Models Store Services StoreFacts.

Section WithDatabase.
Context `{DB : Database}.



Lemma update_user_name_columns (name : string) (now : Time) (id : UUID) (u : User.t) :
  User.ID (Users.update_user_name name now id u) = User.ID u
  /\ User.Email (Users.update_user_name name now id u) = User.Email u
  /\ User.Password (Users.update_user_name name now id u) = User.Password u
  /\ User.CreatedAt (Users.update_user_name name now id u) = User.CreatedAt u.
Proof. unfold Users.update_user_name. destruct (N.eqb _ _); simpl; auto. Qed.

Lemma update_user_name_other (name : string) (now : Time) (id : UUID) (u : User.t) :
  User.ID u <> id -> Users.update_user_name name now id u = u.
Proof.
  intros Hne. unfold Users.update_user_name.
  destruct (N.eqb (User.ID u) id) eqn:He; [apply N.eqb_eq in He; contradiction|].
  reflexivity.
Qed.

Lemma update_user_name_none (name : string) (now : Time) (id : UUID) (us : list User.t) :
  filter (fun u => N.eqb (User.ID u) id) us = [] ->
  map (Users.update_user_name name now id) us = us.
Proof.
  induction us as [|u us IH]; simpl; [reflexivity|].
  destruct (N.eqb (User.ID u) id) eqn:He; [discriminate|].
  intros Hf. rewrite IH by exact Hf. unfold Users.update_user_name. rewrite He.
  reflexivity.
Qed.

(** X16. [UpdateName] writes the name and nothing a login depends on. A
    name that the [VARCHAR(255)] column refuses fails the UPDATE: the
    error of the database is returned, whether or not a row has the id,
    and the state is as before. For a name that the column accepts:
    [UpdateName] fails with [ErrUserNotFound] exactly when no row has the
    id, and succeeds exactly when one has; on success the user is found
    under the id with the new name and the e-mail address, password hash
    and creation time of before; under every address [GetByEmail] finds
    the renamed copy of the row it found before, so [Authenticate]
    accepts and refuses the same passwords. Whatever the name: without a
    row of the id no row of [users] changes, every other user's row is
    as before, and the documents and the shares are untouched. *)
Theorem update_name_keeps_login `{Users.Bcrypt} (st : State) (now : Time) (id : UUID)
    (name : string) :
  let st' := fst (Users.UpdateName st now id name) in
  (forall msg, varchar 255 name = Some msg ->
     Users.UpdateName st now id name = (st, Some (ErrDB msg)))
  /\ (varchar 255 name = None ->
      (snd (Users.UpdateName st now id name) = Some ErrUserNotFound
       <-> Users.GetByID st id = Err ErrUserNotFound)
      /\ (snd (Users.UpdateName st now id name) = None
          <-> exists u, Users.GetByID st id = Ok u)
      /\ (forall u, Users.GetByID st id = Ok u ->
            Users.GetByID st' id
            = Ok (User.mk id (User.Email u) (User.Password u) name (User.CreatedAt u)
                          now))
      /\ (forall email,
            GetByEmail st' email
            = match GetByEmail st email with
              | Ok u => Ok (Users.update_user_name name now id u)
              | Err e => Err e
              end)
      /\ (forall email attempt,
            match Users.Authenticate st' email attempt,
                  Users.Authenticate st email attempt with
            | inl u', inl u => u' = Users.update_user_name name now id u
            | inr e', inr e => e' = e
            | _, _ => False
            end))
  /\ (Users.GetByID st id = Err ErrUserNotFound -> users st' = users st)
  /\ (forall other, other <> id -> Users.GetByID st' other = Users.GetByID st other)
  /\ documents st' = documents st
  /\ document_shares st' = document_shares st.
Proof.
  cbv zeta.
  destruct (varchar 255 name) as [msg|] eqn:Hcol.
  { assert (Hsame : Users.UpdateName st now id name = (st, Some (ErrDB msg)))
      by (unfold Users.UpdateName; rewrite Hcol; reflexivity).
    rewrite Hsame. cbn [fst snd].
    split; [intros msg' Hmsg; congruence|].
    split; [discriminate|]. repeat split; reflexivity. }
  split; [discriminate|].
  assert (Hrows : filter (fun u => N.eqb (User.ID u) id) (users st) = []
                  <-> Users.GetByID st id = Err ErrUserNotFound).
  { unfold Users.GetByID. split.
    - intros Hf. destruct (find _ (users st)) as [u|] eqn:Hfind; [|reflexivity].
      apply find_some in Hfind.
      assert (Hin : In u (filter (fun u => N.eqb (User.ID u) id) (users st)))
        by (apply filter_In; exact Hfind).
      rewrite Hf in Hin. destruct Hin.
    - destruct (find _ (users st)) as [u|] eqn:Hfind; [discriminate|]. intros _.
      destruct (filter _ (users st)) as [|u l] eqn:Hf; [reflexivity|].
      assert (Hin : In u (filter (fun u => N.eqb (User.ID u) id) (users st)))
        by (rewrite Hf; left; reflexivity).
      apply filter_In in Hin. destruct Hin as [Hin Hu].
      pose proof (find_none _ _ Hfind u Hin) as Hno. simpl in Hno. congruence. }
  assert (Hst : fst (Users.UpdateName st now id name)
                = set_users st (map (Users.update_user_name name now id) (users st))).
  { unfold Users.UpdateName. rewrite Hcol. destruct (_ =? 0); reflexivity. }
  assert (Hcases : (exists u, Users.GetByID st id = Ok u)
                   \/ Users.GetByID st id = Err ErrUserNotFound).
  { unfold Users.GetByID. destruct (find _ (users st)) as [u|];
      [left; exists u; reflexivity | right; reflexivity]. }
  assert (Herr : (snd (Users.UpdateName st now id name) = Some ErrUserNotFound
                  /\ Users.GetByID st id = Err ErrUserNotFound)
                 \/ (snd (Users.UpdateName st now id name) = None
                     /\ exists u, Users.GetByID st id = Ok u)).
  { unfold Users.UpdateName. rewrite Hcol.
    destruct (filter (fun u => N.eqb (User.ID u) id) (users st)) as [|u l] eqn:Hf.
    - left. split; [reflexivity|]. apply Hrows. reflexivity.
    - right. split; [reflexivity|].
      destruct Hcases as [Hu | Hnone]; [exact Hu|].
      apply Hrows in Hnone. discriminate. }
  assert (Hfind : forall (wanted : User.t -> bool),
             (forall u, wanted (Users.update_user_name name now id u) = wanted u) ->
             find wanted (map (Users.update_user_name name now id) (users st))
             = option_map (Users.update_user_name name now id) (find wanted (users st))).
  { intros wanted Hw. apply find_map_same. exact Hw. }
  assert (Hemail : forall email,
             GetByEmail (fst (Users.UpdateName st now id name)) email
             = match GetByEmail st email with
               | Ok u => Ok (Users.update_user_name name now id u)
               | Err e => Err e
               end).
  { intros email. rewrite Hst. unfold GetByEmail. cbn [users set_users].
    rewrite Hfind.
    - destruct (find _ (users st)); reflexivity.
    - intros u. destruct (update_user_name_columns name now id u) as (_ & -> & _).
      reflexivity. }
  assert (Hbyid : forall other,
             Users.GetByID (fst (Users.UpdateName st now id name)) other
             = match Users.GetByID st other with
               | Ok u => Ok (Users.update_user_name name now id u)
               | Err e => Err e
               end).
  { intros other. rewrite Hst. unfold Users.GetByID. cbn [users set_users].
    rewrite Hfind.
    - destruct (find _ (users st)); reflexivity.
    - intros u. destruct (update_user_name_columns name now id u) as (-> & _).
      reflexivity. }
  split.
  { intros _. split.
    { destruct Herr as [[He Hg] | [He [u Hg]]]; rewrite He, Hg; split; congruence. }
    split.
    { destruct Herr as [[He Hg] | [He [u Hg]]]; rewrite He, Hg; split.
      - discriminate.
      - intros [u Hu]. discriminate.
      - intros _. exists u. reflexivity.
      - reflexivity. }
    split.
    { intros u Hu. rewrite Hbyid, Hu. f_equal.
      unfold Users.GetByID in Hu.
      destruct (find _ (users st)) as [u0|] eqn:Hf; [|discriminate].
      inversion Hu. subst u0. apply find_some in Hf. destruct Hf as [_ Hid].
      apply N.eqb_eq in Hid. unfold Users.update_user_name.
      rewrite Hid, N.eqb_refl. reflexivity. }
    split; [exact Hemail|].
    intros email attempt. unfold Users.Authenticate. rewrite Hemail.
    destruct (GetByEmail st email) as [u|e]; [|reflexivity].
    destruct (update_user_name_columns name now id u) as (_ & _ & -> & _).
    destruct (Users.CompareHashAndPassword _ _); reflexivity. }
  split.
  { intros Hnone. rewrite Hst. cbn [users set_users].
    apply update_user_name_none. apply Hrows. exact Hnone. }
  split.
  { intros other Hne. rewrite Hbyid. unfold Users.GetByID.
    destruct (find _ (users st)) as [u|] eqn:Hf; [|reflexivity].
    apply find_some in Hf. destruct Hf as [_ Hid]. apply N.eqb_eq in Hid.
    rewrite update_user_name_other by congruence. reflexivity. }
  rewrite Hst. split; reflexivity.
Qed.

End WithDatabase.

End UserExtras.

(** * The handlers *)

Module HandlerExtras.
Import Models Store Services System StoreFacts ServicesFacts AccessProperties AccessExtras
       StoreExtras ListingExtras.

Section WithDatabase.
Context `{DB : Database}.

(** X17. What [Login] answers to a request that passes the binding: an
    unknown address and a wrong password get the same 401, so the reply
    does not tell whether the address is registered; the 200 carries the
    user found under the address, whose hash matches the password, with
    the token generated for that user's id and address; and a request
    that fails the binding gets a 400 whatever the database holds. *)
Theorem login_replies `{Runtime} `{Users.Bcrypt}
    (generateToken : UUID -> string -> result string) (st : State)
    (req : Http.LoginRequest.t) :
  ((forall u, GetByEmail st (Http.LoginRequest.Email req) = Ok u ->
              Users.CompareHashAndPassword (User.Password u)
                                           (Http.LoginRequest.Password req) = false) ->
   Http.validate_LoginRequest req = [] ->
   Http.Login generateToken st (inr req)
   = Http.JSONError 401 (ErrorResponse.mk "invalid_credentials" "Invalid email or password"))
  /\ (forall status token user,
        Http.Login generateToken st (inr req) = Http.JSONAuth status token user ->
        status = 200
        /\ Http.validate_LoginRequest req = []
        /\ GetByEmail st (Http.LoginRequest.Email req) = Ok user
        /\ Users.CompareHashAndPassword (User.Password user)
                                        (Http.LoginRequest.Password req) = true
        /\ generateToken (User.ID user) (User.Email user) = Ok token)
  /\ (forall user token,
        Http.validate_LoginRequest req = [] ->
        GetByEmail st (Http.LoginRequest.Email req) = Ok user ->
        Users.CompareHashAndPassword (User.Password user)
                                     (Http.LoginRequest.Password req) = true ->
        generateToken (User.ID user) (User.Email user) = Ok token ->
        Http.Login generateToken st (inr req) = Http.JSONAuth 200 token user)
  /\ (Http.validate_LoginRequest req <> [] ->
      exists msg, forall st',
        Http.Login generateToken st' (inr req)
        = Http.JSONError 400 (ErrorResponse.mk "validation_error" msg)).
Proof.
  unfold Http.Login, Users.Authenticate.
  destruct (Http.validate_LoginRequest req) as [|fe fes] eqn:Hv.
  - split.
    { intros Hwrong _. unfold GetByEmail in *.
      destruct (find _ (users st)) as [u|]; [|reflexivity].
      rewrite (Hwrong u eq_refl). reflexivity. }
    split.
    { intros status token user.
      destruct (GetByEmail st _) as [u|e]; [|destruct (Handlers.errors_Is _ _); discriminate].
      destruct (Users.CompareHashAndPassword _ _) eqn:Hcmp; [|discriminate].
      cbn [negb]. destruct (generateToken _ _) as [t|e] eqn:Hgen; [|discriminate].
      intros Heq. inversion Heq. subst. auto. }
    split.
    { intros user token _ Hget Hcmp Hgen. rewrite Hget, Hcmp. cbn [negb].
      rewrite Hgen. reflexivity. }
    intros Hne. contradiction.
  - split; [intros _ Hnil; discriminate|].
    split; [intros status token user Heq; discriminate|].
    split; [intros user token Hnil; discriminate|].
    intros _. eexists. intros st'. reflexivity.
Qed.

Lemma count_zero_find {A : Type} (p : A -> bool) (l : list A) :
  (Z.of_nat (List.length (filter p l)) =? 0) = true <-> find p l = None.
Proof.
  rewrite find_none_filter, Z.eqb_eq.
  destruct (filter p l); simpl; split; try congruence; lia.
Qed.

Lemma Delete_failure (st st' : State) (now : Time) (fault : option string)
    (id userID : UUID) (e : error) :
  Delete st now fault id userID = (st', Some e) ->
  st' = st
  /\ (e = ErrDocumentNotFound /\ GetByID st id = Err ErrDocumentNotFound
      \/ e = ErrAccessDenied
         /\ exists doc, GetByID st id = Ok doc /\ Document.OwnerID doc <> userID).
Proof.
  unfold Delete. destruct (GetByID st id) as [doc|err] eqn:Hget.
  - destruct (N.eqb (Document.OwnerID doc) userID) eqn:Hown; cbn [negb].
    + cbn [set_documents files].
      destruct (os_Remove _ _ _) as [fs [re|]]; [destruct (negb _)|]; discriminate.
    + intros Heq. inversion Heq. split; [reflexivity|]. right. split; [reflexivity|].
      exists doc. split; [reflexivity|]. apply N.eqb_neq. exact Hown.
  - intros Heq. inversion Heq. subst. split; [reflexivity|]. left.
    rewrite (GetByID_Err _ _ _ Hget). auto.
Qed.

Lemma Delete_success (st st' : State) (now : Time) (fault : option string)
    (id userID : UUID) :
  Delete st now fault id userID = (st', None) ->
  exists doc,
    GetByID st id = Ok doc /\ Document.OwnerID doc = userID
    /\ documents st' = map (update_deleted_at now id) (documents st).
Proof.
  unfold Delete. destruct (GetByID st id) as [doc|err] eqn:Hget; [|discriminate].
  destruct (N.eqb (Document.OwnerID doc) userID) eqn:Hown; [|discriminate].
  cbn [negb set_documents files].
  intros Heq. exists doc. split; [reflexivity|]. split; [apply N.eqb_eq; exact Hown|].
  destruct (os_Remove _ _ _) as [fs [re|]]; [destruct (negb _)|];
    inversion Heq; reflexivity.
Qed.

(** X18. Download and details. [DownloadDocument] asks the database
    twice, outside a transaction: [GetFilePath] reads [st], and the
    [GetByID] that follows reads [st2]; the error of that [GetByID] is
    dropped and the fields of the document it returns are read.
    When nothing is written between the two reads, the download does not
    panic; it serves a file exactly when [GetDocument] answers 200 for
    the same request, and then the served path, content type and file
    name are those of the document that [GetDocument] returns; when
    [GetDocument] refuses, the download is refused with the same status.
    In general the download panics exactly when [GetFilePath] grants the
    path and the document is not found by the second read, which is the
    case when its owner deletes it between the two reads; and a served
    file has the path of the first read and the name and content type of
    the second. *)
Theorem download_agrees_with_details (st st2 : State) (now : Time)
    (userID docID : option UUID) :
  ((forall msg, Http.DownloadDocument st st now userID docID <> Http.Panic msg)
   /\ (forall doc,
         Http.GetDocument st st now userID docID = Http.JSONDocument 200 doc
         <-> Http.DownloadDocument st st now userID docID
             = Http.File ("attachment; filename=" ++ Document.OriginalName doc)
                         (Document.MimeType doc) (Document.FilePath doc)
             /\ exists id, docID = Some id /\ GetByID st id = Ok doc)
   /\ (forall status e,
         Http.GetDocument st st now userID docID = Http.JSONError status e ->
         exists e', Http.DownloadDocument st st now userID docID
                    = Http.JSONError status e'))
  /\ (forall msg,
        Http.DownloadDocument st st2 now userID docID = Http.Panic msg
        <-> msg = "runtime error: invalid memory address or nil pointer dereference"%string
            /\ exists uid id,
                 userID = Some uid /\ docID = Some id
                 /\ snd (GetFilePath st now id uid) = None
                 /\ GetByID st2 id = Err ErrDocumentNotFound)
  /\ (forall disposition contentType path,
        Http.DownloadDocument st st2 now userID docID
        = Http.File disposition contentType path
        <-> exists uid id doc,
              userID = Some uid /\ docID = Some id
              /\ GetFilePath st now id uid = (path, None)
              /\ GetByID st2 id = Ok doc
              /\ disposition = ("attachment; filename=" ++ Document.OriginalName doc)%string
              /\ contentType = Document.MimeType doc)
  /\ (forall uid id owner now' fault,
        userID = Some uid -> docID = Some id ->
        snd (GetFilePath st now id uid) = None ->
        Delete st now' fault id owner = (st2, None) ->
        Http.DownloadDocument st st2 now userID docID
        = Http.Panic "runtime error: invalid memory address or nil pointer dereference").
Proof.
  split.
  { unfold Http.GetDocument, Http.DownloadDocument.
    destruct userID as [userID|].
    2:{ split; [discriminate|]. split; [split; [discriminate | intros [? _]; discriminate]|].
        intros status e Heq. eexists. exact Heq. }
    destruct docID as [docID|].
    2:{ split; [discriminate|]. split; [split; [discriminate | intros [? _]; discriminate]|].
        intros status e Heq. eexists. exact Heq. }
    unfold CanAccess, GetFilePath.
    destruct (GetByID st docID) as [doc|err] eqn:Hget.
    2:{ rewrite (GetByID_Err _ _ _ Hget). cbn.
        split; [discriminate|]. split; [split; [discriminate | intros [? _]; discriminate]|].
        intros status e Heq. inversion Heq. eexists. reflexivity. }
    destruct (N.eqb (Document.OwnerID doc) userID).
    { cbn. split; [discriminate|]. split.
      - intros d. split.
        + intros Heq. inversion Heq. subst d. split; [reflexivity|]. exists docID. auto.
        + intros [_ (id & Hid & Hd)]. inversion Hid. subst id. congruence.
      - discriminate. }
    destruct (Z.of_nat _ =? 0) eqn:Hcount.
    - apply count_zero_find in Hcount. rewrite Hcount. cbn.
      split; [discriminate|]. split.
      + intros d. split; [discriminate | intros [? _]; discriminate].
      + intros status e Heq. inversion Heq. eexists. reflexivity.
    - destruct (find _ (document_shares st)) as [s|] eqn:Hfind.
      2:{ apply count_zero_find in Hfind. congruence. }
      cbn. split; [discriminate|]. split.
      + intros d. split.
        * intros Heq. inversion Heq. subst d. split; [reflexivity|]. exists docID. auto.
        * intros [_ (id & Hid & Hd)]. inversion Hid. subst id. congruence.
      + discriminate. }
  assert (Hpanic : forall uid id,
             snd (GetFilePath st now id uid) = None ->
             GetByID st2 id = Err ErrDocumentNotFound ->
             Http.DownloadDocument st st2 now (Some uid) (Some id)
             = Http.Panic "runtime error: invalid memory address or nil pointer dereference").
  { intros uid id Hpath Hgone. unfold Http.DownloadDocument.
    destruct (GetFilePath st now id uid) as [path [e|]]; [discriminate|].
    rewrite Hgone. reflexivity. }
  split.
  { intros msg. split.
    - unfold Http.DownloadDocument.
      destruct userID as [uid|]; [|discriminate].
      destruct docID as [id|]; [|discriminate].
      destruct (GetFilePath st now id uid) as [path [e|]] eqn:Hpath.
      { destruct (Handlers.errors_Is e ErrDocumentNotFound); [discriminate|].
        destruct (Handlers.errors_Is e ErrAccessDenied); discriminate. }
      destruct (GetByID st2 id) as [doc|e] eqn:Hget; [discriminate|].
      intros Heq. inversion Heq. split; [reflexivity|].
      exists uid, id. rewrite Hpath, Hget, (GetByID_Err _ _ _ Hget). auto.
    - intros [-> (uid & id & -> & -> & Hpath & Hgone)]. apply Hpanic; assumption. }
  split.
  { intros disposition contentType path. split.
    - unfold Http.DownloadDocument.
      destruct userID as [uid|]; [|discriminate].
      destruct docID as [id|]; [|discriminate].
      destruct (GetFilePath st now id uid) as [path' [e|]] eqn:Hpath.
      { destruct (Handlers.errors_Is e ErrDocumentNotFound); [discriminate|].
        destruct (Handlers.errors_Is e ErrAccessDenied); discriminate. }
      destruct (GetByID st2 id) as [doc|e] eqn:Hget; [|discriminate].
      intros Heq. inversion Heq. subst. exists uid, id, doc. auto 10.
    - intros (uid & id & doc & -> & -> & Hpath & Hget & -> & ->).
      unfold Http.DownloadDocument. rewrite Hpath, Hget. reflexivity. }
  intros uid id owner now' fault -> -> Hpath Hdelete.
  apply Hpanic; [exact Hpath|].
  destruct (Delete_success _ _ _ _ _ _ Hdelete) as (doc & Hget & _ & Hdocs).
  apply GetByID_soft_deleted.
  exact (deleted_rows_soft_deleted st st2 now' id doc Hget Hdocs).
Qed.

(** X19. What [DeleteDocument] answers: 204 exactly when the caller owns
    the document and it is not deleted, after which the document is not
    found any more; 404 when the document is absent or deleted and 403
    when the caller is not the owner, whatever share the caller holds,
    and in both cases, as for every reply other than 204, nothing is
    changed. *)
Theorem delete_document_replies (st : State) (now : Time) (fault : option string)
    (userID docID : UUID) :
  let st' := fst (Http.DeleteDocument st now fault (Some userID) (Some docID)) in
  let reply := snd (Http.DeleteDocument st now fault (Some userID) (Some docID)) in
  (reply = Http.Status 204
   <-> exists doc, GetByID st docID = Ok doc /\ Document.OwnerID doc = userID)
  /\ (reply = Http.Status 204 -> GetByID st' docID = Err ErrDocumentNotFound)
  /\ (reply <> Http.Status 204 -> st' = st)
  /\ (GetByID st docID = Err ErrDocumentNotFound ->
      reply = Http.JSONError 404 (ErrorResponse.mk "not_found" ""))
  /\ (forall doc, GetByID st docID = Ok doc -> Document.OwnerID doc <> userID ->
      reply = Http.JSONError 403 (ErrorResponse.mk "access_denied"
                                    "Only the document owner can delete it")).
Proof.
  cbv zeta. unfold Http.DeleteDocument.
  destruct (Delete st now fault docID userID) as [st' [e|]] eqn:Hd.
  - destruct (Delete_failure _ _ _ _ _ _ _ Hd)
      as [-> [[-> Hget] | [-> (doc & Hget & Hown)]]]; cbn.
    + split; [split; [discriminate | intros (d & Hd' & _); congruence]|].
      split; [discriminate|]. split; [reflexivity|]. split; [reflexivity|].
      intros d Hd'. congruence.
    + split; [split; [discriminate | intros (d & Hd' & Ho); congruence]|].
      split; [discriminate|]. split; [reflexivity|]. split; [congruence|].
      intros d Hd' _. reflexivity.
  - destruct (Delete_success _ _ _ _ _ _ Hd) as (doc & Hget & Hown & Hdocs). cbn.
    split; [split; [intros _; exists doc; auto | reflexivity]|].
    split.
    { intros _. apply GetByID_soft_deleted.
      apply (deleted_rows_soft_deleted st st' now docID doc Hget Hdocs). }
    split; [congruence|]. split; [congruence|].
    intros d Hd' Hne. congruence.
Qed.

Lemma Rename_failure (st st' : State) (now : Time) (id userID : UUID) (newName : string)
    (e : error) :
  Rename st now id userID newName = (st', Some e) -> st' = st.
Proof.
  unfold Rename. destruct (CanAccess st now id userID) as [[c p] [err|]]; [congruence|].
  destruct (_ || _); [congruence|]. destruct (varchar _ _); [congruence | discriminate].
Qed.

Lemma Rename_success (st st' : State) (now : Time) (id userID : UUID) (newName : string) :
  Rename st now id userID newName = (st', None) ->
  st' = set_documents st (map (update_name newName now id) (documents st))
  /\ exists doc permission,
       GetByID st id = Ok doc
       /\ CanAccess st now id userID = (true, permission, None)
       /\ (permission = "owner" \/ permission = "edit")%string.
Proof.
  unfold Rename. destruct (CanAccess st now id userID) as [[c p] [err|]] eqn:Hc;
    [discriminate|].
  destruct c; cbn [negb orb]; [|discriminate].
  destruct (String.eqb p "owner") eqn:Ho; cbn [negb andb].
  - destruct (varchar _ _); [discriminate|].
    intros Heq. inversion Heq. split; [reflexivity|].
    unfold CanAccess in Hc. destruct (GetByID st id) as [doc|err] eqn:Hget; [|discriminate].
    exists doc, p. apply String.eqb_eq in Ho. auto.
  - destruct (String.eqb p "edit") eqn:He; cbn [negb]; [|discriminate].
    destruct (varchar _ _); [discriminate|].
    intros Heq. inversion Heq. split; [reflexivity|].
    unfold CanAccess in Hc. destruct (GetByID st id) as [doc|err] eqn:Hget; [|discriminate].
    exists doc, p. apply String.eqb_eq in He. auto.
Qed.

(** X20. What [RenameDocument] answers and stores: the empty name is
    refused with a 400 before the service is called; a 200 means that the
    caller is the owner or holds an edit share, and the document is then
    found with exactly the bytes sent as its name, which are not passed
    through [SanitizeFilename], while its owner and storage path are
    those of before; every other reply leaves the state as it was. *)
Theorem rename_document_replies (st : State) (now : Time) (userID docID : UUID)
    (name : string) :
  let st' := fst (Http.RenameDocument st now (Some userID) (Some docID) (inr name)) in
  let reply := snd (Http.RenameDocument st now (Some userID) (Some docID) (inr name)) in
  (name = EmptyString ->
   exists msg, reply = Http.JSONError 400 (ErrorResponse.mk "validation_error" msg))
  /\ (reply = Http.JSONMessage 200 "Document renamed successfully" ->
      name <> EmptyString
      /\ (exists permission,
            CanAccess st now docID userID = (true, permission, None)
            /\ (permission = "owner" \/ permission = "edit")%string)
      /\ exists doc doc',
           GetByID st docID = Ok doc /\ GetByID st' docID = Ok doc'
           /\ Document.Name doc' = name
           /\ Document.OwnerID doc' = Document.OwnerID doc
           /\ Document.FilePath doc' = Document.FilePath doc)
  /\ (reply <> Http.JSONMessage 200 "Document renamed successfully" -> st' = st).
Proof.
  cbv zeta. unfold Http.RenameDocument.
  destruct (String.eqb name "") eqn:Hname.
  { apply String.eqb_eq in Hname. cbn.
    split; [intros _; eexists; reflexivity|]. split; [discriminate | reflexivity]. }
  apply String.eqb_neq in Hname.
  destruct (Rename st now docID userID name) as [st' [e|]] eqn:Hr.
  - rewrite (Rename_failure _ _ _ _ _ _ _ Hr).
    split; [contradiction|].
    destruct (Handlers.errors_Is e ErrDocumentNotFound);
      [|destruct (Handlers.errors_Is e ErrAccessDenied)]; cbn;
      (split; [discriminate | reflexivity]).
  - destruct (Rename_success _ _ _ _ _ _ Hr) as (-> & doc & permission & Hget & Hcan & Hp).
    cbn [fst snd]. split; [contradiction|]. split; [|congruence].
    intros _. split; [exact Hname|]. split; [exists permission; auto|].
    destruct (GetByID_renamed st name now docID doc Hget)
      as (doc' & Hget' & Hn & _ & Ho & Hf).
    exists doc, doc'. auto.
Qed.

Lemma ShouldBindJSON_ok `{Runtime} (body : string + ShareRequest.t) (req : ShareRequest.t) :
  Handlers.ShouldBindJSON body = inr req ->
  body = inr req
  /\ (ShareRequest.Permission req = "view" \/ ShareRequest.Permission req = "edit")%string
  /\ validator_email (ShareRequest.Email req) = true.
Proof.
  unfold Handlers.ShouldBindJSON. destruct body as [msg|r]; [discriminate|].
  destruct (Handlers.validate_ShareRequest r) as [|fe fes] eqn:Hv; [|discriminate].
  intros Heq. inversion Heq. subst r. split; [reflexivity|].
  unfold Handlers.validate_ShareRequest in Hv. apply app_eq_nil in Hv.
  destruct Hv as [Hemail Hperm]. split.
  - destruct (String.eqb (ShareRequest.Permission req) ""); [discriminate|].
    destruct (existsb _ _) eqn:Hex; [|discriminate].
    apply existsb_exists in Hex. destruct Hex as (p & Hin & Hp).
    apply String.eqb_eq in Hp. destruct Hin as [<- | [<- | []]]; auto.
  - destruct (String.eqb (ShareRequest.Email req) ""); [discriminate|].
    destruct (validator_email _); [reflexivity | discriminate].
Qed.

(** X21. What [ShareDocument] stores: a 200 means that the request passed
    the binding, so its permission is "view" or "edit" and its address a
    valid one, that the caller owns the document, and that the recipient,
    the user registered under the address, now has a share of the
    document with that permission; every reply other than 200 leaves the
    state as it was. *)
Theorem share_document_replies `{Runtime} (st : State) (now : Time)
    (userID docID : option UUID) (body : string + ShareRequest.t) :
  let st' := fst (Handlers.ShareDocument st now userID docID body) in
  let reply := snd (Handlers.ShareDocument st now userID docID body) in
  (Handlers.Status reply = 200 ->
   exists owner id req doc recipient,
     userID = Some owner /\ docID = Some id /\ body = inr req
     /\ (ShareRequest.Permission req = "view" \/ ShareRequest.Permission req = "edit")%string
     /\ validator_email (ShareRequest.Email req) = true
     /\ GetByID st id = Ok doc /\ Document.OwnerID doc = owner
     /\ GetByEmail st (ShareRequest.Email req) = Ok recipient
     /\ (exists s, In s (document_shares st')
                   /\ share_for id (User.ID recipient) s = true)
     /\ (forall s, In s (document_shares st') ->
                   share_for id (User.ID recipient) s = true ->
                   DocumentShare.Permission s = ShareRequest.Permission req))
  /\ (Handlers.Status reply <> 200 -> st' = st).
Proof.
  cbv zeta. unfold Handlers.ShareDocument.
  destruct userID as [owner|]; [|cbn; split; [discriminate | reflexivity]].
  destruct docID as [id|]; [|cbn; split; [discriminate | reflexivity]].
  destruct (Handlers.ShouldBindJSON body) as [msg|req] eqn:Hb;
    [cbn; split; [discriminate | reflexivity]|].
  destruct (ShouldBindJSON_ok _ _ Hb) as (-> & Hperm & Hemail).
  destruct (Share st now id owner (ShareRequest.Email req) (ShareRequest.Permission req))
    as [st1 [e|]] eqn:Hs.
  - rewrite (TableInvariants.Share_failure _ _ _ _ _ _ _ _ Hs).
    destruct (Handlers.errors_Is e ErrDocumentNotFound);
      [|destruct (Handlers.errors_Is e ErrUserNotFound);
        [|destruct (Handlers.errors_Is e ErrAccessDenied)]]; cbn;
      (split; [discriminate | reflexivity]).
  - cbn [fst snd Handlers.Status]. split; [|congruence]. intros _.
    destruct (Share_ok_inv _ _ _ _ _ _ _ Hs) as (doc & u & Hget & Hown & Hu & ->).
    exists owner, id, req, doc, u.
    split; [reflexivity|]. split; [reflexivity|]. split; [reflexivity|].
    split; [exact Hperm|]. split; [exact Hemail|]. split; [exact Hget|].
    split; [exact Hown|]. split; [exact Hu|]. cbn [document_shares set_document_shares].
    split.
    + pose proof (upsert_share_present now id owner (User.ID u)
                    (ShareRequest.Permission req) (document_shares st)) as Hex.
      apply existsb_exists in Hex. exact Hex.
    + intros s Hin Hfor.
      exact (proj1 (upsert_share_rows _ _ _ _ _ _ _ Hin Hfor)).
Qed.

End WithDatabase.

End HandlerExtras.

(** * Listing and upload over HTTP *)

Module PagingExtras.
Import Models Store Services System StoreFacts ServicesFacts AccessProperties
       StoreExtras ListingExtras.

Section WithDatabase.
Context `{DB : Database}.

Lemma GetByOwner_ok (st : State) (ownerID : UUID) (page perPage : Z) :
  (page - 1) * 100 < 2 ^ 63 ->
  exists rows,
    GetByOwner st ownerID page perPage
    = Ok (rows,
          Z.of_nat (List.length
                      (filter (fun d => N.eqb (Document.OwnerID d) ownerID
                                        && is_null (Document.DeletedAt d))
                              (documents st)))).
Proof.
  intros Hp. unfold GetByOwner.
  destruct (clamped_offset page perPage Hp) as [Hl Ho].
  rewrite limit_offset_ok by assumption. eexists. reflexivity.
Qed.

Lemma filter_length_le {A : Type} (p : A -> bool) (l : list A) :
  (List.length (filter p l) <= List.length l)%nat.
Proof.
  induction l as [|a l IH]; simpl; [lia|]. destruct (p a); simpl; lia.
Qed.

Lemma totalPages_ceiling (total perPage pages : Z) :
  0 <= total < 2 ^ 62 -> 1 <= perPage <= 100 ->
  Http.totalPages total perPage = Some pages ->
  (pages - 1) * perPage < total <= pages * perPage.
Proof.
  intros Ht Hp. unfold Http.totalPages.
  destruct (perPage =? 0) eqn:Hz; [apply Z.eqb_eq in Hz; lia|].
  intros Heq. inversion Heq as [Hpages]. clear Heq.
  rewrite (wrap_int_small (total + perPage - 1)) by lia.
  rewrite Z.quot_div_nonneg by lia.
  pose proof (Z.div_mod (total + perPage - 1) perPage ltac:(lia)) as Hdm.
  pose proof (Z.mod_pos_bound (total + perPage - 1) perPage ltac:(lia)) as Hmod.
  assert (Hq : 0 <= (total + perPage - 1) / perPage <= total + perPage - 1).
  { split; [apply Z.div_pos; lia|]. apply Z.div_le_upper_bound; nia. }
  rewrite wrap_int_small by lia. nia.
Qed.

(** X22. What [ListDocuments] answers to an authenticated caller: it
    panics with a division by zero exactly when [per_page] is 0, which is
    also what [Atoi] makes of a value that is not a number, and the
    service has returned rows (it does whenever the offset fits); a 200
    echoes [page] and [per_page] as they were sent, not as the service
    clamped them, with at most 100 rows, and at most 20 when [per_page]
    lies outside [1, 100]; and for [per_page] within [1, 100] the reply is
    a 200 whose [total_pages] is the ceiling of [total / per_page]. *)
Theorem list_documents_replies (st : State) (userID : UUID) (page perPage : Z) :
  ((page - 1) * 100 < 2 ^ 63 -> perPage = 0 ->
   Http.ListDocuments st (Some userID) page perPage
   = Http.Panic "runtime error: integer divide by zero")
  /\ (forall msg, Http.ListDocuments st (Some userID) page perPage = Http.Panic msg ->
                  perPage = 0)
  /\ (forall status p,
        Http.ListDocuments st (Some userID) page perPage = Http.JSONDocuments status p ->
        status = 200
        /\ Http.PaginatedResponse.Page p = page
        /\ Http.PaginatedResponse.PerPage p = perPage
        /\ GetByOwner st userID page perPage
           = Ok (Http.PaginatedResponse.Data p, Http.PaginatedResponse.Total p)
        /\ (List.length (Http.PaginatedResponse.Data p) <= 100)%nat
        /\ (perPage < 1 \/ 100 < perPage ->
            (List.length (Http.PaginatedResponse.Data p) <= 20)%nat))
  /\ ((page - 1) * 100 < 2 ^ 63 -> 1 <= perPage <= 100 ->
      Z.of_nat (List.length (documents st)) < 2 ^ 62 ->
      exists p,
        Http.ListDocuments st (Some userID) page perPage = Http.JSONDocuments 200 p
        /\ (Http.PaginatedResponse.TotalPages p - 1) * perPage
           < Http.PaginatedResponse.Total p
           <= Http.PaginatedResponse.TotalPages p * perPage).
Proof.
  unfold Http.ListDocuments. split.
  { intros Hp ->. destruct (GetByOwner_ok st userID page 0 Hp) as [rows ->].
    reflexivity. }
  split.
  { intros msg. destruct (GetByOwner st userID page perPage) as [[rows total]|e];
      [|discriminate].
    unfold Http.totalPages. destruct (perPage =? 0) eqn:Hz; [|discriminate].
    intros _. apply Z.eqb_eq. exact Hz. }
  split.
  { intros status p.
    destruct (GetByOwner st userID page perPage) as [[rows total]|e] eqn:Hg; [|discriminate].
    destruct (Http.totalPages total perPage) as [pages|]; [|discriminate].
    intros Heq. inversion Heq. subst. cbn.
    split; [reflexivity|]. split; [reflexivity|]. split; [reflexivity|].
    split; [reflexivity|].
    unfold GetByOwner in Hg.
    destruct (limit_offset _ _ _) as [slice|e] eqn:Hlim; [|discriminate].
    inversion Hg. subst rows total.
    destruct (limit_offset_rows _ _ _ _ Hlim) as (Hl & Ho & ->).
    pose proof (page_size_range perPage) as Hrange.
    rewrite length_map, length_firstn. split; [lia|].
    intros Hout.
    assert (Hclamp : (if (perPage <? 1) || (100 <? perPage) then 20 else perPage) = 20).
    { destruct Hout as [Hlow | Hhigh].
      - apply Z.ltb_lt in Hlow. rewrite Hlow. reflexivity.
      - apply Z.ltb_lt in Hhigh. rewrite Hhigh, orb_true_r. reflexivity. }
    rewrite Hclamp. lia. }
  intros Hp Hrange Hfits.
  destruct (GetByOwner_ok st userID page perPage Hp) as [rows ->].
  set (total := Z.of_nat (List.length (filter _ (documents st)))).
  assert (Htotal : 0 <= total < 2 ^ 62).
  { unfold total.
    pose proof (filter_length_le
                  (fun d => N.eqb (Document.OwnerID d) userID
                            && is_null (Document.DeletedAt d)) (documents st)).
    lia. }
  destruct (Http.totalPages total perPage) as [pages|] eqn:Hpages.
  - eexists. split; [reflexivity|]. cbn.
    exact (totalPages_ceiling _ _ _ Htotal Hrange Hpages).
  - unfold Http.totalPages in Hpages.
    destruct (perPage =? 0) eqn:Hz; [apply Z.eqb_eq in Hz; lia | discriminate].
Qed.

Lemma Create_ok `{Runtime} (uploadDir : string) (st : State) (env : CreateEnv)
    (ownerID : UUID) (name originalName mimeType : string) (size : Z)
    (sanitizedOriginalName sanitizedName : string) :
  Utils.ValidateContentType mimeType = None ->
  Utils.SanitizeFilename originalName = Ok sanitizedOriginalName ->
  (if String.eqb name "" then Ok sanitizedOriginalName else Utils.SanitizeFilename name)
  = Ok sanitizedName ->
  createFault env = None -> copyFault env = None ->
  refused [(255, sanitizedName); (255, sanitizedOriginalName); (100, mimeType);
           (50, "AES-256-GCM"%string);
           (500, filepath_Join uploadDir (UUID_String (newID env)))] = None ->
  existsb (fun d => N.eqb (Document.ID d) (newID env)) (documents st) = false ->
  existsb (fun u => N.eqb (User.ID u) ownerID) (users st) = true ->
  exists st',
    Create uploadDir st env ownerID name originalName mimeType size
    = (st', Ok (Document.mk (newID env) ownerID sanitizedName sanitizedOriginalName size
                  mimeType EmptyString "AES-256-GCM"
                  (filepath_Join uploadDir (UUID_String (newID env))) false
                  (createdAt env) (updatedAt env) None)).
Proof.
  intros Hmime Horig Hname Hcreate Hcopy Hcols Hfresh Howner. unfold Create.
  rewrite Hmime, Horig.
  destruct (String.eqb name ""); cbv beta iota delta [negb].
  - inversion Hname. subst sanitizedName.
    rewrite Hcreate, Hcopy. cbv zeta. rewrite Hcols, Hfresh, Howner.
    eexists. reflexivity.
  - rewrite Hname, Hcreate, Hcopy. cbv zeta. rewrite Hcols, Hfresh, Howner.
    eexists. reflexivity.
Qed.

(** X23. What [UploadDocument] answers to an authenticated caller who
    sends a file: 413 exactly when the size in the file header exceeds
    the configured maximum, with nothing stored; otherwise 201 exactly
    when the content type is allowed, the file name, and the name if one
    is sent, pass [SanitizeFilename], the file system raises no fault,
    the columns of [documents] accept the two sanitized names, the
    content type, the algorithm and the storage path, the id is unused
    and the caller has a row in [users]; then the returned document is
    owned by the caller, has the size and content type of the header,
    and is found by [GetByID]; any failure of the service, a refused
    content type or file name and a failed INSERT included, is a 500,
    with no row added. There is no lower bound on the size. *)
Theorem upload_document_replies `{Runtime} (uploadDir : string) (maxFileSize : Z)
    (st : State) (env : CreateEnv) (userID : UUID) (header : Http.FileHeader.t)
    (name : string) :
  let st' := fst (Http.UploadDocument uploadDir maxFileSize st env (Some userID)
                    (Some header) name) in
  let reply := snd (Http.UploadDocument uploadDir maxFileSize st env (Some userID)
                      (Some header) name) in
  (maxFileSize < Http.FileHeader.Size header
   <-> reply = Http.JSONError 413 (ErrorResponse.mk "file_too_large"
                                     "File exceeds maximum allowed size"))
  /\ (maxFileSize < Http.FileHeader.Size header -> st' = st)
  /\ ((exists doc, reply = Http.JSONDocument 201 doc)
      <-> Http.FileHeader.Size header <= maxFileSize
          /\ Utils.ValidateContentType (Http.FileHeader.ContentType header) = None
          /\ (exists original stored,
                Utils.SanitizeFilename (Http.FileHeader.Filename header) = Ok original
                /\ (if String.eqb name "" then Ok original
                    else Utils.SanitizeFilename name) = Ok stored
                /\ refused [(255, stored); (255, original);
                            (100, Http.FileHeader.ContentType header);
                            (50, "AES-256-GCM"%string);
                            (500, filepath_Join uploadDir (UUID_String (newID env)))]
                   = None)
          /\ createFault env = None /\ copyFault env = None
          /\ existsb (fun d => N.eqb (Document.ID d) (newID env)) (documents st) = false
          /\ existsb (fun u => N.eqb (User.ID u) userID) (users st) = true)
  /\ (forall doc, reply = Http.JSONDocument 201 doc ->
        Document.OwnerID doc = userID
        /\ Document.Size doc = Http.FileHeader.Size header
        /\ Document.MimeType doc = Http.FileHeader.ContentType header
        /\ GetByID st' (Document.ID doc) = Ok doc
        /\ documents st' = documents st ++ [doc])
  /\ (forall status e, reply = Http.JSONError status e ->
        documents st' = documents st /\ (status = 413 \/ status = 500)).
Proof.
  cbv zeta. unfold Http.UploadDocument.
  destruct (maxFileSize <? Http.FileHeader.Size header) eqn:Hsize.
  { apply Z.ltb_lt in Hsize. cbn [fst snd].
    split; [split; auto|]. split; [reflexivity|].
    split; [split; [intros [doc Hd]; discriminate | intros [Hle _]; lia]|].
    split; [discriminate|].
    intros status e Heq. inversion Heq. auto. }
  apply Z.ltb_ge in Hsize.
  set (sent := if String.eqb name "" then Http.FileHeader.Filename header else name).
  destruct (Create uploadDir st env userID sent (Http.FileHeader.Filename header)
              (Http.FileHeader.ContentType header) (Http.FileHeader.Size header))
    as [st' [doc|e]] eqn:Hc; cbn [fst snd].
  - destruct (Create_success _ _ _ _ _ _ _ _ _ _ Hc)
      as (sn & so & Horig & Hdef & Hname & Hdoc & Hfresh & _ & Hdocs & _ & _).
    destruct (Create_success_row _ _ _ _ _ _ _ _ _ _ Hc)
      as (Hcols & Howner & Hcf & Hcp & Hmime).
    split; [split; [lia | discriminate]|]. split; [lia|].
    split.
    { split; [|intros _; exists doc; reflexivity]. intros _.
      split; [exact Hsize|]. split; [exact Hmime|].
      split; [|auto].
      exists so, sn. split; [exact Horig|].
      split; [|subst doc; exact Hcols].
      unfold sent in Hname, Hdef.
      destruct (String.eqb name "") eqn:He.
      - destruct (String.eqb (Http.FileHeader.Filename header) "") eqn:Hf.
        + apply String.eqb_eq in Hf. rewrite (Hdef Hf). reflexivity.
        + apply String.eqb_neq in Hf. rewrite <- (Hname Hf), Horig. reflexivity.
      - apply String.eqb_neq in He. exact (Hname He). }
    split; [|discriminate].
    intros d Heq. inversion Heq. subst d. clear Heq. subst doc.
    split; [reflexivity|]. split; [reflexivity|].
    split; [reflexivity|]. split; [|exact Hdocs].
    unfold GetByID. rewrite Hdocs, find_app. cbn [Document.ID].
    rewrite (find_fresh_id _ _ Hfresh). cbn.
    rewrite N.eqb_refl. reflexivity.
  - destruct (Create_failure _ _ _ _ _ _ _ _ _ _ Hc) as (_ & Hdocs & _).
    split; [split; [lia | discriminate]|]. split; [lia|].
    split.
    { split; [intros [doc Hd]; discriminate|].
      intros (_ & Hmime & (so & sn & Horig & Hname & Hcols) & Hcf & Hcp & Hfresh
              & Howner).
      exfalso.
      assert (Hsent : (if String.eqb sent "" then Ok so else Utils.SanitizeFilename sent)
                      = Ok sn).
      { unfold sent. destruct (String.eqb name "") eqn:He.
        - destruct (String.eqb (Http.FileHeader.Filename header) ""); congruence.
        - apply String.eqb_neq in He. rewrite (proj2 (String.eqb_neq _ _) He).
          exact Hname. }
      destruct (Create_ok uploadDir st env userID sent _ _ (Http.FileHeader.Size header)
                  so sn Hmime Horig Hsent Hcf Hcp Hcols Hfresh Howner) as [st2 Hok].
      congruence. }
    split; [discriminate|].
    intros status e' Heq. inversion Heq. auto.
Qed.

Lemma GetSharedWithUser_ok (st : State) (now : Time) (userID : UUID) (page perPage : Z) :
  (page - 1) * 100 < 2 ^ 63 ->
  exists rows,
    GetSharedWithUser st now userID page perPage
    = Ok (rows, Z.of_nat (List.length (shared_rows st now userID))).
Proof.
  intros Hp. unfold GetSharedWithUser.
  destruct (clamped_offset page perPage Hp) as [Hl Ho].
  rewrite limit_offset_ok by assumption. eexists. reflexivity.
Qed.

(** X28. What [ListSharedDocuments] answers to an authenticated caller:
    as for the caller's own documents, a [per_page] of 0 makes the
    handler panic with a division by zero once the service has returned,
    and no other value does; a 200 carries the rows and the total of
    [GetSharedWithUser] and echoes [page] and [per_page] as sent; without
    a user in the context the answer is 401 and the service is not
    consulted. *)
Theorem list_shared_documents_replies (st : State) (now : Time) (userID : UUID)
    (page perPage : Z) :
  ((page - 1) * 100 < 2 ^ 63 ->
   (perPage = 0
    <-> Http.ListSharedDocuments st now (Some userID) page perPage
        = Http.Panic "runtime error: integer divide by zero"))
  /\ (forall msg,
        Http.ListSharedDocuments st now (Some userID) page perPage = Http.Panic msg ->
        perPage = 0)
  /\ (forall status p,
        Http.ListSharedDocuments st now (Some userID) page perPage
        = Http.JSONShared status p ->
        status = 200
        /\ Http.PaginatedResponse.Page p = page
        /\ Http.PaginatedResponse.PerPage p = perPage
        /\ GetSharedWithUser st now userID page perPage
           = Ok (Http.PaginatedResponse.Data p, Http.PaginatedResponse.Total p))
  /\ (forall st', Http.ListSharedDocuments st' now None page perPage = Http.unauthorized).
Proof.
  unfold Http.ListSharedDocuments.
  assert (Hpanic : forall msg rows total,
             match Http.totalPages total perPage with
             | Some pages =>
                 Http.JSONShared 200 (Http.PaginatedResponse.mk rows total page perPage pages)
             | None => Http.Panic "runtime error: integer divide by zero"
             end = Http.Panic msg -> perPage = 0).
  { intros msg rows total. unfold Http.totalPages.
    destruct (perPage =? 0) eqn:Hz; [|discriminate].
    intros _. apply Z.eqb_eq. exact Hz. }
  split.
  { intros Hp. destruct (GetSharedWithUser_ok st now userID page perPage Hp) as [rows ->].
    split; [intros ->; reflexivity | apply Hpanic]. }
  split.
  { intros msg.
    destruct (GetSharedWithUser st now userID page perPage) as [[rows total]|e];
      [apply Hpanic | discriminate]. }
  split; [|reflexivity].
  intros status p.
  destruct (GetSharedWithUser st now userID page perPage) as [[rows total]|e];
    [|discriminate].
  destruct (Http.totalPages total perPage) as [pages|]; [|discriminate].
  intros Heq. inversion Heq. subst. cbn. auto.
Qed.

End WithDatabase.

End PagingExtras.

(** * The CORS middleware and the content type *)

Module CorsExtras.
Import GoLib Cors.

Lemma find_Del (key : string) (hs : Headers) :
  find (fun kv => String.eqb (fst kv) key) (Del key hs) = None.
Proof.
  unfold Del. induction hs as [|kv hs IH]; simpl; [reflexivity|].
  destruct (String.eqb (fst kv) key) eqn:He; simpl; [exact IH|].
  rewrite He. exact IH.
Qed.

Lemma find_Del_other (key other : string) (hs : Headers) :
  key <> other ->
  find (fun kv => String.eqb (fst kv) key) (Del other hs)
  = find (fun kv => String.eqb (fst kv) key) hs.
Proof.
  intros Hne. unfold Del. induction hs as [|kv hs IH]; simpl; [reflexivity|].
  destruct (String.eqb (fst kv) other) eqn:Ho; simpl.
  - apply String.eqb_eq in Ho.
    assert (Hk : String.eqb (fst kv) key = false) by (apply String.eqb_neq; congruence).
    rewrite Hk. exact IH.
  - destruct (String.eqb (fst kv) key); [reflexivity | exact IH].
Qed.

Lemma Get_Header (key value : string) (hs : Headers) :
  Get key (Header key value hs) = value.
Proof.
  unfold Get, Header, Set_. destruct (String.eqb value "") eqn:Hv.
  - rewrite find_Del. apply String.eqb_eq in Hv. auto.
  - rewrite StoreFacts.find_app, find_Del. simpl. rewrite String.eqb_refl. reflexivity.
Qed.

Lemma Get_Header_other (key other value : string) (hs : Headers) :
  key <> other -> Get key (Header other value hs) = Get key hs.
Proof.
  intros Hne. unfold Get, Header, Set_. destruct (String.eqb value "").
  - rewrite find_Del_other by exact Hne. reflexivity.
  - rewrite StoreFacts.find_app, find_Del_other by exact Hne.
    destruct (find _ hs); [reflexivity|]. simpl.
    assert (Hk : String.eqb other key = false) by (apply String.eqb_neq; congruence).
    rewrite Hk. reflexivity.
Qed.

(** X24. What [CORS] writes: the request is cut short with a 204 exactly
    when its method is "OPTIONS", and goes on otherwise; the four fixed
    headers are set on every response; [Access-Control-Allow-Origin] is
    the request's origin when the origin is a key of the configured list
    or the list holds "*", and is left as it was otherwise; so with "*"
    configured every origin is echoed next to
    [Access-Control-Allow-Credentials: true]. *)
Theorem cors_headers (allowedOrigins method origin : string) (hs : Headers) :
  let out := fst (CORS allowedOrigins method origin hs) in
  (snd (CORS allowedOrigins method origin hs) = AbortWithStatus 204
   <-> method = "OPTIONS"%string)
  /\ (snd (CORS allowedOrigins method origin hs) = Next <-> method <> "OPTIONS"%string)
  /\ Get "Access-Control-Allow-Methods" out
     = "GET, POST, PUT, PATCH, DELETE, OPTIONS"%string
  /\ Get "Access-Control-Allow-Headers" out
     = "Origin, Content-Type, Accept, Authorization"%string
  /\ Get "Access-Control-Allow-Credentials" out = "true"%string
  /\ Get "Access-Control-Max-Age" out = "86400"%string
  /\ (lookup (originMap allowedOrigins) origin = true ->
      Get "Access-Control-Allow-Origin" out = origin)
  /\ (lookup (originMap allowedOrigins) "*" = true ->
      Get "Access-Control-Allow-Origin" out = origin)
  /\ (lookup (originMap allowedOrigins) origin = false ->
      lookup (originMap allowedOrigins) "*" = false ->
      Get "Access-Control-Allow-Origin" out = Get "Access-Control-Allow-Origin" hs).
Proof.
  cbv zeta.
  assert (Hout : fst (CORS allowedOrigins method origin hs)
                 = Header "Access-Control-Max-Age" "86400"
                     (Header "Access-Control-Allow-Credentials" "true"
                        (Header "Access-Control-Allow-Headers"
                           "Origin, Content-Type, Accept, Authorization"
                           (Header "Access-Control-Allow-Methods"
                              "GET, POST, PUT, PATCH, DELETE, OPTIONS"
                              (if lookup (originMap allowedOrigins) origin
                                  || lookup (originMap allowedOrigins) "*"
                               then Header "Access-Control-Allow-Origin" origin hs
                               else hs))))).
  { unfold CORS. destruct (String.eqb method "OPTIONS"); reflexivity. }
  assert (Hflow : snd (CORS allowedOrigins method origin hs)
                  = if String.eqb method "OPTIONS" then AbortWithStatus 204 else Next).
  { unfold CORS. destruct (String.eqb method "OPTIONS"); reflexivity. }
  rewrite Hout, Hflow. clear Hout Hflow.
  split.
  { destruct (String.eqb method "OPTIONS") eqn:Hm.
    - apply String.eqb_eq in Hm. tauto.
    - apply String.eqb_neq in Hm. split; [discriminate | contradiction]. }
  split.
  { destruct (String.eqb method "OPTIONS") eqn:Hm.
    - apply String.eqb_eq in Hm. split; [discriminate | contradiction].
    - apply String.eqb_neq in Hm. tauto. }
  split.
  { rewrite !Get_Header_other by discriminate. apply Get_Header. }
  split.
  { rewrite !Get_Header_other by discriminate. apply Get_Header. }
  split.
  { rewrite !Get_Header_other by discriminate. apply Get_Header. }
  split; [apply Get_Header|].
  rewrite !Get_Header_other by discriminate.
  split; [intros ->; apply Get_Header|].
  split; [intros ->; rewrite orb_true_r; apply Get_Header|].
  intros -> ->. reflexivity.
Qed.

(** *** [strings.Split] undoes the joining of the configured list *)

Lemma Split_nonempty (s : bytes) (sep : ascii) : Split s sep <> [].
Proof.
  destruct s as [|c s]; simpl; [discriminate|].
  destruct (Ascii.eqb c sep); [discriminate|].
  destruct (Split s sep); discriminate.
Qed.

Lemma Split_piece (piece rest : bytes) :
  ~ In ","%char piece ->
  Split (piece ++ ","%char :: rest) "," = piece :: Split rest ",".
Proof.
  induction piece as [|c piece IH]; intros Hno; simpl.
  - reflexivity.
  - destruct (Ascii.eqb c ",") eqn:Hc.
    + apply Ascii.eqb_eq in Hc. exfalso. apply Hno. left. exact Hc.
    + rewrite IH; [reflexivity|]. intros Hin. apply Hno. right. exact Hin.
Qed.

Lemma Split_last (piece : bytes) :
  ~ In ","%char piece -> Split piece "," = [piece].
Proof.
  induction piece as [|c piece IH]; intros Hno; simpl; [reflexivity|].
  destruct (Ascii.eqb c ",") eqn:Hc.
  - apply Ascii.eqb_eq in Hc. exfalso. apply Hno. left. exact Hc.
  - rewrite IH; [reflexivity|]. intros Hin. apply Hno. right. exact Hin.
Qed.

Lemma Split_join (pieces : list bytes) :
  pieces <> [] -> Forall (fun piece => ~ In ","%char piece) pieces ->
  Split (join pieces) "," = pieces.
Proof.
  induction pieces as [|piece rest IH]; intros Hne Hall; [contradiction|].
  inversion Hall as [|p ps Hpiece Hrest]. subst.
  destruct rest as [|next rest].
  - simpl. apply Split_last. exact Hpiece.
  - change (join (piece :: next :: rest)) with (piece ++ ","%char :: join (next :: rest)).
    rewrite Split_piece by exact Hpiece. rewrite IH; [reflexivity | discriminate | exact Hrest].
Qed.

(** X25. The configured list is read back piece by piece: when
    [allowedOrigins] is the pieces of a non-empty list joined by commas,
    none of them holding a comma, an origin is a key of [originMap]
    exactly when it is one of the pieces with the white space around it
    removed. *)
Theorem origin_map_keys (pieces : list bytes) (origin : string) :
  pieces <> [] -> Forall (fun piece => ~ In ","%char piece) pieces ->
  (lookup (originMap (to_string (join pieces))) origin = true
   <-> exists piece, In piece pieces /\ origin = to_string (TrimSpace piece)).
Proof.
  intros Hne Hall. unfold lookup, originMap.
  rewrite GoLibFacts.of_to_string, (Split_join pieces Hne Hall). split.
  - intros Hex. apply existsb_exists in Hex. destruct Hex as (key & Hin & Hkey).
    apply String.eqb_eq in Hkey. subst key.
    apply in_map_iff in Hin. destruct Hin as (piece & Hp & Hin).
    exists piece. auto.
  - intros (piece & Hin & ->). apply existsb_exists.
    exists (to_string (TrimSpace piece)). split; [|apply String.eqb_refl].
    apply in_map_iff. exists piece. auto.
Qed.

End CorsExtras.

Module ContentTypeExtras.
Import GoLib Utils.

Lemma IndexByte_from_absent (s : bytes) (sep : ascii) (i : Z) :
  ~ In sep s -> IndexByte_from s sep i = -1.
Proof.
  revert i. induction s as [|c s IH]; intros i Hno; simpl; [reflexivity|].
  destruct (Ascii.eqb c sep) eqn:Hc.
  - apply Ascii.eqb_eq in Hc. exfalso. apply Hno. left. exact Hc.
  - apply IH. intros Hin. apply Hno. right. exact Hin.
Qed.

Lemma IndexByte_from_first (s rest : bytes) (sep : ascii) (i : Z) :
  ~ In sep s -> IndexByte_from (s ++ sep :: rest) sep i = i + len s.
Proof.
  revert i. induction s as [|c s IH]; intros i Hno; simpl.
  - rewrite Ascii.eqb_refl. unfold len. simpl. lia.
  - destruct (Ascii.eqb c sep) eqn:Hc.
    + apply Ascii.eqb_eq in Hc. exfalso. apply Hno. left. exact Hc.
    + rewrite IH by (intros Hin; apply Hno; right; exact Hin).
      unfold len. simpl List.length. lia.
Qed.

Lemma of_string_app (s t : string) : of_string (s ++ t) = of_string s ++ of_string t.
Proof.
  unfold of_string. induction s as [|c s IH]; simpl; [reflexivity|].
  rewrite IH. reflexivity.
Qed.

(** X26. [ValidateContentType] ignores the parameters: for a media type
    without a semicolon, the answer for the type followed by a semicolon
    and anything is the answer for the type alone; and the only error is
    [ErrInvalidContentType]. *)
Theorem content_type_parameters_ignored `{Runtime} (mediaType parameters : string) :
  ~ In ";"%char (of_string mediaType) ->
  ValidateContentType (mediaType ++ ";" ++ parameters) = ValidateContentType mediaType
  /\ (ValidateContentType mediaType = None
      \/ ValidateContentType mediaType = Some ErrInvalidContentType).
Proof.
  intros Hno. split.
  - unfold ValidateContentType.
    assert (Hidx : Index (of_string (mediaType ++ ";" ++ parameters)) ";"
                   = len (of_string mediaType)).
    { unfold Index. rewrite of_string_app. simpl.
      change (of_string (String ";" parameters)) with (";"%char :: of_string parameters).
      rewrite IndexByte_from_first by exact Hno. lia. }
    assert (Habsent : Index (of_string mediaType) ";" = -1).
    { unfold Index. apply IndexByte_from_absent. exact Hno. }
    rewrite Hidx, Habsent. cbn [Z.eqb negb].
    assert (Hlen : (len (of_string mediaType) =? -1) = false).
    { apply Z.eqb_neq. pose proof (GoLibFacts.len_nonneg (of_string mediaType)). lia. }
    rewrite Hlen. cbn [negb].
    assert (Hcut : to_string (firstn (Z.to_nat (len (of_string mediaType)))
                                (of_string (mediaType ++ ";" ++ parameters)))
                   = mediaType).
    { rewrite of_string_app. unfold len. rewrite Nat2Z.id.
      rewrite firstn_app, firstn_all, Nat.sub_diag. simpl. rewrite app_nil_r.
      apply GoLibFacts.to_of_string. }
    rewrite Hcut. reflexivity.
  - unfold ValidateContentType. destruct (existsb _ _); auto.
Qed.

End ContentTypeExtras.

(** * Sanitised names pass the sanitiser *)

Module SanitizeExtras.
Import GoLib GoLibFacts Utils UtilsFacts.

Lemma trimLeft_length (s : bytes) : (List.length (trimLeft s) <= List.length s)%nat.
Proof.
  destruct (trimLeft_suffix_le (List.length s) s (le_n _)) as [pre Hpre].
  rewrite Hpre at 2. rewrite length_app. lia.
Qed.

Lemma trimRightRev_length (r : bytes) : (List.length (trimRightRev r) <= List.length r)%nat.
Proof.
  destruct (trimRightRev_suffix_le (List.length r) r (le_n _)) as [pre Hpre].
  rewrite Hpre at 2. rewrite length_app. lia.
Qed.

Lemma trimLeft_again_le (n : nat) :
  forall s : bytes, (List.length s <= n)%nat -> trimLeft (trimLeft s) = trimLeft s.
Proof.
  induction n as [|n IH]; intros s Hn.
  - destruct s; [reflexivity | simpl in Hn; lia].
  - destruct s as [|c1 t1]; [reflexivity|].
    simpl in Hn. cbn [trimLeft].
    destruct (asciiSpace c1) eqn:H1; [apply IH; lia|].
    destruct t1 as [|c2 t2]; [cbn [trimLeft]; rewrite H1; reflexivity|].
    simpl in Hn.
    destruct (space2 c1 c2) eqn:H2; [apply IH; lia|].
    destruct t2 as [|c3 t3]; [cbn [trimLeft]; rewrite H1, H2; reflexivity|].
    simpl in Hn.
    destruct (space3 c1 c2 c3) eqn:H3; [apply IH; lia|].
    cbn [trimLeft]. rewrite H1, H2, H3. reflexivity.
Qed.

Lemma trimRightRev_again_le (n : nat) :
  forall r : bytes, (List.length r <= n)%nat -> trimRightRev (trimRightRev r) = trimRightRev r.
Proof.
  induction n as [|n IH]; intros r Hn.
  - destruct r; [reflexivity | simpl in Hn; lia].
  - destruct r as [|c1 t1]; [reflexivity|].
    simpl in Hn. cbn [trimRightRev].
    destruct (asciiSpace c1) eqn:H1; [apply IH; lia|].
    destruct t1 as [|c2 t2]; [cbn [trimRightRev]; rewrite H1; reflexivity|].
    simpl in Hn.
    destruct (space2 c2 c1) eqn:H2; [apply IH; lia|].
    destruct t2 as [|c3 t3]; [cbn [trimRightRev]; rewrite H1, H2; reflexivity|].
    simpl in Hn.
    destruct (space3 c3 c2 c1) eqn:H3; [apply IH; lia|].
    cbn [trimRightRev]. rewrite H1, H2, H3. reflexivity.
Qed.

(** What is left of a string without leading white space when its end is
    cut has no leading white space either. *)
Lemma trimLeft_front (front back : bytes) :
  trimLeft (front ++ back) = front ++ back -> trimLeft front = front.
Proof.
  intros Hfix.
  assert (Hshort : forall t : bytes,
             (List.length t < List.length (front ++ back))%nat ->
             trimLeft t <> front ++ back).
  { intros t Ht Heq. pose proof (trimLeft_length t) as Hl. rewrite Heq in Hl. lia. }
  destruct front as [|c1 f1]; [reflexivity|].
  cbn [app trimLeft] in Hfix.
  destruct (asciiSpace c1) eqn:H1.
  { exfalso. apply (Hshort (f1 ++ back)); [simpl; lia | exact Hfix]. }
  destruct f1 as [|c2 f2]; [cbn [trimLeft]; rewrite H1; reflexivity|].
  cbn [app] in Hfix.
  destruct (space2 c1 c2) eqn:H2.
  { exfalso. apply (Hshort (f2 ++ back)); [simpl; lia | exact Hfix]. }
  destruct f2 as [|c3 f3]; [cbn [trimLeft]; rewrite H1, H2; reflexivity|].
  cbn [app] in Hfix.
  destruct (space3 c1 c2 c3) eqn:H3.
  { exfalso. apply (Hshort (f3 ++ back)); [simpl; lia | exact Hfix]. }
  cbn [trimLeft]. rewrite H1, H2, H3. reflexivity.
Qed.

Lemma TrimSpace_again (s : bytes) : TrimSpace (TrimSpace s) = TrimSpace s.
Proof.
  unfold TrimSpace.
  pose proof (trimLeft_again_le (List.length s) s (le_n _)) as Hleft.
  set (t := trimLeft s) in *.
  pose proof (trimRightRev_again_le _ (rev t) (le_n _)) as Hright.
  destruct (trimRightRev_suffix_le _ (rev t) (le_n _)) as [pre Hpre].
  set (u := trimRightRev (rev t)) in *.
  assert (Ht : t = rev u ++ rev pre).
  { rewrite <- rev_app_distr, <- Hpre, rev_involutive. reflexivity. }
  assert (Hfront : trimLeft (rev u) = rev u).
  { apply (trimLeft_front (rev u) (rev pre)). rewrite <- Ht. exact Hleft. }
  rewrite Hfront, rev_involutive, Hright. reflexivity.
Qed.

Lemma ReplaceAll_empty_absent (s : bytes) (old : ascii) :
  Forall (fun c => c <> old) s -> ReplaceAll_empty s old = s.
Proof.
  unfold ReplaceAll_empty. induction 1 as [|c s Hc _ IH]; simpl; [reflexivity|].
  apply Ascii.eqb_neq in Hc. rewrite Hc. simpl. rewrite IH. reflexivity.
Qed.

Lemma cleaned_safe_name (name : bytes) :
  name <> [] -> Forall safe_byte name -> cleaned name = TrimSpace name.
Proof.
  intros Hne Hsafe. unfold cleaned.
  assert (Hslash : Forall (fun c => c <> "/"%char) name)
    by (eapply Forall_impl; [|exact Hsafe]; intros c Hc; apply Hc).
  assert (Hback : Forall (fun c => c <> "\"%char) name)
    by (eapply Forall_impl; [|exact Hsafe]; intros c Hc; apply Hc).
  assert (Hzero : Forall (fun c => c <> zero) name)
    by (eapply Forall_impl; [|exact Hsafe]; intros c Hc; apply Hc).
  rewrite (Base_plain_name name Hne Hslash).
  rewrite (ReplaceAll_empty_absent name "/" Hslash).
  rewrite (ReplaceAll_empty_absent name "\" Hback).
  rewrite (ReplaceAll_empty_absent name zero Hzero).
  reflexivity.
Qed.

Lemma TrimSpace_length (s : bytes) : len (TrimSpace s) <= len s.
Proof.
  destruct (TrimSpace_infix s) as (pre & suf & Hs). rewrite Hs at 2.
  rewrite !len_app. pose proof (len_nonneg pre). pose proof (len_nonneg suf). lia.
Qed.

(** X27. A sanitised name passes the sanitiser: when [SanitizeFilename]
    accepts a name with the result [out], it accepts [out] with the
    result [out] exactly when [TrimSpace] leaves [out] as it is; this is
    so whenever [out] is shorter than 255 bytes, that is, whenever
    nothing was cut. *)
Theorem sanitized_name_is_stable (name out : string) :
  SanitizeFilename name = Ok out ->
  (SanitizeFilename out = Ok out <-> TrimSpace (of_string out) = of_string out)
  /\ (len (of_string out) < 255 -> SanitizeFilename out = Ok out).
Proof.
  intros Hok. apply sanitize_string_bytes in Hok.
  destruct (sanitize_ok_safe _ _ Hok) as (Hsafe & Hnc & Hlen).
  assert (Hne : of_string out <> []).
  { intros He. apply Hnc. left. exact He. }
  pose proof (cleaned_safe_name _ Hne Hsafe) as Hclean.
  assert (Hiff : SanitizeFilename out = Ok out
                 <-> TrimSpace (of_string out) = of_string out).
  { rewrite sanitize_string_bytes. split.
    - intros Hagain. apply sanitize_ok_inv in Hagain.
      destruct Hagain as [_ [[_ Heq] | (Hlong & _)]]; [congruence|].
      pose proof (TrimSpace_length (of_string out)). rewrite Hclean in Hlong. lia.
    - intros Hfix. rewrite <- Hfix at 2. rewrite <- Hclean.
      apply sanitize_fits; [exact Hne | rewrite Hclean, Hfix; exact Hnc|].
      rewrite Hclean, Hfix. exact Hlen. }
  split; [exact Hiff|].
  intros Hshort. apply Hiff.
  apply sanitize_ok_inv in Hok.
  destruct Hok as [_ [[_ Heq] | (Hlong & Hext & Heq)]].
  - rewrite Heq. unfold cleaned. apply TrimSpace_again.
  - pose proof (truncated_len _ Hlong Hext) as H255. rewrite <- Heq in H255. lia.
Qed.

End SanitizeExtras.

(** * Files on disk and the totals of the listing *)

Module DiskExtras.
Import Models Store Services System StoreFacts ServicesFacts AccessProperties
       StoreExtras ListingExtras.

Section WithDatabase.
Context `{DB : Database}.

(** X29. A deletion without a fault of the file system removes the
    document's file and nothing else: after a successful [Delete] during
    which [os.Remove] raises no fault, the path of the deleted document
    is not on disk, also when it was missing before, every other path is
    on disk exactly when it was, and no warning is printed. *)
Theorem delete_removes_the_file (st st' : State) (now : Time) (id userID : UUID)
    (doc : Document.t) :
  Delete st now None id userID = (st', None) ->
  GetByID st id = Ok doc ->
  ~ In (Document.FilePath doc) (files st')
  /\ (forall p, p <> Document.FilePath doc -> (In p (files st') <-> In p (files st)))
  /\ warnings st' = warnings st.
Proof.
  unfold Delete. intros Hdel Hget. rewrite Hget in Hdel.
  destruct (N.eqb (Document.OwnerID doc) userID); [|discriminate].
  cbn [negb set_documents files os_Remove] in Hdel.
  destruct (existsb (String.eqb (Document.FilePath doc)) (files st)) eqn:Hex.
  - inversion Hdel. subst st'. cbn [files set_files warnings]. clear Hdel.
    split; [|split; [|reflexivity]].
    + intros Hin. apply filter_In in Hin. destruct Hin as [_ Hneq].
      rewrite String.eqb_refl in Hneq. discriminate.
    + intros p Hne. rewrite filter_In. split; [tauto|].
      intros Hin. split; [exact Hin|].
      apply negb_true_iff, String.eqb_neq. congruence.
  - cbn [IsNotExist negb] in Hdel. inversion Hdel. subst st'.
    cbn [files set_files warnings]. clear Hdel.
    split; [|split; [tauto | reflexivity]].
    intros Hin.
    assert (Htrue : existsb (String.eqb (Document.FilePath doc)) (files st) = true).
    { apply existsb_exists. exists (Document.FilePath doc).
      split; [exact Hin | apply String.eqb_refl]. }
    congruence.
Qed.

Lemma update_deleted_at_absent (now : Time) (id : UUID) (rows : list Document.t) :
  ~ In id (map Document.ID rows) -> map (update_deleted_at now id) rows = rows.
Proof.
  induction rows as [|row rest IH]; simpl; intros Hno; [reflexivity|].
  rewrite IH by tauto. unfold update_deleted_at.
  destruct (N.eqb (Document.ID row) id) eqn:He; [|reflexivity].
  apply N.eqb_eq in He. exfalso. apply Hno. left. exact He.
Qed.

Lemma owned_after_delete (now : Time) (id owner : UUID) (rows : list Document.t)
    (row : Document.t) :
  NoDup (map Document.ID rows) -> In row rows ->
  Document.ID row = id -> Document.DeletedAt row = None -> Document.OwnerID row = owner ->
  S (List.length
       (filter (fun d => N.eqb (Document.OwnerID d) owner && is_null (Document.DeletedAt d))
               (map (update_deleted_at now id) rows)))
  = List.length
      (filter (fun d => N.eqb (Document.OwnerID d) owner && is_null (Document.DeletedAt d))
              rows).
Proof.
  intros Hnd Hin Hid Hlive Hown.
  induction rows as [|first rest IH]; [destruct Hin|].
  simpl in Hnd. inversion Hnd as [|k ks Hfirst Hrest]. subst k ks.
  destruct Hin as [-> | Hin].
  - assert (Hgone : is_null (Document.DeletedAt (update_deleted_at now id row)) = false)
      by (unfold update_deleted_at; rewrite Hid, N.eqb_refl; reflexivity).
    cbn [map filter]. rewrite (update_deleted_at_absent now id rest) by congruence.
    rewrite Hgone, andb_false_r, Hown, N.eqb_refl, Hlive. reflexivity.
  - assert (Hne : Document.ID first <> id).
    { intros He. apply Hfirst. rewrite He, <- Hid. apply in_map. exact Hin. }
    assert (Hsame : update_deleted_at now id first = first).
    { unfold update_deleted_at.
      destruct (N.eqb (Document.ID first) id) eqn:He; [|reflexivity].
      apply N.eqb_eq in He. contradiction. }
    cbn [map filter]. rewrite Hsame.
    destruct (N.eqb (Document.OwnerID first) owner && is_null (Document.DeletedAt first));
      cbn [List.length]; rewrite <- (IH Hrest Hin); reflexivity.
Qed.

Lemma other_owner_after_delete (now : Time) (id owner other : UUID) (rows : list Document.t) :
  other <> owner ->
  (forall d, In d rows -> Document.ID d = id -> Document.DeletedAt d = None ->
             Document.OwnerID d = owner) ->
  filter (fun d => N.eqb (Document.OwnerID d) other && is_null (Document.DeletedAt d))
         (map (update_deleted_at now id) rows)
  = filter (fun d => N.eqb (Document.OwnerID d) other && is_null (Document.DeletedAt d))
           rows.
Proof.
  intros Hne Hrows. induction rows as [|first rest IH]; [reflexivity|].
  cbn [map filter]. rewrite IH by (intros d Hd; apply Hrows; right; exact Hd).
  unfold update_deleted_at.
  destruct (N.eqb (Document.ID first) id) eqn:He; [|reflexivity].
  apply N.eqb_eq in He. cbn [Document.OwnerID Document.DeletedAt is_null].
  rewrite andb_false_r.
  destruct (Document.DeletedAt first) as [t|] eqn:Hd.
  - cbn [is_null]. rewrite andb_false_r. reflexivity.
  - assert (Ho : Document.OwnerID first = owner)
      by (apply Hrows; [left; reflexivity | exact He | exact Hd]).
    assert (Hf : N.eqb (Document.OwnerID first) other = false)
      by (apply N.eqb_neq; congruence).
    rewrite Hf. reflexivity.
Qed.

Lemma GetByOwner_total (st : State) (ownerID : UUID) (page perPage : Z)
    (rows : list Document.t) (total : Z) :
  GetByOwner st ownerID page perPage = Ok (rows, total) ->
  total = Z.of_nat (List.length
                      (filter (fun d => N.eqb (Document.OwnerID d) ownerID
                                        && is_null (Document.DeletedAt d))
                              (documents st)))
  /\ forall st',
       exists rows',
         GetByOwner st' ownerID page perPage
         = Ok (rows',
               Z.of_nat (List.length
                           (filter (fun d => N.eqb (Document.OwnerID d) ownerID
                                             && is_null (Document.DeletedAt d))
                                   (documents st')))).
Proof.
  unfold GetByOwner.
  destruct (limit_offset _ _ _) as [slice|e] eqn:Hlim; [|discriminate].
  intros Heq. inversion Heq. split; [reflexivity|].
  destruct (limit_offset_rows _ _ _ _ Hlim) as (Hl & Ho & _).
  intros st'. rewrite limit_offset_ok by assumption. eexists. reflexivity.
Qed.

(** X30. The total of [GetByOwner] follows uploads and deletions: a
    successful [Create] raises the owner's total by one and a successful
    [Delete], in a state where the ids of [documents] are distinct,
    lowers it by one, for every page and page size for which the listing
    succeeded before; the listings of every other user are what they
    were. *)
Theorem owner_total_follows_changes `{Runtime} (uploadDir : string) (st : State)
    (ownerID : UUID) (page perPage : Z) (rows : list Document.t) (total : Z) :
  GetByOwner st ownerID page perPage = Ok (rows, total) ->
  (forall st' env name originalName mimeType size doc,
     Create uploadDir st env ownerID name originalName mimeType size = (st', Ok doc) ->
     (exists rows', GetByOwner st' ownerID page perPage = Ok (rows', total + 1))
     /\ forall other page' perPage',
          other <> ownerID ->
          GetByOwner st' other page' perPage' = GetByOwner st other page' perPage')
  /\ (forall st' now fault id,
        NoDup (map Document.ID (documents st)) ->
        Delete st now fault id ownerID = (st', None) ->
        (exists rows', GetByOwner st' ownerID page perPage = Ok (rows', total - 1))
        /\ forall other page' perPage',
             other <> ownerID ->
             GetByOwner st' other page' perPage' = GetByOwner st other page' perPage').
Proof.
  intros Hlist. destruct (GetByOwner_total _ _ _ _ _ _ Hlist) as [Htotal Hafter].
  split.
  - intros st' env name originalName mimeType size doc Hc.
    destruct (Create_success _ _ _ _ _ _ _ _ _ _ Hc)
      as (sn & so & _ & _ & _ & Hdoc & _ & _ & Hdocs & _).
    split.
    + destruct (Hafter st') as [rows' Hrows']. exists rows'. rewrite Hrows'.
      rewrite Hdocs, filter_app, length_app. subst doc. cbn.
      rewrite N.eqb_refl. cbn. rewrite Htotal. do 2 f_equal. lia.
    + intros other page' perPage' Hne. unfold GetByOwner.
      rewrite Hdocs, filter_app. subst doc. cbn.
      assert (Hf : N.eqb ownerID other = false) by (apply N.eqb_neq; congruence).
      rewrite Hf. cbn. rewrite app_nil_r. reflexivity.
  - intros st' now fault id Hnd Hdel.
    destruct (HandlerExtras.Delete_success _ _ _ _ _ _ Hdel) as (doc & Hget & Hown & Hdocs).
    destruct (GetByID_cases st id) as [(row & Hin & Hid & Hlive & Hrow) | [_ Hnone]];
      [|congruence].
    assert (Hrow_owner : Document.OwnerID row = ownerID).
    { rewrite Hrow in Hget. inversion Hget. subst doc. exact Hown. }
    split.
    + destruct (Hafter st') as [rows' Hrows']. exists rows'. rewrite Hrows'.
      rewrite Hdocs.
      pose proof (owned_after_delete now id ownerID (documents st) row Hnd Hin Hid Hlive
                    Hrow_owner) as Hcount.
      rewrite Htotal, <- Hcount. do 2 f_equal. lia.
    + intros other page' perPage' Hne. unfold GetByOwner. rewrite Hdocs.
      rewrite (other_owner_after_delete now id ownerID other (documents st) Hne);
        [reflexivity|].
      intros d Hd Hdid Hdlive.
      assert (d = row); [|congruence].
      assert (Hfind : find (fun x => N.eqb (Document.ID x) id
                                      && is_null (Document.DeletedAt x)) (documents st)
                      = Some d).
      { apply (TableInvariants.keyed_row_found Document.ID _ (documents st) d Hnd Hd).
        - rewrite Hdid, N.eqb_refl, Hdlive. reflexivity.
        - intros x Hx. apply andb_true_iff in Hx. destruct Hx as [Hx _].
          apply N.eqb_eq in Hx. congruence. }
      assert (Hfind' : find (fun x => N.eqb (Document.ID x) id
                                       && is_null (Document.DeletedAt x)) (documents st)
                       = Some row).
      { apply (TableInvariants.keyed_row_found Document.ID _ (documents st) row Hnd Hin).
        - rewrite Hid, N.eqb_refl, Hlive. reflexivity.
        - intros x Hx. apply andb_true_iff in Hx. destruct Hx as [Hx _].
          apply N.eqb_eq in Hx. congruence. }
      congruence.
Qed.

End WithDatabase.

End DiskExtras.

(** * The properties on the samples *)

Module ExtraExamples.
Import Models Store Services System Rows Sample Scenario.

Lemma scenario_reachable : reachable uploadDir st_shared_history.
Proof. exists shared_history. reflexivity. Qed.

(** X2 on the share that Alice granted: it has no expiry. *)
Lemma shares_never_expire_witness :
  DocumentShare.ExpiresAt new_share = None
  /\ forall now, not_expired now new_share = true.
Proof.
  apply (AccessExtras.shares_never_expire uploadDir st_shared_history scenario_reachable
           new_share).
  vm_compute. left. reflexivity.
Defined.

(** X3 after the sample history: Bob can read what Alice shared. *)
Lemma share_grants_access_witness :
  exists u,
    GetByEmail st_history "bob@example.com" = Ok u
    /\ forall now',
         (User.ID u <> alice ->
          CanAccess (fst (Share st_history 20 doc1 alice "bob@example.com" "view"))
                    now' doc1 (User.ID u) = (true, "view"%string, None))
         /\ (User.ID u = alice ->
             CanAccess (fst (Share st_history 20 doc1 alice "bob@example.com" "view"))
                       now' doc1 (User.ID u) = (true, "owner"%string, None)).
Proof.
  apply (AccessExtras.share_grants_access uploadDir st_history
           (fst (Share st_history 20 doc1 alice "bob@example.com" "view"))
           20 doc1 alice "bob@example.com" "view" Examples.st_history_reachable).
  vm_compute. reflexivity.
Defined.

(** X4: Bob's share expired at 50; sharing again at 60 does not let Bob
    in at 100. *)
Lemma reshare_keeps_expiry_witness :
  CanAccess (fst (Share (st_shared "view" (Some 50)) 60 doc1 alice "bob@example.com" "edit"))
            100 doc1 bob
  = (false, EmptyString, None).
Proof.
  refine (proj2 (AccessExtras.reshare_keeps_expiry (st_shared "view" (Some 50))
                   (fst (Share (st_shared "view" (Some 50)) 60 doc1 alice
                           "bob@example.com" "edit"))
                   60 100 doc1 alice "bob@example.com" "edit" bob_row _ _ _ _ _)).
  - vm_compute. reflexivity.
  - vm_compute. reflexivity.
  - discriminate.
  - exists (share_row "view" (Some 50)). split; [left; reflexivity | reflexivity].
  - intros s [<- | []] _. exists 50. split; [reflexivity | lia].
Defined.

(** X5: Alice revokes Bob's share. *)
Lemma remove_share_revokes_witness :
  CanAccess (fst (RemoveShare (st_shared "view" None) doc1 alice bob)) 100 doc1 bob
  = (false, EmptyString, None)
  /\ RemoveShare (fst (RemoveShare (st_shared "view" None) doc1 alice bob)) doc1 alice bob
     = (fst (RemoveShare (st_shared "view" None) doc1 alice bob), Some ErrShareNotFound).
Proof.
  destruct (AccessExtras.remove_share_revokes (st_shared "view" None)
              (fst (RemoveShare (st_shared "view" None) doc1 alice bob))
              doc1 alice bob ltac:(vm_compute; reflexivity)) as (Hgone & _ & Hagain).
  split; [|exact Hagain].
  apply (Hgone ltac:(discriminate) 100).
Defined.

(** X6: Alice deletes the first of the two documents. *)
Lemma delete_touches_one_document_witness :
  document_shares (fst (Delete st_two_docs 50 None doc1 alice)) = document_shares st_two_docs
  /\ GetByID (fst (Delete st_two_docs 50 None doc1 alice)) doc2 = GetByID st_two_docs doc2.
Proof.
  destruct (AccessExtras.delete_touches_one_document st_two_docs
              (fst (Delete st_two_docs 50 None doc1 alice)) 50 None doc1 alice
              ltac:(vm_compute; reflexivity)) as (_ & Hshares & _ & Hother & _).
  split; [exact Hshares|]. apply Hother. discriminate.
Defined.

(** X7: Alice uploads "notes.txt". *)
Lemma created_document_is_stored_witness :
  GetByID (fst (Create uploadDir st_owned upload_env alice "" "notes.txt" "text/plain" 64))
          doc2 = Ok doc2_row
  /\ In "./uploads/11"%string
        (files (fst (Create uploadDir st_owned upload_env alice "" "notes.txt"
                       "text/plain" 64))).
Proof.
  assert (Hc : Create uploadDir st_owned upload_env alice "" "notes.txt" "text/plain" 64
               = (fst (Create uploadDir st_owned upload_env alice "" "notes.txt"
                         "text/plain" 64), Ok doc2_row))
    by (vm_compute; reflexivity).
  destruct (StoreExtras.created_document_is_stored uploadDir st_owned _ upload_env alice
              "" "notes.txt" "text/plain" 64 doc2_row Hc)
    as (_ & _ & Hget & _ & Hfile & _).
  split; [exact Hget | exact Hfile].
Defined.

(** X8: the disk fills while the content is copied. *)
Lemma failed_create_leaves_nothing_witness :
  documents (fst (Create uploadDir st_owned failing_env alice "" "notes.txt" "text/plain" 64))
  = documents st_owned
  /\ files (fst (Create uploadDir st_owned failing_env alice "" "notes.txt" "text/plain" 64))
     = files st_owned.
Proof.
  assert (Hc : Create uploadDir st_owned failing_env alice "" "notes.txt" "text/plain" 64
               = (fst (Create uploadDir st_owned failing_env alice "" "notes.txt"
                         "text/plain" 64),
                  Err (ErrWrap "failed to save file" (ErrIO "no space left on device"))))
    by (vm_compute; reflexivity).
  destruct (StoreExtras.failed_create_leaves_nothing uploadDir st_owned _ failing_env alice
              "" "notes.txt" "text/plain" 64 _ Hc)
    as (_ & Hdocs & _ & Hfiles).
  split; [exact Hdocs|]. apply Hfiles; [reflexivity|].
  vm_compute. intros [Hp | []]. discriminate Hp.
Defined.

(** X9 after the sample history. *)
Lemma identifiers_are_keys_witness :
  NoDup (map Document.ID (documents st_history))
  /\ GetByEmail st_history (User.Email alice_row) = Ok alice_row.
Proof.
  destruct (TableInvariants.identifiers_are_keys uploadDir st_history
              Examples.st_history_reachable) as (_ & _ & Hdocs & Husers & _).
  split; [exact Hdocs|]. apply Husers. vm_compute. left. reflexivity.
Defined.

(** X10 after the sample history. *)
Lemma stored_documents_as_created_witness : as_created uploadDir (doc1_row None).
Proof.
  apply (TableInvariants.stored_documents_as_created uploadDir st_history
           Examples.st_history_reachable (doc1_row None)).
  vm_compute. left. reflexivity.
Defined.

(** X11: the row of a deleted document stays. *)
Lemma documents_are_never_lost_witness :
  exists d',
    In d' (documents (run uploadDir st_owned [OpDelete 50 None doc1 alice]))
    /\ same_document (doc1_row None) d'.
Proof.
  apply (TableInvariants.documents_are_never_lost uploadDir [OpDelete 50 None doc1 alice]
           st_owned (doc1_row None)).
  left. reflexivity.
Defined.

(** X12 on the share that Alice granted. *)
Lemma shares_refer_to_rows_witness : share_refers st_shared_history new_share.
Proof.
  apply (TableInvariants.shares_refer_to_rows uploadDir st_shared_history
           scenario_reachable new_share).
  vm_compute. left. reflexivity.
Defined.

(** X13: Alice lists the two documents, the later one first. *)
Lemma owner_listing_rows_witness :
  descending Document.CreatedAt [scan_owned doc2_row; scan_owned (doc1_row None)]
  /\ forall page' perPage' rows' total',
       GetByOwner st_two_docs alice page' perPage' = Ok (rows', total') -> total' = 2.
Proof.
  destruct (ListingExtras.owner_listing_rows st_two_docs alice 1 10
              [scan_owned doc2_row; scan_owned (doc1_row None)] 2
              ltac:(vm_compute; reflexivity))
    as (_ & Hsorted & _ & _ & _ & Htotal & _).
  split; [exact Hsorted | exact Htotal].
Defined.

(** X14: the listing of what is shared with Bob. *)
Lemma shared_listing_rows_witness :
  Document.FilePath (scan_shared (doc1_row None)) = EmptyString
  /\ snd (CanAccess (st_shared "view" None) 100 doc1 bob) = None.
Proof.
  destruct (ListingExtras.shared_listing_rows (st_shared "view" None) 100 bob 1 10
              [DocumentResponse.mk (scan_shared (doc1_row None)) "Alice" []] 1
              ltac:(vm_compute; reflexivity)) as (_ & Hrows).
  destruct (Hrows (DocumentResponse.mk (scan_shared (doc1_row None)) "Alice" [])
              ltac:(left; reflexivity))
    as (Hpath & _ & _ & s & d & owner & _ & Hd & _ & _ & _ & _ & _ & _ & _ & _ & _ & Hcan).
  split; [exact Hpath|].
  destruct Hd as [<- | []]. exact Hcan.
Defined.


(** X16: Carol takes another name and is found with it, under the same
    address and password hash. *)
Lemma update_name_keeps_login_witness :
  Users.GetByID (fst (Users.UpdateName st_registered 9 carol "Caroline")) carol
  = Ok (User.mk carol "carol@example.com" "hash:secret" "Caroline" 7 9).
Proof.
  destruct (UserExtras.update_name_keeps_login st_registered 9 carol "Caroline")
    as (_ & Haccepted & _).
  destruct (Haccepted ltac:(vm_compute; reflexivity)) as (_ & _ & Hfound & _).
  apply (Hfound carol_row). vm_compute. reflexivity.
Defined.

(** X17: a wrong password and an unknown address get the same answer. *)
Lemma login_replies_witness :
  Http.Login generateToken st_registered
    (inr (Http.LoginRequest.mk "carol@example.com" "guess"))
  = Http.Login generateToken st_registered
      (inr (Http.LoginRequest.mk "dave@example.com" "guess")).
Proof.
  destruct (HandlerExtras.login_replies generateToken st_registered
              (Http.LoginRequest.mk "carol@example.com" "guess")) as (Hwrong & _).
  destruct (HandlerExtras.login_replies generateToken st_registered
              (Http.LoginRequest.mk "dave@example.com" "guess")) as (Hunknown & _).
  rewrite Hwrong, Hunknown; [reflexivity | | reflexivity | | reflexivity].
  - intros u Hu. vm_compute in Hu. discriminate Hu.
  - intros u Hu. vm_compute in Hu. inversion Hu. reflexivity.
Defined.

(** X18: Bob downloads what Alice shared. *)
Lemma download_agrees_with_details_witness :
  Http.DownloadDocument (st_shared "view" None) (st_shared "view" None) 100 (Some bob)
                        (Some doc1)
  = Http.File "attachment; filename=report.pdf" "application/pdf" "./uploads/10"
  /\ Http.DownloadDocument (st_shared "view" None)
       (fst (Delete (st_shared "view" None) 101 None doc1 alice)) 100 (Some bob)
       (Some doc1)
     = Http.Panic "runtime error: invalid memory address or nil pointer dereference".
Proof.
  destruct (HandlerExtras.download_agrees_with_details (st_shared "view" None)
              (fst (Delete (st_shared "view" None) 101 None doc1 alice)) 100
              (Some bob) (Some doc1)) as ((_ & Hsame & _) & _ & _ & Hdeleted).
  split.
  - apply (proj1 (Hsame (scan_document (doc1_row None)))). vm_compute. reflexivity.
  - apply (Hdeleted bob doc1 alice 101 None); vm_compute; reflexivity.
Defined.

(** X19: Alice deletes the document over HTTP. *)
Lemma delete_document_replies_witness :
  snd (Http.DeleteDocument st_owned 50 None (Some alice) (Some doc1)) = Http.Status 204
  /\ GetByID (fst (Http.DeleteDocument st_owned 50 None (Some alice) (Some doc1))) doc1
     = Err ErrDocumentNotFound.
Proof.
  destruct (HandlerExtras.delete_document_replies st_owned 50 None alice doc1)
    as (Hok & Hgone & _).
  assert (Hreply : snd (Http.DeleteDocument st_owned 50 None (Some alice) (Some doc1))
                   = Http.Status 204).
  { apply Hok. exists (scan_document (doc1_row None)). split; reflexivity. }
  split; [exact Hreply | exact (Hgone Hreply)].
Defined.

(** X20: a name with a separator is stored as it is sent. *)
Lemma rename_document_replies_witness :
  exists doc doc',
    GetByID st_owned doc1 = Ok doc
    /\ GetByID (fst (Http.RenameDocument st_owned 100 (Some alice) (Some doc1)
                       (inr "../a/b"%string))) doc1 = Ok doc'
    /\ Document.Name doc' = "../a/b"%string
    /\ Document.OwnerID doc' = Document.OwnerID doc
    /\ Document.FilePath doc' = Document.FilePath doc.
Proof.
  destruct (HandlerExtras.rename_document_replies st_owned 100 alice doc1 "../a/b")
    as (_ & Hok & _).
  destruct (Hok ltac:(vm_compute; reflexivity)) as (_ & _ & Hstored).
  exact Hstored.
Defined.

(** X21: Alice shares the document with Bob over HTTP. *)
Lemma share_document_replies_witness :
  exists s,
    In s (document_shares
            (fst (Handlers.ShareDocument st_owned 20 (Some alice) (Some doc1)
                    (inr (ShareRequest.mk "bob@example.com" "edit")))))
    /\ share_for doc1 bob s = true.
Proof.
  destruct (HandlerExtras.share_document_replies st_owned 20 (Some alice) (Some doc1)
              (inr (ShareRequest.mk "bob@example.com" "edit"))) as (Hok & _).
  destruct (Hok ltac:(vm_compute; reflexivity))
    as (owner & id & req & doc & recipient & _ & Hid & Hbody & _ & _ & _ & _ & Hrec & Hshare & _).
  inversion Hid. inversion Hbody. subst id req.
  vm_compute in Hrec. inversion Hrec. subst recipient.
  exact Hshare.
Defined.

(** X22: [per_page=0] makes the listing panic. *)
Lemma list_documents_replies_witness :
  Http.ListDocuments st_two_docs (Some alice) 1 0
  = Http.Panic "runtime error: integer divide by zero".
Proof.
  apply (proj1 (PagingExtras.list_documents_replies st_two_docs alice 1 0));
    [vm_compute | ]; reflexivity.
Defined.

(** X23: an upload of "notes.txt" is answered 201; under a content type
    that is allowed and too long for its column it is not, and neither
    is it for a caller without a row in [users]. *)
Lemma upload_document_replies_witness :
  (exists doc,
     snd (Http.UploadDocument uploadDir 1000 st_owned upload_env (Some alice)
            (Some notes_header) "")
     = Http.JSONDocument 201 doc)
  /\ Utils.ValidateContentType (Http.FileHeader.ContentType long_header) = None
  /\ ~ (exists doc,
          snd (Http.UploadDocument uploadDir 1000 st_owned upload_env (Some alice)
                 (Some long_header) "")
          = Http.JSONDocument 201 doc)
  /\ ~ (exists doc,
          snd (Http.UploadDocument uploadDir 1000 st_owned upload_env (Some carol)
                 (Some notes_header) "")
          = Http.JSONDocument 201 doc).
Proof.
  split.
  { destruct (PagingExtras.upload_document_replies uploadDir 1000 st_owned upload_env
                alice notes_header "") as (_ & _ & Hcreated & _).
    apply Hcreated.
    split; [vm_compute; discriminate|]. split; [vm_compute; reflexivity|].
    split; [exists "notes.txt"%string, "notes.txt"%string; vm_compute; auto|].
    split; [reflexivity|]. split; [reflexivity|]. split; reflexivity. }
  split; [vm_compute; reflexivity|].
  split.
  - destruct (PagingExtras.upload_document_replies uploadDir 1000 st_owned upload_env
                alice long_header "") as (_ & _ & Hcreated & _).
    intros Hdoc. apply Hcreated in Hdoc.
    destruct Hdoc as (_ & _ & (original & stored & Horiginal & Hstored & Hcols) & _).
    vm_compute in Horiginal. inversion Horiginal. subst original.
    vm_compute in Hstored. inversion Hstored. subst stored.
    vm_compute in Hcols. discriminate Hcols.
  - destruct (PagingExtras.upload_document_replies uploadDir 1000 st_owned upload_env
                carol notes_header "") as (_ & _ & Hcreated & _).
    intros Hdoc. apply Hcreated in Hdoc.
    destruct Hdoc as (_ & _ & _ & _ & _ & _ & Howner).
    vm_compute in Howner. discriminate Howner.
Defined.

(** X24: with "*" configured, any origin is echoed. *)
Lemma cors_headers_witness :
  Cors.Get "Access-Control-Allow-Origin"
           (fst (Cors.CORS "*" "GET" "https://other.example" []))
  = "https://other.example"%string
  /\ Cors.Get "Access-Control-Allow-Credentials"
              (fst (Cors.CORS "*" "GET" "https://other.example" []))
     = "true"%string.
Proof.
  destruct (CorsExtras.cors_headers "*" "GET" "https://other.example" [])
    as (_ & _ & _ & _ & Hcred & _ & _ & Hany & _).
  split; [apply Hany; vm_compute; reflexivity | exact Hcred].
Defined.

(** X28: [per_page=0] makes the listing of shared documents panic. *)
Lemma list_shared_documents_replies_witness :
  Http.ListSharedDocuments (st_shared "view" None) 100 (Some bob) 1 0
  = Http.Panic "runtime error: integer divide by zero".
Proof.
  destruct (PagingExtras.list_shared_documents_replies (st_shared "view" None) 100 bob 1 0)
    as (Hpanic & _).
  apply (Hpanic ltac:(vm_compute; reflexivity)). reflexivity.
Defined.

(** X25: both configured origins are keys, without the blanks around
    them. *)
Lemma origin_map_keys_witness :
  Cors.lookup (Cors.originMap (GoLib.to_string (Cors.join origins))) "https://a.example"
  = true.
Proof.
  apply (proj2 (CorsExtras.origin_map_keys origins "https://a.example"
                  ltac:(discriminate)
                  ltac:(repeat constructor; intros Hin;
                        repeat (destruct Hin as [Hin | Hin]; [discriminate Hin|]);
                        exact Hin))).
  exists (GoLib.of_string " https://a.example ").
  split; [left; reflexivity | vm_compute; reflexivity].
Defined.

(** X26: a charset does not change the answer. *)
Lemma content_type_parameters_ignored_witness :
  Utils.ValidateContentType ("text/plain" ++ ";" ++ " charset=utf-8")
  = Utils.ValidateContentType "text/plain".
Proof.
  destruct (@ContentTypeExtras.content_type_parameters_ignored runtime "text/plain" " charset=utf-8"
              ltac:(intros Hin;
                    repeat (destruct Hin as [Hin | Hin]; [discriminate Hin|]);
                    exact Hin)) as [Hsame _].
  exact Hsame.
Defined.

(** X27: "passwd", what is left of "../../../etc/passwd", is accepted as
    it is. *)
Lemma sanitized_name_is_stable_witness :
  Utils.SanitizeFilename "passwd" = Ok "passwd"%string.
Proof.
  destruct (SanitizeExtras.sanitized_name_is_stable "../../../etc/passwd" "passwd"
              ltac:(vm_compute; reflexivity)) as [_ Hshort].
  apply Hshort. vm_compute. reflexivity.
Defined.

(** X29: Alice deletes the document; its file is gone and nothing is
    printed. *)
Lemma delete_removes_the_file_witness :
  warnings (fst (Delete st_owned 50 None doc1 alice)) = warnings st_owned
  /\ ~ In "./uploads/10"%string (files (fst (Delete st_owned 50 None doc1 alice))).
Proof.
  destruct (DiskExtras.delete_removes_the_file st_owned
              (fst (Delete st_owned 50 None doc1 alice)) 50 doc1 alice
              (scan_document (doc1_row None))
              ltac:(vm_compute; reflexivity) ltac:(vm_compute; reflexivity))
    as (Hgone & _ & Hquiet).
  split; [exact Hquiet | exact Hgone].
Defined.

(** X30: after the upload of "notes.txt" Alice's total is 2. *)
Lemma owner_total_follows_changes_witness :
  exists rows',
    GetByOwner (fst (Create uploadDir st_owned upload_env alice "" "notes.txt"
                       "text/plain" 64))
               alice 1 10
    = Ok (rows', 1 + 1).
Proof.
  assert (Hlist : GetByOwner st_owned alice 1 10 = Ok ([scan_owned (doc1_row None)], 1))
    by (vm_compute; reflexivity).
  assert (Hc : Create uploadDir st_owned upload_env alice "" "notes.txt" "text/plain" 64
               = (fst (Create uploadDir st_owned upload_env alice "" "notes.txt"
                         "text/plain" 64), Ok doc2_row))
    by (vm_compute; reflexivity).
  destruct (DiskExtras.owner_total_follows_changes uploadDir st_owned alice 1 10 _ _ Hlist)
    as (Hcreate & _).
  destruct (Hcreate _ upload_env ""%string "notes.txt"%string "text/plain"%string 64
              doc2_row Hc)
    as (Hmore & _).
  exact Hmore.
Defined.

End ExtraExamples.
